(** * MOT2: the aggregation and financial-derivation engine

    A shallow embedding of the report computations of the piece-rate payroll
    application: the bi-monthly report and its cascade
    ([FinalReportView.tsx]), the payroll adjustments ([PayrollView], second
    half of [TransferOrderView.tsx]), the detailed payroll
    ([DetailedPayrollView.tsx]), the annual rollup ([AnnualSummaryView.tsx])
    and the season view ([SeasonView]).

    Numbers.  Every amount of the program is a JavaScript [number], an IEEE
    754 binary64 value.  The computations are written once over an interface
    [JsNumber] of the operators the source uses, and read at two instances:
    - [float]: Rocq's primitive binary64 floats, the arithmetic the program
      runs on (round to nearest even, signed zeros, infinities, one NaN);
    - [Qc]: exact rationals, the arithmetic in which the formulas of the
      report are identities.
    Identifiers (worker ids, task ids, years, months) are integers.

    Host functions.  [parseFloat], [localeCompare] and [String(number)] are
    parameters of the components that call them; [parseFloat] and [parseInt]
    are also given in binary64, as [js_parseFloat] and [js_parseInt]. *)

From Stdlib Require Import ZArith QArith Qcanon Floats String Ascii List Bool Lia Permutation Sorted.
From Stdlib Require OrderedTypeEx.
From stdpp Require Import base option list strings gmap.
Import ListNotations.

Set Warnings "-inexact-float".
Open Scope string_scope.
Open Scope list_scope.

(** ** JavaScript numbers *)

Class JsNumber (N : Type) : Type := {
  nzero : N;                      (* the literal 0 *)
  nadd : N -> N -> N;             (* x + y *)
  nsub : N -> N -> N;             (* x - y *)
  nmul : N -> N -> N;             (* x * y *)
  ndiv : N -> N -> N;             (* x / y *)
  ndec : Z -> nat -> N;           (* the decimal literal m.10^-k *)
  ntruthy : N -> bool;            (* ToBoolean: neither 0, -0 nor NaN *)
  ngtb : N -> N -> bool;          (* x > y *)
  nisNaN : N -> bool;             (* isNaN(x) *)
  njson : N -> N                  (* JSON.parse(JSON.stringify(x)), see [jsonLine] *)
}.

Declare Scope js_scope.
Delimit Scope js_scope with js.
Notation "x + y" := (nadd x y) : js_scope.
Notation "x - y" := (nsub x y) : js_scope.
Notation "x * y" := (nmul x y) : js_scope.
Notation "x / y" := (ndiv x y) : js_scope.

(** [x || 0] on numbers. *)
Definition orZero {N : Type} `{JsNumber N} (x : N) : N :=
  if ntruthy x then x else nzero.

(** *** binary64 *)

(** The double of an integer literal (exact below 2^53). *)
Definition float_of_Z (z : Z) : float :=
  SF2Prim (binary_normalize prec emax z 0 false).

#[export] Instance float_JsNumber : JsNumber float := {
  nzero := 0%float;
  nadd := PrimFloat.add;
  nsub := PrimFloat.sub;
  nmul := PrimFloat.mul;
  ndiv := PrimFloat.div;
  ndec m k := (float_of_Z m / float_of_Z (10 ^ Z.of_nat k))%float;
  ntruthy x := negb ((x =? 0)%float || is_nan x);
  ngtb x y := (y <? x)%float;
  nisNaN := is_nan;
  njson x := if is_finite x && negb (x =? 0)%float then x else 0%float
}.

(** *** exact rationals *)

#[export] Instance Qc_JsNumber : JsNumber Qc := {
  nzero := 0%Qc;
  nadd := Qcplus;
  nsub := Qcminus;
  nmul := Qcmult;
  ndiv := Qcdiv;
  ndec m k := Q2Qc (Qmake m (Pos.of_nat (10 ^ k)));
  ntruthy x := negb (Qc_eq_bool x 0%Qc);
  ngtb x y := match (x ?= y)%Qc with Gt => true | _ => false end;
  nisNaN _ := false;
  njson x := x
}.

(** The two halves of a month, ['first' | 'second']. *)
Inductive Period : Type := PFirst | PSecond.

Definition Period_eqb (p q : Period) : bool :=
  match p, q with
  | PFirst, PFirst | PSecond, PSecond => true
  | _, _ => false
  end.

(** ** Runtime builtins the engine calls *)

(** *** [parseFloat] (ECMA-262, 19.2.4) in binary64

    Leading white space is skipped, then the longest prefix that is a
    [StrDecimalLiteral] is read: a sign, then [Infinity] or decimal digits
    with an optional fraction and an optional exponent.  No such prefix gives
    [NaN].  The decimal value is rounded to the nearest double, ties to even.

    A string is the UTF-8 encoding of the text of the JavaScript string.  The
    characters of [StrWhiteSpaceChar] are the white space and the line
    terminators of the language: TAB, LF, VT, FF, CR and SP in one byte,
    U+00A0 in two, and U+1680, U+2000 to U+200A, U+2028, U+2029, U+202F,
    U+205F, U+3000 and U+FEFF in three. *)

(** TAB, LF, VT, FF, CR, SP. *)
Definition isStrWhiteSpaceChar (c : ascii) : bool :=
  let n := nat_of_ascii c in
  ((9 <=? n) && (n <=? 13) || (n =? 32))%nat.

(** U+00A0, the bytes C2 A0. *)
Definition isStrWhiteSpaceChar2 (c1 c2 : ascii) : bool :=
  ((nat_of_ascii c1 =? 194) && (nat_of_ascii c2 =? 160))%nat.

(** U+1680 (E1 9A 80), U+2000 to U+200A (E2 80 80 to E2 80 8A), U+2028 and
    U+2029 (E2 80 A8, E2 80 A9), U+202F (E2 80 AF), U+205F (E2 81 9F), U+3000
    (E3 80 80) and U+FEFF (EF BB BF). *)
Definition isStrWhiteSpaceChar3 (c1 c2 c3 : ascii) : bool :=
  let n1 := nat_of_ascii c1 in
  let n2 := nat_of_ascii c2 in
  let n3 := nat_of_ascii c3 in
  ((n1 =? 225) && (n2 =? 154) && (n3 =? 128) ||
   (n1 =? 226) && (n2 =? 128) &&
     ((128 <=? n3) && (n3 <=? 138) || (n3 =? 168) || (n3 =? 169) || (n3 =? 175)) ||
   (n1 =? 226) && (n2 =? 129) && (n3 =? 159) ||
   (n1 =? 227) && (n2 =? 128) && (n3 =? 128) ||
   (n1 =? 239) && (n2 =? 187) && (n3 =? 191))%nat.

Definition isDecimalDigit (c : ascii) : bool :=
  let n := nat_of_ascii c in ((48 <=? n) && (n <=? 57))%nat.

Definition digitValue (c : ascii) : Z := Z.of_nat (nat_of_ascii c) - 48.

Fixpoint trimStart (s : string) : string :=
  match s with
  | String c1 rest1 =>
      if isStrWhiteSpaceChar c1 then trimStart rest1
      else
        match rest1 with
        | String c2 rest2 =>
            if isStrWhiteSpaceChar2 c1 c2 then trimStart rest2
            else
              match rest2 with
              | String c3 rest3 =>
                  if isStrWhiteSpaceChar3 c1 c2 c3 then trimStart rest3 else s
              | EmptyString => s
              end
        | EmptyString => s
        end
  | EmptyString => s
  end.

(** Reads decimal digits: their value on top of [value], how many were read
    on top of [count], and the rest of the string. *)
Fixpoint decimalDigits (s : string) (value : Z) (count : nat)
    : Z * nat * string :=
  match s with
  | String c rest =>
      if isDecimalDigit c
      then decimalDigits rest (10 * value + digitValue c) (S count)
      else (value, count, s)
  | EmptyString => (value, count, s)
  end.

(** The value of an [ExponentPart] at the head of [s], 0 when there is none
    (an [e] without digits is not part of the literal). *)
Definition exponentPart (s : string) : Z :=
  match s with
  | String c rest =>
      if (c =? "e")%char || (c =? "E")%char then
        let '(neg, rest') :=
          match rest with
          | String "+" r => (false, r)
          | String "-" r => (true, r)
          | _ => (false, rest)
          end in
        let '(v, n, _) := decimalDigits rest' 0 0 in
        match n with O => 0 | _ => if neg then - v else v end
      else 0
  | EmptyString => 0
  end%Z.

(** The double nearest to [m * 10^e], [m >= 0], with the sign [neg]. *)
Definition float_of_decimal (neg : bool) (m e : Z) : float :=
  let r :=
    match m with
    | Zpos p =>
        if (0 <=? e)%Z then binary_normalize prec emax (m * 10 ^ e) 0 false
        else SFdiv prec emax (S754_finite false p 0)
               (S754_finite false (Z.to_pos (10 ^ (- e))) 0)
    | _ => S754_zero false
    end in
  SF2Prim (if neg then SFopp r else r).

Definition strUnsignedDecimalLiteral (neg : bool) (s : string) : float :=
  if String.prefix "Infinity" s then (if neg then neg_infinity else infinity)
  else
    let '(int, n1, rest) := decimalDigits s 0 0 in
    let '(m, n2, rest') :=
      match rest with
      | String "." r =>
          let '(m, n2, r') := decimalDigits r int 0 in
          match n1, n2 with
          | O, O => (int, O, rest)
          | _, _ => (m, n2, r')
          end
      | _ => (int, O, rest)
      end in
    match n1, n2 with
    | O, O => nan
    | _, _ => float_of_decimal neg m (exponentPart rest' - Z.of_nat n2)
    end.

Definition js_parseFloat (s : string) : float :=
  match trimStart s with
  | String "+" rest => strUnsignedDecimalLiteral false rest
  | String "-" rest => strUnsignedDecimalLiteral true rest
  | t => strUnsignedDecimalLiteral false t
  end.

(** [s || '0'] on an optional string: [undefined] and [''] are falsy. *)
Definition orString0 (s : option string) : string :=
  match s with
  | Some "" | None => "0"
  | Some t => t
  end.

(** *** [Array.prototype.sort(compareFn)] (ECMA-262, 23.1.3.30)

    [compareFn a b] below 0 puts [a] before [b]; the sort is stable.  The
    elements are inserted one by one, each behind the elements it does not go
    before: for a comparator that is a consistent order this is the order the
    standard defines.  For another comparator the standard leaves the order
    to the implementation; the result is a permutation of the array in either
    case.

    The components order their lines by [a.name.localeCompare(b.name)], whose
    order is the collation of the host's locale: [localeCompare] is a
    parameter of the components, with the sign of its result as an integer. *)

Fixpoint insertBy {A : Type} (compareFn : A -> A -> Z) (a : A) (sorted : list A)
    : list A :=
  match sorted with
  | [] => [a]
  | b :: rest =>
      if (compareFn a b <? 0)%Z then a :: sorted
      else b :: insertBy compareFn a rest
  end.

Definition arraySort {A : Type} (compareFn : A -> A -> Z) (l : list A) : list A :=
  fold_left (fun sorted a => insertBy compareFn a sorted) l [].

(** *** Dates of a half-month period

    [new Date(Date.UTC(year, month - 1, day)).toISOString().split('T')[0]]
    and [new Date(year, month, 0).getDate()], for the years 100 to 9999 and
    the months 1 to 12 that the form offers. *)

Definition isLeapYear (y : Z) : bool :=
  ((y mod 4 =? 0) && (negb (y mod 100 =? 0) || (y mod 400 =? 0)))%Z.

Definition lastDayOfMonth (year month : Z) : Z :=
  match month with
  | 4 | 6 | 9 | 11 => 30
  | 2 => if isLeapYear year then 29 else 28
  | _ => 31
  end%Z.

Definition digitChar (n : Z) : ascii :=
  ascii_of_nat (48 + Z.to_nat (n mod 10)).

Definition pad2 (n : Z) : string :=
  String (digitChar (n / 10)) (String (digitChar n) "").

Definition isoDate (year month day : Z) : string :=
  String (digitChar (year / 1000)) (String (digitChar (year / 100))
    (pad2 year)) ++ "-" ++ pad2 month ++ "-" ++ pad2 day.

(** [Date.UTC(year, monthIndex, 1)] (ECMA-262, 21.4.3.4), as the count of the
    months from January of the year 0: a year from 0 to 99 stands for 1900
    plus that year, a month index outside 0 to 11 runs into the neighbouring
    years, and a date outside the range of time values, from April 20 of the
    year -271821 to September 13 of the year 275760, is invalid. *)
Definition utcMonth (year monthIndex : Z) : option Z :=
  let yr := if (0 <=? year)%Z && (year <=? 99)%Z then (1900 + year)%Z else year in
  let months := (yr * 12 + monthIndex)%Z in
  if (-271821 * 12 + 4 <=? months)%Z && (months <=? 275760 * 12 + 8)%Z
  then Some months else None.

Definition startDateNum (period : Period) : Z :=
  match period with PFirst => 1 | PSecond => 16 end.

Definition endDateNum (year month : Z) (period : Period) : Z :=
  match period with PFirst => 15 | PSecond => lastDayOfMonth year month end.

(** ** Data model ([types.ts], the fields the engine reads) *)

Module Worker.
(** Modelled from the spec: [Worker] of types.ts (WorkerRecord), which is not
    among the sources; the fields the engine reads. *)
Record t (N : Type) : Type := mk {
  id : Z;
  name : string;
  seniorityPercentage : N
}.
Arguments mk {N}.
Arguments id {N}.
Arguments name {N}.
Arguments seniorityPercentage {N}.
End Worker.

Module Task.
(** Modelled from the spec: [Task] of types.ts (TaskDefinition), which is not
    among the sources; the price is the one field the engine reads. *)
Record t (N : Type) : Type := mk { price : N }.
Arguments mk {N}.
Arguments price {N}.
End Task.

Module DailyLog.
(** Modelled from the spec: [DailyLog] of types.ts (ActivityLogEntry), which is
    not among the sources.  The owner tag may be missing. *)
Record t (N : Type) : Type := mk {
  workerId : Z;
  taskId : Z;
  quantity : N;
  date : string;
  owner : option string
}.
Arguments mk {N}.
Arguments workerId {N}.
Arguments taskId {N}.
Arguments quantity {N}.
Arguments date {N}.
Arguments owner {N}.
End DailyLog.

Module WorkedDays.
(** Modelled from the spec: [WorkedDays] of types.ts (AttendanceEntry), which
    is not among the sources. *)
Record t (N : Type) : Type := mk {
  workerId : Z;
  year : Z;
  month : Z;
  period : Period;
  days : N;
  owner : option string
}.
Arguments mk {N}.
Arguments workerId {N}.
Arguments year {N}.
Arguments month {N}.
Arguments period {N}.
Arguments days {N}.
Arguments owner {N}.
End WorkedDays.

Module WorkerGroup.
(** Modelled from the spec: [WorkerGroup] of types.ts, which is not among the
    sources; the fields the engine reads.  A group may have no owner. *)
Record t (N : Type) : Type := mk {
  groupName : string;
  owner : option string;
  workers : list (Worker.t N)
}.
Arguments mk {N}.
Arguments groupName {N}.
Arguments owner {N}.
Arguments workers {N}.
End WorkerGroup.

(** The two in-kind indemnity tasks. *)
Definition LAIT_TASK_ID : Z := 37.
Definition PANIER_TASK_ID : Z := 47.

(** [log.taskId !== LAIT_TASK_ID && log.taskId !== PANIER_TASK_ID] *)
Definition notIndemnity {N : Type} (log : DailyLog.t N) : bool :=
  negb (DailyLog.taskId log =? LAIT_TASK_ID)%Z &&
  negb (DailyLog.taskId log =? PANIER_TASK_ID)%Z.

(** [taskMap.get(taskId)?.price || 0] *)
Definition priceOr0 {N : Type} `{JsNumber N}
    (taskMap : gmap Z (Task.t N)) (taskId : Z) : N :=
  match taskMap !! taskId with
  | Some task => orZero (Task.price task)
  | None => nzero
  end.

(** [map.set(taskId, (map.get(taskId) || 0) + quantity)] on a [Map] of
    quantities by task: a missing total reads as 0. *)
Definition addQuantity {N : Type} `{JsNumber N} (taskId : Z) (quantity : N)
    (m : gmap Z N) : gmap Z N :=
  <[ taskId := (orZero (default nzero (m !! taskId)) + quantity)%js ]> m.

(** The combined withholding rate, the literal [0.0674]. *)
Definition RETENU_RATE {N : Type} `{JsNumber N} : N := ndec 674 4.

(** ** FinalReportView.tsx: the bi-monthly report and its cascade *)

Module FinalReportData.
(** Modelled from the spec: [FinalReportData] of types.ts, which is not among
    the sources; the fields [handleGenerateDraft] sets and the engine reads. *)
Record t (N : Type) : Type := mk {
  workers : list (Worker.t N);
  logs : list (DailyLog.t N);
  allWorkedDays : list (WorkedDays.t N)
}.
Arguments mk {N}.
Arguments workers {N}.
Arguments logs {N}.
Arguments allWorkedDays {N}.
End FinalReportData.

Module PayrollTask.
(** Modelled from the spec: an element of [PayrollData['tasks']] of types.ts,
    with the fields [handleSave] sets. *)
Record t (N : Type) : Type := mk {
  taskId : Z;
  quantity : N;
  price : N;
  amount : N
}.
Arguments mk {N}.
Arguments taskId {N}.
Arguments quantity {N}.
Arguments price {N}.
Arguments amount {N}.
End PayrollTask.

Module PayrollData.
(** Modelled from the spec: [PayrollData] of types.ts, with the fields
    [handleSave] sets. *)
Record t (N : Type) : Type := mk {
  worker : Worker.t N;
  tasks : list (PayrollTask.t N);
  totalOperation : N;
  anciennete : N;
  totalBrut : N;
  retenu : N;
  joursTravailles : N;
  jourFerier : N
}.
Arguments mk {N}.
Arguments worker {N}.
Arguments tasks {N}.
Arguments totalOperation {N}.
Arguments anciennete {N}.
Arguments totalBrut {N}.
Arguments retenu {N}.
Arguments joursTravailles {N}.
Arguments jourFerier {N}.
End PayrollData.

Module TransferOrderData.
(** Modelled from the spec: [TransferOrderData] of types.ts, with the fields
    [handleSave] sets. *)
Record t (N : Type) : Type := mk {
  worker : Worker.t N;
  netPay : N
}.
Arguments mk {N}.
Arguments worker {N}.
Arguments netPay {N}.
End TransferOrderData.

Module FinalReportView.
Section WithNumbers.
Context {N : Type} `{JsNumber N}.

(** [handleGenerateDraft], line 355: the logs of the draft are those dated
    inside the period whose worker is one of the workers of the report.
    [startDateStr] and [endDateStr] are the ISO dates of the period's first
    and last day; ISO dates are compared as strings. *)
Definition logsForReport (allLogs : list (DailyLog.t N))
    (startDateStr endDateStr : string) (workerIdsToReport : list Z)
    : list (DailyLog.t N) :=
  List.filter
    (fun log =>
       String.leb startDateStr (DailyLog.date log) &&
       String.leb (DailyLog.date log) endDateStr &&
       existsb (Z.eqb (DailyLog.workerId log)) workerIdsToReport)
    allLogs.

(** The roster of the form, lines 219-223: the workers of every group, the
    departed ones included.  (The guards against a missing group, worker list
    or worker do nothing on typed data.) *)
Definition allWorkersIncludingDeparted (workerGroups : list (WorkerGroup.t N))
    : list (Worker.t N) :=
  flat_map WorkerGroup.workers workerGroups.

(** The host's [localeCompare] and [String(number)]. *)
Variable localeCompare : string -> string -> Z.
Variable numberToString : N -> string.

(** [handlePrepareDaysEntry], lines 303-329.  Nothing is prepared when no
    worker is selected.  Otherwise the workers of the days-entry step are the
    workers of the roster whose id is selected, ordered by name, and the days
    field of each is filled from the worker's attendance entry for the period,
    ['0'] when there is none.  The result is [(initialDrafts,
    relevantWorkers)]. *)
Definition handlePrepareDaysEntry (workerGroups : list (WorkerGroup.t N))
    (workedDays : list (WorkedDays.t N)) (selectedWorkerIds : list Z)
    (selectedYear selectedMonth : Z) (selectedPeriod : Period)
    : option (gmap Z string * list (Worker.t N)) :=
  match selectedWorkerIds with
  | [] => None
  | _ =>
      let relevantWorkers :=
        arraySort (fun a b => localeCompare (Worker.name a) (Worker.name b))
          (List.filter
             (fun w => existsb (Z.eqb (Worker.id w)) selectedWorkerIds)
             (allWorkersIncludingDeparted workerGroups)) in
      let initialDrafts : gmap Z string :=
        fold_left
          (fun drafts worker =>
             let entry :=
               List.find
                 (fun d =>
                    (WorkedDays.workerId d =? Worker.id worker)%Z &&
                    (WorkedDays.year d =? selectedYear)%Z &&
                    (WorkedDays.month d =? selectedMonth)%Z &&
                    Period_eqb (WorkedDays.period d) selectedPeriod)
                 workedDays in
             <[ Worker.id worker :=
                  match entry with
                  | Some entry => numberToString (WorkedDays.days entry)
                  | None => "0"
                  end ]> drafts)
          relevantWorkers ∅ in
      Some (initialDrafts, relevantWorkers)
  end.

(** [handleGenerateDraft]: the draft of the report for the workers of the
    days-entry step.  The attendance entries the handler first saves go to
    the persistence layer; the draft keeps the [workedDays] it was given. *)
Definition handleGenerateDraft (allLogs : list (DailyLog.t N))
    (workedDays : list (WorkedDays.t N))
    (workersForDaysEntry : list (Worker.t N))
    (selectedYear selectedMonth : Z) (selectedPeriod : Period)
    : FinalReportData.t N :=
  let startDateStr :=
    isoDate selectedYear selectedMonth (startDateNum selectedPeriod) in
  let endDateStr :=
    isoDate selectedYear selectedMonth
      (endDateNum selectedYear selectedMonth selectedPeriod) in
  let workerIdsToReport := List.map Worker.id workersForDaysEntry in
  FinalReportData.mk workersForDaysEntry
    (logsForReport allLogs startDateStr endDateStr workerIdsToReport)
    workedDays.

(** [ReportContent], lines 44-65: [dataMap], the quantity per worker and
    task, and [columnTotals], the quantity per task. *)
Definition dataMap (logs : list (DailyLog.t N)) : gmap Z (gmap Z N) :=
  fold_left
    (fun dataMap log =>
       let workerMap := default ∅ (dataMap !! DailyLog.workerId log) in
       <[ DailyLog.workerId log :=
            addQuantity (DailyLog.taskId log) (DailyLog.quantity log) workerMap ]>
         dataMap)
    logs ∅.

Definition columnTotals (logs : list (DailyLog.t N)) : gmap Z N :=
  fold_left
    (fun totals log =>
       addQuantity (DailyLog.taskId log) (DailyLog.quantity log) totals)
    logs ∅.

(** [getDaysWorkedForWorker]: the days of the first attendance entry of the
    worker for the period, [entry?.days || 0]. *)
Definition getDaysWorkedForWorker (workedDays : list (WorkedDays.t N))
    (year month : Z) (period : Period) (workerId : Z) : N :=
  match
    List.find
      (fun d =>
         (WorkedDays.workerId d =? workerId)%Z &&
         (WorkedDays.year d =? year)%Z &&
         (WorkedDays.month d =? month)%Z &&
         Period_eqb (WorkedDays.period d) period)
      workedDays
  with
  | Some entry => orZero (WorkedDays.days entry)
  | None => nzero
  end.

(** [tasksSummary], a [Map] from task id to [{quantity, price}]: a [Map]
    iterates in insertion order, a key set again keeps its place. *)
Fixpoint tasksSummary_add (taskId : Z) (quantity price : N)
    (m : list (Z * (N * N))) : list (Z * (N * N)) :=
  match m with
  | [] => [(taskId, ((nzero + quantity)%js, price))]
  | (k, (q, p)) :: rest =>
      if (k =? taskId)%Z
      then (k, ((q + quantity)%js, p)) :: rest
      else (k, (q, p)) :: tasksSummary_add taskId quantity price rest
  end.

Definition tasksSummary (taskMap : gmap Z (Task.t N))
    (workerLogs : list (DailyLog.t N)) : list (Z * (N * N)) :=
  fold_left
    (fun m log =>
       match taskMap !! DailyLog.taskId log with
       | None => m                                   (* if (!task) return; *)
       | Some task =>
           tasksSummary_add (DailyLog.taskId log) (DailyLog.quantity log)
             (Task.price task) m
       end)
    (List.filter notIndemnity workerLogs) [].

Definition workerTasks (taskMap : gmap Z (Task.t N))
    (workerLogs : list (DailyLog.t N)) : list (PayrollTask.t N) :=
  List.map
    (fun '(taskId, (quantity, price)) =>
       PayrollTask.mk taskId quantity price (quantity * price)%js)
    (tasksSummary taskMap workerLogs).

(** [tasks.sort((a, b) => a.taskId - b.taskId)] *)
Fixpoint insertTask (t : PayrollTask.t N) (l : list (PayrollTask.t N))
    : list (PayrollTask.t N) :=
  match l with
  | [] => [t]
  | u :: rest =>
      if (PayrollTask.taskId t <? PayrollTask.taskId u)%Z
      then t :: u :: rest
      else u :: insertTask t rest
  end.

Definition sortTasks (l : list (PayrollTask.t N)) : list (PayrollTask.t N) :=
  fold_left (fun sorted t => insertTask t sorted) l [].

(** [handleSave], step 2: the payroll line of one worker. *)
Definition payrollLine (draftData : FinalReportData.t N)
    (workedDays : list (WorkedDays.t N)) (taskMap : gmap Z (Task.t N))
    (selectedYear selectedMonth : Z) (selectedPeriod : Period)
    (worker : Worker.t N) : PayrollData.t N :=
  let workerLogs :=
    List.filter (fun l => (DailyLog.workerId l =? Worker.id worker)%Z)
      (FinalReportData.logs draftData) in
  let joursTravailles :=
    getDaysWorkedForWorker workedDays selectedYear selectedMonth
      selectedPeriod (Worker.id worker) in
  let workerTasks := workerTasks taskMap workerLogs in
  let totalOperation :=
    fold_left (fun sum task => (sum + PayrollTask.amount task)%js)
      workerTasks nzero in
  let anciennete :=
    (totalOperation * (Worker.seniorityPercentage worker / ndec 100 0))%js in
  let jourFerier := nzero in
  let totalBrut := (totalOperation + anciennete + jourFerier)%js in
  let retenu := (totalBrut * RETENU_RATE)%js in
  PayrollData.mk worker (sortTasks workerTasks) totalOperation anciennete
    totalBrut retenu joursTravailles jourFerier.

Definition payrollData (draftData : FinalReportData.t N)
    (workedDays : list (WorkedDays.t N)) (taskMap : gmap Z (Task.t N))
    (selectedYear selectedMonth : Z) (selectedPeriod : Period)
    : list (PayrollData.t N) :=
  List.map
    (payrollLine draftData workedDays taskMap selectedYear selectedMonth
       selectedPeriod)
    (FinalReportData.workers draftData).

(** [handleSave], step 3: the transfer-order line of one worker, before the
    filter. *)
Definition transferTotalOperation (draftData : FinalReportData.t N)
    (taskMap : gmap Z (Task.t N)) (worker : Worker.t N) : N :=
  fold_left
    (fun sum log =>
       (sum + DailyLog.quantity log * priceOr0 taskMap (DailyLog.taskId log))%js)
    (List.filter
       (fun l => (DailyLog.workerId l =? Worker.id worker)%Z && notIndemnity l)
       (FinalReportData.logs draftData))
    nzero.

Definition transferLine (draftData : FinalReportData.t N)
    (workedDays : list (WorkedDays.t N)) (taskMap : gmap Z (Task.t N))
    (selectedYear selectedMonth : Z) (selectedPeriod : Period)
    (worker : Worker.t N) : TransferOrderData.t N :=
  let joursTravailles :=
    getDaysWorkedForWorker workedDays selectedYear selectedMonth
      selectedPeriod (Worker.id worker) in
  let totalOperation := transferTotalOperation draftData taskMap worker in
  let anciennete :=
    (totalOperation * (Worker.seniorityPercentage worker / ndec 100 0))%js in
  let jourFerier := nzero in
  let totalBrut := (totalOperation + anciennete + jourFerier)%js in
  let retenu := (totalBrut * RETENU_RATE)%js in
  let indemniteLait := (joursTravailles * priceOr0 taskMap LAIT_TASK_ID)%js in
  let primePanier := (joursTravailles * priceOr0 taskMap PANIER_TASK_ID)%js in
  let netPay := (totalBrut - retenu + indemniteLait + primePanier)%js in
  TransferOrderData.mk worker netPay.

Definition transferOrderData (draftData : FinalReportData.t N)
    (workedDays : list (WorkedDays.t N)) (taskMap : gmap Z (Task.t N))
    (selectedYear selectedMonth : Z) (selectedPeriod : Period)
    : list (TransferOrderData.t N) :=
  List.filter
    (fun item => ngtb (TransferOrderData.netPay item) nzero)
    (List.map
       (transferLine draftData workedDays taskMap selectedYear selectedMonth
          selectedPeriod)
       (FinalReportData.workers draftData)).

End WithNumbers.
End FinalReportView.

(** ** DetailedPayrollView.tsx: the detailed payroll *)

Definition RET_CNSS_RATE {N : Type} `{JsNumber N} : N := ndec 448 4.
Definition RET_AMO_RATE {N : Type} `{JsNumber N} : N := ndec 226 4.

Module DetailedInputs.
(** Modelled from the spec: an entry of [additionalInputs] of a detailed
    payroll (types.ts), the strings of the two input fields. *)
Record t : Type := mk { avanceAid : string; ir : string }.
End DetailedInputs.

Module DetailedPayrollData.
(** Modelled from the spec: [DetailedPayrollData] of types.ts, with the fields
    [generateReportData] sets. *)
Record t (N : Type) : Type := mk {
  worker : Worker.t N;
  montant : N;
  anciennete : N;
  total : N;
  indemLait : N;
  primePanier : N;
  retCnss : N;
  retAmo : N;
  avanceAid : N;
  ir : N;
  netAPayer : N;
  joursTravailles : N;
  congePaye : N;
  jourFerier : N
}.
Arguments mk {N}.
Arguments worker {N}.
Arguments montant {N}.
Arguments anciennete {N}.
Arguments total {N}.
Arguments indemLait {N}.
Arguments primePanier {N}.
Arguments retCnss {N}.
Arguments retAmo {N}.
Arguments avanceAid {N}.
Arguments ir {N}.
Arguments netAPayer {N}.
Arguments joursTravailles {N}.
Arguments congePaye {N}.
Arguments jourFerier {N}.
End DetailedPayrollData.

Module SavedDetailedPayroll.
(** Modelled from the spec: [SavedDetailedPayroll] of types.ts, its parameters
    and its lines; identifiers and time stamps are left out. *)
Record t (N : Type) : Type := mk {
  year : Z;
  month : Z;
  period : Period;
  workerIds : list Z;
  additionalInputs : gmap Z DetailedInputs.t;
  data : list (DetailedPayrollData.t N)
}.
Arguments mk {N}.
Arguments year {N}.
Arguments month {N}.
Arguments period {N}.
Arguments workerIds {N}.
Arguments additionalInputs {N}.
Arguments data {N}.
End SavedDetailedPayroll.

Module DetailedPayrollView.
Section WithNumbers.
Context {N : Type} `{JsNumber N}.
(** The runtime's [parseFloat]; [js_parseFloat] in binary64. *)
Variable parseFloat : string -> N.
(** The host's [localeCompare]. *)
Variable localeCompare : string -> string -> Z.
(** The state of the component: the roster, the live logs and attendance
    entries, and the price table. *)
Variable workerGroups : list (WorkerGroup.t N).
Variable allLogs : list (DailyLog.t N).
Variable workedDays : list (WorkedDays.t N).
Variable taskMap : gmap Z (Task.t N).

Definition allWorkers : list (Worker.t N) :=
  flat_map WorkerGroup.workers workerGroups.

Definition getDaysWorkedForWorker (year month : Z) (period : Period)
    (workerId : Z) : N :=
  match
    List.find
      (fun d =>
         (WorkedDays.workerId d =? workerId)%Z &&
         (WorkedDays.year d =? year)%Z &&
         (WorkedDays.month d =? month)%Z &&
         Period_eqb (WorkedDays.period d) period)
      workedDays
  with
  | Some entry => orZero (WorkedDays.days entry)
  | None => nzero
  end.

(** The line of one requested worker, [null] when the roster does not have
    the worker. *)
Definition reportLine (year month : Z) (period : Period)
    (currentInputs : gmap Z DetailedInputs.t) (workerId : Z)
    : option (DetailedPayrollData.t N) :=
  let startDateStr := isoDate year month (startDateNum period) in
  let endDateStr := isoDate year month (endDateNum year month period) in
  match List.find (fun w => (Worker.id w =? workerId)%Z) allWorkers with
  | None => None
  | Some worker =>
      let joursTravailles := getDaysWorkedForWorker year month period workerId in
      let workerLogs :=
        List.filter
          (fun log =>
             String.leb startDateStr (DailyLog.date log) &&
             String.leb (DailyLog.date log) endDateStr &&
             (DailyLog.workerId log =? workerId)%Z)
          allLogs in
      let montant :=
        fold_left
          (fun sum log =>
             (sum + DailyLog.quantity log * priceOr0 taskMap (DailyLog.taskId log))%js)
          (List.filter notIndemnity workerLogs) nzero in
      let anciennete :=
        (montant * (Worker.seniorityPercentage worker / ndec 100 0))%js in
      let total := (montant + anciennete)%js in
      let indemLait := (joursTravailles * priceOr0 taskMap LAIT_TASK_ID)%js in
      let primePanier := (joursTravailles * priceOr0 taskMap PANIER_TASK_ID)%js in
      let retCnss := (total * RET_CNSS_RATE)%js in
      let retAmo := (total * RET_AMO_RATE)%js in
      let avanceAid :=
        orZero (parseFloat (orString0
          (DetailedInputs.avanceAid <$> currentInputs !! workerId))) in
      let ir :=
        orZero (parseFloat (orString0
          (DetailedInputs.ir <$> currentInputs !! workerId))) in
      let netAPayer :=
        (total + indemLait + primePanier - retCnss - retAmo - avanceAid - ir)%js in
      Some (DetailedPayrollData.mk worker montant anciennete total indemLait
              primePanier retCnss retAmo avanceAid ir netAPayer joursTravailles
              nzero nzero)
  end.

Definition generateReportData (workerIds : list Z) (year month : Z)
    (period : Period) (currentInputs : gmap Z DetailedInputs.t)
    : list (DetailedPayrollData.t N) :=
  omap (reportLine year month period currentInputs) workerIds.

(** [data.sort((a, b) => a.worker.name.localeCompare(b.worker.name))] *)
Definition sortByWorkerName (data : list (DetailedPayrollData.t N))
    : list (DetailedPayrollData.t N) :=
  arraySort
    (fun a b =>
       localeCompare (Worker.name (DetailedPayrollData.worker a))
         (Worker.name (DetailedPayrollData.worker b)))
    data.

(** [handleGenerateDraft]: a new report, every input empty, its lines ordered
    by worker name. *)
Definition handleGenerateDraft (selectedWorkerIds : list Z)
    (selectedYear selectedMonth : Z) (selectedPeriod : Period)
    : SavedDetailedPayroll.t N :=
  let initialInputs : gmap Z DetailedInputs.t :=
    fold_left (fun acc id => <[ id := DetailedInputs.mk "" "" ]> acc)
      selectedWorkerIds ∅ in
  let data :=
    generateReportData selectedWorkerIds selectedYear selectedMonth
      selectedPeriod initialInputs in
  SavedDetailedPayroll.mk selectedYear selectedMonth selectedPeriod
    selectedWorkerIds initialInputs (sortByWorkerName data).

(** [handleSaveAdjustments]: the report is generated again, from the state of
    the component, with the edited inputs, and its lines are ordered by
    worker name; [updatedAt] is a time stamp. *)
Definition handleSaveAdjustments (viewingReport : SavedDetailedPayroll.t N)
    (draftAdjustments : gmap Z DetailedInputs.t) : SavedDetailedPayroll.t N :=
  let updatedData :=
    generateReportData (SavedDetailedPayroll.workerIds viewingReport)
      (SavedDetailedPayroll.year viewingReport)
      (SavedDetailedPayroll.month viewingReport)
      (SavedDetailedPayroll.period viewingReport) draftAdjustments in
  SavedDetailedPayroll.mk
    (SavedDetailedPayroll.year viewingReport)
    (SavedDetailedPayroll.month viewingReport)
    (SavedDetailedPayroll.period viewingReport)
    (SavedDetailedPayroll.workerIds viewingReport)
    draftAdjustments (sortByWorkerName updatedData).

End WithNumbers.
End DetailedPayrollView.

(** ** PayrollView (TransferOrderView.tsx): the payroll and its adjustments *)

Module PayrollInputs.
(** Modelled from the spec: an entry of [additionalInputs] of a payroll
    (types.ts), the strings of the two input fields. *)
Record t : Type := mk { avance : string; jourFerier : string }.
End PayrollInputs.

Module SavedPayroll.
(** Modelled from the spec: [SavedPayroll] of types.ts, the inputs and the
    lines; dates, identifiers and time stamps are left out. *)
Record t (N : Type) : Type := mk {
  additionalInputs : gmap Z PayrollInputs.t;
  data : list (PayrollData.t N)
}.
Arguments mk {N}.
Arguments additionalInputs {N}.
Arguments data {N}.
End SavedPayroll.

Module GrandTotals.
(** The accumulator of [grandTotals] in [ReportContent]. *)
Record t (N : Type) : Type := mk {
  totalOperation : N;
  anciennete : N;
  totalBrut : N;
  retenu : N;
  lait : N;
  panier : N;
  avance : N;
  net : N;
  jourFerier : N
}.
Arguments mk {N}.
Arguments totalOperation {N}.
Arguments anciennete {N}.
Arguments totalBrut {N}.
Arguments retenu {N}.
Arguments lait {N}.
Arguments panier {N}.
Arguments avance {N}.
Arguments net {N}.
Arguments jourFerier {N}.
End GrandTotals.

Module PayrollView.
Section WithNumbers.
Context {N : Type} `{JsNumber N}.
Variable parseFloat : string -> N.
Variable taskMap : gmap Z (Task.t N).

(** [JSON.parse(JSON.stringify(d))] on a payroll line: every number goes
    through JSON, strings and integer ids come back as they were.  A finite
    number comes back as it was, [-0] as [0].  [NaN] and the infinities come
    back as [null]; the computations of the view read the numbers of a line
    in arithmetic only, which takes [null] for [0], and [njson] gives that
    [0]. *)
Definition jsonWorker (w : Worker.t N) : Worker.t N :=
  Worker.mk (Worker.id w) (Worker.name w) (njson (Worker.seniorityPercentage w)).

Definition jsonTask (t : PayrollTask.t N) : PayrollTask.t N :=
  PayrollTask.mk (PayrollTask.taskId t) (njson (PayrollTask.quantity t))
    (njson (PayrollTask.price t)) (njson (PayrollTask.amount t)).

Definition jsonLine (d : PayrollData.t N) : PayrollData.t N :=
  PayrollData.mk (jsonWorker (PayrollData.worker d))
    (List.map jsonTask (PayrollData.tasks d))
    (njson (PayrollData.totalOperation d)) (njson (PayrollData.anciennete d))
    (njson (PayrollData.totalBrut d)) (njson (PayrollData.retenu d))
    (njson (PayrollData.joursTravailles d)) (njson (PayrollData.jourFerier d)).

(** The body of [updatedReport.data.map] in [handleSaveAdjustments]. *)
Definition adjustLine (draftAdjustments : gmap Z PayrollInputs.t)
    (d : PayrollData.t N) : PayrollData.t N :=
  let jourFerierValue :=
    PayrollInputs.jourFerier <$>
      draftAdjustments !! Worker.id (PayrollData.worker d) in
  let jourFerier :=
    match jourFerierValue with
    | None | Some "" => nzero
    | Some v => parseFloat v
    end in
  let totalBrut :=
    (PayrollData.totalOperation d + PayrollData.anciennete d +
     (if nisNaN jourFerier then nzero else jourFerier))%js in
  let retenu := (totalBrut * RETENU_RATE)%js in
  PayrollData.mk (PayrollData.worker d) (PayrollData.tasks d)
    (PayrollData.totalOperation d) (PayrollData.anciennete d)
    totalBrut retenu (PayrollData.joursTravailles d)
    (if nisNaN jourFerier then nzero else jourFerier).

(** [handleSaveAdjustments]: a deep copy of the saved report, its inputs
    replaced and its lines recomputed; [updatedAt] is a time stamp. *)
Definition handleSaveAdjustments (viewingReport : SavedPayroll.t N)
    (draftAdjustments : gmap Z PayrollInputs.t) : SavedPayroll.t N :=
  SavedPayroll.mk draftAdjustments
    (List.map (fun d => adjustLine draftAdjustments (jsonLine d))
       (SavedPayroll.data viewingReport)).

(** [ReportContent]: what a line of the saved report pays. *)
Definition laitPricePerDay : N := priceOr0 taskMap LAIT_TASK_ID.
Definition panierPricePerDay : N := priceOr0 taskMap PANIER_TASK_ID.

Definition avance (report : SavedPayroll.t N) (d : PayrollData.t N) : N :=
  orZero (parseFloat (orString0
    (PayrollInputs.avance <$>
       SavedPayroll.additionalInputs report !! Worker.id (PayrollData.worker d)))).

Definition netAPayer (report : SavedPayroll.t N) (d : PayrollData.t N) : N :=
  let indemniteLait := (PayrollData.joursTravailles d * laitPricePerDay)%js in
  let primePanier := (PayrollData.joursTravailles d * panierPricePerDay)%js in
  (PayrollData.totalBrut d - PayrollData.retenu d + indemniteLait + primePanier
   - avance report d)%js.

Definition grandTotals (report : SavedPayroll.t N) : GrandTotals.t N :=
  fold_left
    (fun totals d =>
       let indemniteLait := (PayrollData.joursTravailles d * laitPricePerDay)%js in
       let primePanier := (PayrollData.joursTravailles d * panierPricePerDay)%js in
       GrandTotals.mk
         (GrandTotals.totalOperation totals + PayrollData.totalOperation d)%js
         (GrandTotals.anciennete totals + PayrollData.anciennete d)%js
         (GrandTotals.totalBrut totals + PayrollData.totalBrut d)%js
         (GrandTotals.retenu totals + PayrollData.retenu d)%js
         (GrandTotals.lait totals + indemniteLait)%js
         (GrandTotals.panier totals + primePanier)%js
         (GrandTotals.avance totals + avance report d)%js
         (GrandTotals.net totals + netAPayer report d)%js
         (GrandTotals.jourFerier totals + PayrollData.jourFerier d)%js)
    (SavedPayroll.data report)
    (GrandTotals.mk nzero nzero nzero nzero nzero nzero nzero nzero nzero).

End WithNumbers.
End PayrollView.

(** ** AnnualSummaryView.tsx: the annual rollup *)

Definition HNS_GROUP_NAME : string := "GROUPE HYAT NEGOCE SERVICES".

Module SavedFinalReport.
(** Modelled from the spec: [SavedFinalReport] of types.ts, its id and its
    data. *)
Record t (N : Type) : Type := mk {
  id : string;
  data : FinalReportData.t N
}.
Arguments mk {N}.
Arguments id {N}.
Arguments data {N}.
End SavedFinalReport.

Module AnnualSummaryData.
(** Modelled from the spec: [AnnualSummaryData] of types.ts, with the fields
    [handleGenerateDraft] sets. *)
Record t (N : Type) : Type := mk {
  worker : Worker.t N;
  totalOperation : N;
  anciennete : N;
  totalBrut : N;
  retenu : N;
  joursTravailles : N;
  indemnites : N;
  netPay : N;
  groupName : string;
  isHNS : bool
}.
Arguments mk {N}.
Arguments worker {N}.
Arguments totalOperation {N}.
Arguments anciennete {N}.
Arguments totalBrut {N}.
Arguments retenu {N}.
Arguments joursTravailles {N}.
Arguments indemnites {N}.
Arguments netPay {N}.
Arguments groupName {N}.
Arguments isHNS {N}.
End AnnualSummaryData.

(** [new Set(ids)] then [Array.from]: the ids in the order they first occur. *)
Definition setOfIds (ids : list Z) : list Z :=
  fold_left
    (fun seen id => if existsb (Z.eqb id) seen then seen else seen ++ [id])
    ids [].

Module AnnualSummaryView.
Section WithNumbers.
Context {N : Type} `{JsNumber N}.
(** The host's [localeCompare]. *)
Variable localeCompare : string -> string -> Z.
Variable workerGroups : list (WorkerGroup.t N).
Variable taskMap : gmap Z (Task.t N).
Variable savedFinalReports : list (SavedFinalReport.t N).

Definition allWorkers : list (Worker.t N) :=
  flat_map WorkerGroup.workers workerGroups.

Definition sourceReports (selectedReportIds : list string)
    : list (SavedFinalReport.t N) :=
  List.filter
    (fun r => existsb (String.eqb (SavedFinalReport.id r)) selectedReportIds)
    savedFinalReports.

Definition aggregatedLogs (selectedReportIds : list string)
    : list (DailyLog.t N) :=
  flat_map (fun r => FinalReportData.logs (SavedFinalReport.data r))
    (sourceReports selectedReportIds).

Definition aggregatedWorkedDays (selectedReportIds : list string)
    : list (WorkedDays.t N) :=
  flat_map (fun r => FinalReportData.allWorkedDays (SavedFinalReport.data r))
    (sourceReports selectedReportIds).

Definition workerIdsWithActivity (selectedReportIds : list string) : list Z :=
  setOfIds
    (flat_map
       (fun r => List.map Worker.id (FinalReportData.workers (SavedFinalReport.data r)))
       (sourceReports selectedReportIds)).

Definition hnsWorkerIds : list Z :=
  match
    List.find (fun g => String.eqb (WorkerGroup.groupName g) HNS_GROUP_NAME)
      workerGroups
  with
  | Some hnsGroup => List.map Worker.id (WorkerGroup.workers hnsGroup)
  | None => []
  end.

(** The operational total of a worker over the logs of every source report. *)
Definition totalOperationOf (logs : list (DailyLog.t N)) (workerId : Z) : N :=
  fold_left
    (fun sum log =>
       (sum + DailyLog.quantity log * priceOr0 taskMap (DailyLog.taskId log))%js)
    (List.filter notIndemnity
       (List.filter (fun l => (DailyLog.workerId l =? workerId)%Z) logs))
    nzero.

Definition joursTravaillesOf (entries : list (WorkedDays.t N)) (workerId : Z) : N :=
  fold_left (fun sum wd => (sum + WorkedDays.days wd)%js)
    (List.filter (fun wd => (WorkedDays.workerId wd =? workerId)%Z) entries)
    nzero.

(** The line of one worker, [null] when the roster does not have the worker. *)
Definition summaryLine (selectedReportIds : list string) (workerId : Z)
    : option (AnnualSummaryData.t N) :=
  match List.find (fun w => (Worker.id w =? workerId)%Z) allWorkers with
  | None => None
  | Some worker =>
      let joursTravailles :=
        joursTravaillesOf (aggregatedWorkedDays selectedReportIds) workerId in
      let totalOperation :=
        totalOperationOf (aggregatedLogs selectedReportIds) workerId in
      let anciennete :=
        (totalOperation * (Worker.seniorityPercentage worker / ndec 100 0))%js in
      let totalBrut := (totalOperation + anciennete)%js in
      let retenu := (totalBrut * RETENU_RATE)%js in
      let indemnites :=
        (joursTravailles *
         (priceOr0 taskMap LAIT_TASK_ID + priceOr0 taskMap PANIER_TASK_ID))%js in
      let netPay := (totalBrut - retenu + indemnites)%js in
      let group :=
        List.find
          (fun g => existsb (fun w => (Worker.id w =? workerId)%Z)
                      (WorkerGroup.workers g))
          workerGroups in
      let groupName :=
        match WorkerGroup.groupName <$> group with
        | None | Some "" => "N/A"
        | Some n => n
        end in
      let isHNS := existsb (Z.eqb workerId) hnsWorkerIds in
      Some (AnnualSummaryData.mk worker totalOperation anciennete totalBrut
              retenu joursTravailles indemnites netPay groupName isHNS)
  end.

(** [processedData], lines 85-105: the lines that pay something, in the
    order of [workerIdsWithActivity]. *)
Definition processedData (selectedReportIds : list string)
    : list (AnnualSummaryData.t N) :=
  List.filter (fun item => ngtb (AnnualSummaryData.netPay item) nzero)
    (omap (summaryLine selectedReportIds)
       (workerIdsWithActivity selectedReportIds)).

(** [handleGenerateDraft]: nothing is generated when no report is selected;
    otherwise the lines that pay something, ordered by worker name. *)
Definition handleGenerateDraft (selectedReportIds : list string)
    : option (list (AnnualSummaryData.t N)) :=
  match selectedReportIds with
  | [] => None
  | _ =>
      Some
        (arraySort
           (fun a b =>
              localeCompare (Worker.name (AnnualSummaryData.worker a))
                (Worker.name (AnnualSummaryData.worker b)))
           (processedData selectedReportIds))
  end.

End WithNumbers.
End AnnualSummaryView.

(** ** SeasonView: the season summary *)

Module SeasonRow.
(** A value of the [data] map of the season view. *)
Record t (N : Type) : Type := mk {
  worker : Worker.t N;
  tasks : gmap Z N;
  workedDays : N
}.
Arguments mk {N}.
Arguments worker {N}.
Arguments tasks {N}.
Arguments workedDays {N}.
End SeasonRow.

Module SeasonView.
Section WithNumbers.
Context {N : Type} `{JsNumber N}.

(** [getCurrentSeason], from the year and the month (0 for January) of the
    current date: the season runs from May 1 to April 30. *)
Definition getCurrentSeason (currentYear currentMonth : Z) : Z * Z :=
  if (4 <=? currentMonth)%Z
  then (currentYear, currentYear + 1)%Z
  else (currentYear - 1, currentYear)%Z.

Variable workerGroups : list (WorkerGroup.t N).
Variable allLogs : list (DailyLog.t N).
Variable workedDays : list (WorkedDays.t N).
Variable startYear endYear : Z.

(** [`${startYear}-05-01`] and [`${endYear}-04-30`], for years of four
    digits. *)
Definition startDate : string := isoDate startYear 5 1.
Definition endDate : string := isoDate endYear 4 30.

(** [workerOwnerMap]: the owner of the group of each worker; groups without
    an owner are skipped, a later group overrides an earlier one. *)
Definition workerOwnerMap : gmap Z string :=
  fold_left
    (fun map group =>
       match WorkerGroup.owner group with
       | None | Some "" => map
       | Some owner =>
           fold_left (fun map worker => <[ Worker.id worker := owner ]> map)
             (WorkerGroup.workers group) map
       end)
    workerGroups ∅.

Definition logsForSeason : list (DailyLog.t N) :=
  List.filter
    (fun log =>
       String.leb startDate (DailyLog.date log) &&
       String.leb (DailyLog.date log) endDate)
    allLogs.

(** [entryDateUTC >= seasonStartUTC && entryDateUTC < seasonEndUTC], the
    three dates being first days of a month: [Date.UTC(wd.year, wd.month - 1,
    1)] against May 1 of the two years of the season.  Such dates order as
    their month counts, and a comparison with an invalid date is false. *)
Definition workedDaysForSeason : list (WorkedDays.t N) :=
  List.filter
    (fun wd =>
       match
         utcMonth (WorkedDays.year wd) (WorkedDays.month wd - 1),
         utcMonth startYear 4, utcMonth endYear 4
       with
       | Some entryDateUTC, Some seasonStartUTC, Some seasonEndUTC =>
           (seasonStartUTC <=? entryDateUTC)%Z && (entryDateUTC <? seasonEndUTC)%Z
       | _, _, _ => false
       end)
    workedDays.

Definition allWorkersFromAllGroups : list (Worker.t N) :=
  flat_map WorkerGroup.workers workerGroups.

Definition initialData : gmap Z (SeasonRow.t N) :=
  fold_left
    (fun data worker =>
       <[ Worker.id worker := SeasonRow.mk worker ∅ nzero ]> data)
    allWorkersFromAllGroups ∅.

(** The body of [logsForSeason.forEach]. *)
Definition addLog (data : gmap Z (SeasonRow.t N)) (log : DailyLog.t N)
    : gmap Z (SeasonRow.t N) :=
  let workerOwnerId := workerOwnerMap !! DailyLog.workerId log in
  match data !! DailyLog.workerId log with
  | Some workerData =>
      if bool_decide (DailyLog.owner log = workerOwnerId) then
        <[ DailyLog.workerId log :=
             SeasonRow.mk (SeasonRow.worker workerData)
               (addQuantity (DailyLog.taskId log) (DailyLog.quantity log)
                  (SeasonRow.tasks workerData))
               (SeasonRow.workedDays workerData) ]> data
      else data
  | None => data
  end.

(** The body of [workedDaysForSeason.forEach]. *)
Definition addWorkedDays (data : gmap Z (SeasonRow.t N)) (wd : WorkedDays.t N)
    : gmap Z (SeasonRow.t N) :=
  let workerOwnerId := workerOwnerMap !! WorkedDays.workerId wd in
  match data !! WorkedDays.workerId wd with
  | Some workerData =>
      if bool_decide (WorkedDays.owner wd = workerOwnerId) then
        <[ WorkedDays.workerId wd :=
             SeasonRow.mk (SeasonRow.worker workerData)
               (SeasonRow.tasks workerData)
               (SeasonRow.workedDays workerData + WorkedDays.days wd)%js ]> data
      else data
  | None => data
  end.

(** The [data] map once both loops have run. *)
Definition seasonData : gmap Z (SeasonRow.t N) :=
  fold_left addWorkedDays workedDaysForSeason
    (fold_left addLog logsForSeason initialData).

(** [d.tasks.size > 0 || d.workedDays > 0] *)
Definition hasActivity (d : SeasonRow.t N) : bool :=
  negb (Nat.eqb (size (SeasonRow.tasks d)) 0) ||
  ngtb (SeasonRow.workedDays d) nzero.

(** [summaryData], by worker id: the rows with activity.  The view lists
    them by worker name. *)
Definition summaryData : gmap Z (SeasonRow.t N) :=
  filter (fun kv => hasActivity (snd kv) = true) seasonData.

End WithNumbers.
End SeasonView.

(** ** Notions the properties are stated with *)

(** [log.owner === workerOwnerMap.get(log.workerId)] *)
Definition logOwnerMatches {N : Type} (workerGroups : list (WorkerGroup.t N))
    (log : DailyLog.t N) : bool :=
  bool_decide
    (DailyLog.owner log =
     SeasonView.workerOwnerMap workerGroups !! DailyLog.workerId log).

(** [wd.owner === workerOwnerMap.get(wd.workerId)] *)
Definition entryOwnerMatches {N : Type} (workerGroups : list (WorkerGroup.t N))
    (wd : WorkedDays.t N) : bool :=
  bool_decide
    (WorkedDays.owner wd =
     SeasonView.workerOwnerMap workerGroups !! WorkedDays.workerId wd).

(** A payroll line whose numbers all come back from JSON as they are. *)
Definition jsonStable {N : Type} `{JsNumber N} (d : PayrollData.t N) : Prop :=
  PayrollView.jsonLine d = d.

(** The seniority factor of a worker, [seniorityPercentage / 100], is a
    finite number. *)
Definition finiteSeniority (w : Worker.t float) : Prop :=
  is_finite (Worker.seniorityPercentage w / 100) = true.

(** A log set that holds nothing but the two indemnity tasks. *)
Definition onlyIndemnities {N : Type} (logs : list (DailyLog.t N)) : Prop :=
  Forall
    (fun l => DailyLog.taskId l = LAIT_TASK_ID \/ DailyLog.taskId l = PANIER_TASK_ID)
    logs.

(** The logs of one worker and one task, in the order of the list. *)
Definition logsOf {N : Type} (workerId taskId : Z) (logs : list (DailyLog.t N))
    : list (DailyLog.t N) :=
  List.filter
    (fun l => (DailyLog.workerId l =? workerId)%Z && (DailyLog.taskId l =? taskId)%Z)
    logs.

(** The quantity the bi-monthly report shows for a worker and a task. *)
Definition quantityOf {N : Type} `{JsNumber N} (logs : list (DailyLog.t N))
    (workerId taskId : Z) : option N :=
  FinalReportView.dataMap logs !! workerId ≫= (fun workerMap => workerMap !! taskId).

(** At most one attendance entry per worker, year, month and period. *)
Definition oneEntryPerPeriod {N : Type} (workedDays : list (WorkedDays.t N)) : Prop :=
  forall d1 d2,
    In d1 workedDays -> In d2 workedDays ->
    WorkedDays.workerId d1 = WorkedDays.workerId d2 ->
    WorkedDays.year d1 = WorkedDays.year d2 ->
    WorkedDays.month d1 = WorkedDays.month d2 ->
    WorkedDays.period d1 = WorkedDays.period d2 ->
    d1 = d2.

(** [parseFloat(value || '0') || 0] *)
Definition amountOf (value : option string) : float :=
  orZero (js_parseFloat (orString0 value)).

(** ** Scenarios *)

(** The names of the scenarios are upper-case ASCII letters; [localeCompare]
    is taken to order them as their code units do. *)
Definition codeUnitCompare (a b : string) : Z :=
  match String.compare a b with
  | Lt => -1
  | Eq => 0
  | Gt => 1
  end.

(** Worker W, seniority 10%, 100 units of a task priced 5.00, 10 days worked,
    milk priced 8 and meal basket priced 12. *)
Definition scenarioWorker : Worker.t float := Worker.mk 1 "W" 10%float.

Definition scenarioTaskMap : gmap Z (Task.t float) :=
  <[ 5%Z := Task.mk 5%float ]>
    (<[ LAIT_TASK_ID := Task.mk 8%float ]>
       (<[ PANIER_TASK_ID := Task.mk 12%float ]> ∅)).

Definition scenarioWorkedDays : list (WorkedDays.t float) :=
  [ WorkedDays.mk 1 2025 6 PFirst 10%float (Some "u1") ].

Definition scenarioLogs : list (DailyLog.t float) :=
  [ DailyLog.mk 1 5 100%float "2025-06-03" (Some "u1") ].

Definition scenarioDraft : FinalReportData.t float :=
  FinalReportView.handleGenerateDraft scenarioLogs scenarioWorkedDays
    [scenarioWorker] 2025 6 PFirst.

(** The payroll the cascade saves for the scenario: no adjustment yet. *)
Definition scenarioPayroll : SavedPayroll.t float :=
  SavedPayroll.mk ∅
    (FinalReportView.payrollData scenarioDraft scenarioWorkedDays
       scenarioTaskMap 2025 6 PFirst).

(** A worker of group G, owned by user u1, with one log entered under
    another owner, u2. *)
Definition movedWorker : Worker.t float := Worker.mk 1 "W" 10%float.

Definition movedGroups : list (WorkerGroup.t float) :=
  [ WorkerGroup.mk "G" (Some "u1") [movedWorker] ].

Definition movedLogs : list (DailyLog.t float) :=
  [ DailyLog.mk 1 5 100%float "2025-06-03" (Some "u2") ].

(** The roster of the scenario: worker W in a group of owner u1. *)
Definition scenarioGroups : list (WorkerGroup.t float) :=
  [ WorkerGroup.mk "G" (Some "u1") [scenarioWorker] ].

(** The detailed payroll of the scenario, generated when the worker had
    logged 100 units. *)
Definition scenarioDetailed : SavedDetailedPayroll.t float :=
  DetailedPayrollView.handleGenerateDraft js_parseFloat codeUnitCompare
    scenarioGroups scenarioLogs scenarioWorkedDays scenarioTaskMap [1%Z] 2025 6
    PFirst.

(** The logs of the component once 60 more units are entered for the same
    period. *)
Definition laterLogs : list (DailyLog.t float) :=
  scenarioLogs ++ [ DailyLog.mk 1 5 60%float "2025-06-10" (Some "u1") ].

(** Adjustments of the payroll of the scenario: an advance of 100 and a
    holiday pay of 50. *)
Definition scenarioAdjustments : gmap Z PayrollInputs.t :=
  {[ 1%Z := PayrollInputs.mk "100" "50" ]}.

(** A worker without seniority who logs 100 units of a task priced 1.00:
    a gross pay of 100. *)
Definition plainWorker : Worker.t float := Worker.mk 2 "V" 0%float.

Definition plainGroups : list (WorkerGroup.t float) :=
  [ WorkerGroup.mk "G" (Some "u1") [plainWorker] ].

Definition plainTaskMap : gmap Z (Task.t float) := {[ 6%Z := Task.mk 1%float ]}.

Definition plainLogs : list (DailyLog.t float) :=
  [ DailyLog.mk 2 6 100%float "2025-06-03" (Some "u1") ].

(** Two workers whom the roster lists against the order of their names. *)
Definition zedWorker : Worker.t float := Worker.mk 1 "ZED" 0%float.
Definition abeWorker : Worker.t float := Worker.mk 2 "ABE" 0%float.

Definition namedGroups : list (WorkerGroup.t float) :=
  [ WorkerGroup.mk "G" (Some "u1") [zedWorker; abeWorker] ].

(** A worker of the roster with no log and no attendance entry. *)
Definition idleWorker : Worker.t float := Worker.mk 3 "Z" 10%float.

Definition idleGroups : list (WorkerGroup.t float) :=
  [ WorkerGroup.mk "G" (Some "u1") [idleWorker] ].

Definition idleDraft : FinalReportData.t float :=
  FinalReportView.handleGenerateDraft [] [] [idleWorker] 2025 6 PFirst.

Definition idleReport : SavedFinalReport.t float :=
  SavedFinalReport.mk "r0" idleDraft.

(** Ten days of milk and meal basket logged for worker W, and nothing else. *)
Definition indemnityLogs : list (DailyLog.t float) :=
  [ DailyLog.mk 1 37 10%float "2025-06-03" (Some "u1");
    DailyLog.mk 1 47 10%float "2025-06-03" (Some "u1") ].

(** Prices of 0.1 and 0.2 for the two indemnities. *)
Definition dimeTaskMap : gmap Z (Task.t float) :=
  <[ LAIT_TASK_ID := Task.mk 0.1%float ]>
    (<[ PANIER_TASK_ID := Task.mk 0.2%float ]> ∅).

(** Two half-month reports for worker W: 100 units, then 60 units, of the
    task priced 5.00, operational totals of 500 and 300. *)
Definition firstHalfReport : SavedFinalReport.t float :=
  SavedFinalReport.mk "r1"
    (FinalReportView.handleGenerateDraft
       [ DailyLog.mk 1 5 100%float "2025-06-03" (Some "u1");
         DailyLog.mk 1 5 60%float "2025-06-20" (Some "u1") ]
       [] [scenarioWorker] 2025 6 PFirst).

Definition secondHalfReport : SavedFinalReport.t float :=
  SavedFinalReport.mk "r2"
    (FinalReportView.handleGenerateDraft
       [ DailyLog.mk 1 5 100%float "2025-06-03" (Some "u1");
         DailyLog.mk 1 5 60%float "2025-06-20" (Some "u1") ]
       [] [scenarioWorker] 2025 6 PSecond).

(** The net pay the cascade derives for a worker from one saved report. *)
Definition periodNetPay (r : SavedFinalReport.t float) (period : Period)
    (w : Worker.t float) : float :=
  TransferOrderData.netPay
    (FinalReportView.transferLine (SavedFinalReport.data r) [] scenarioTaskMap
       2025 6 period w).

(** June 2025 with attendance: worker W works 10 days in the first half and
    12 in the second.  Both half-month reports are generated while the
    component holds the two attendance entries, so each stores both; a report
    of July is on file as well. *)
Definition juneLogs : list (DailyLog.t float) :=
  [ DailyLog.mk 1 5 100%float "2025-06-03" (Some "u1");
    DailyLog.mk 1 5 60%float "2025-06-20" (Some "u1");
    DailyLog.mk 1 5 40%float "2025-07-05" (Some "u1") ].

Definition juneWorkedDays : list (WorkedDays.t float) :=
  [ WorkedDays.mk 1 2025 6 PFirst 10%float (Some "u1");
    WorkedDays.mk 1 2025 6 PSecond 12%float (Some "u1") ].

Definition juneFirstHalf : SavedFinalReport.t float :=
  SavedFinalReport.mk "j1"
    (FinalReportView.handleGenerateDraft juneLogs juneWorkedDays
       [scenarioWorker] 2025 6 PFirst).

Definition juneSecondHalf : SavedFinalReport.t float :=
  SavedFinalReport.mk "j2"
    (FinalReportView.handleGenerateDraft juneLogs juneWorkedDays
       [scenarioWorker] 2025 6 PSecond).

Definition julyFirstHalf : SavedFinalReport.t float :=
  SavedFinalReport.mk "j3"
    (FinalReportView.handleGenerateDraft juneLogs juneWorkedDays
       [scenarioWorker] 2025 7 PFirst).

(** Three logs of worker W for one task, and the same logs in another order. *)
Definition orderedLogs : list (DailyLog.t float) :=
  [ DailyLog.mk 1 5 12.1%float "2025-06-03" (Some "u1");
    DailyLog.mk 1 5 7.3%float "2025-06-04" (Some "u1");
    DailyLog.mk 1 5 0.2%float "2025-06-05" (Some "u1") ].

Definition reorderedLogs : list (DailyLog.t float) := rev orderedLogs.

(** The same three logs with their quantities as exact decimals. *)
Definition exactLogs : list (DailyLog.t Qc) :=
  [ DailyLog.mk 1 5 (Q2Qc (121 # 10)) "2025-06-03" (Some "u1");
    DailyLog.mk 1 5 (Q2Qc (73 # 10)) "2025-06-04" (Some "u1");
    DailyLog.mk 1 5 (Q2Qc (2 # 10)) "2025-06-05" (Some "u1") ].




Definition debtLogs : list (DailyLog.t float) :=
  [ DailyLog.mk 4 5 (-10)%float "2025-06-03" (Some "u1");
    DailyLog.mk 4 8 3%float "2025-06-04" (Some "u1");
    DailyLog.mk 4 99 1000%float "2025-06-05" (Some "u1") ].

(** ** Further code of the components *)

(** *** [parseInt(s, 10)] (ECMA-262, 19.2.5) in binary64

    Leading white space is skipped, then a sign, then the longest prefix of
    decimal digits is read; no digit gives [NaN].  The integer is rounded to
    the nearest double, and a negative sign on 0 gives [-0].  White space is
    the one [js_parseFloat] skips. *)
Definition js_parseInt (s : string) : float :=
  let '(neg, rest) :=
    match trimStart s with
    | String "+" r => (false, r)
    | String "-" r => (true, r)
    | t => (false, t)
    end in
  let '(value, count, _) := decimalDigits rest 0 0 in
  match count with
  | O => nan
  | _ => float_of_decimal neg value 0
  end.

(** [ids.sort((a, b) => a - b)] on integers. *)
Fixpoint insertId (id : Z) (l : list Z) : list Z :=
  match l with
  | [] => [id]
  | u :: rest =>
      if (id <? u)%Z then id :: u :: rest else u :: insertId id rest
  end.

Definition sortIds (l : list Z) : list Z :=
  fold_left (fun sorted id => insertId id sorted) l [].

(** [data.reduce((sum, d) => sum + f(d), 0)], the total of a column. *)
Definition columnTotal {N : Type} `{JsNumber N} {A : Type} (f : A -> N)
    (data : list A) : N :=
  fold_left (fun sum d => (sum + f d)%js) data nzero.

(** *** FinalReportView.tsx *)

Module FinalReportContent.
Section WithNumbers.
Context {N : Type} `{JsNumber N}.

(** [ReportContent], lines 48 and 61: the columns of the table, the task ids
    of the logs, each once, in ascending order.  (Without logs the component
    returns empty maps and no column, as the general computation does.) *)
Definition headerTaskIds (logs : list (DailyLog.t N)) : list Z :=
  sortIds (setOfIds (List.map DailyLog.taskId logs)).

(** [ReportContent], line 78. *)
Definition totalWorkedDays (workers : list (Worker.t N))
    (allWorkedDays : list (WorkedDays.t N)) (year month : Z) (period : Period)
    : N :=
  fold_left
    (fun sum w =>
       (sum + FinalReportView.getDaysWorkedForWorker allWorkedDays year month
                period (Worker.id w))%js)
    workers nzero.

End WithNumbers.
End FinalReportContent.

Module FinalReportForm.
Section WithNumbers.
Context {N : Type} `{JsNumber N}.
(** The runtime's [parseInt(s, 10)]; [js_parseInt] in binary64. *)
Variable parseInt : string -> N.

(** [handleGenerateDraft], lines 336-345: the attendance entries saved for
    the workers of the days-entry step, from the strings of the form.  They
    are handed to [onSaveWorkedDays] without an owner. *)
Definition newWorkedDaysEntries (workersForDaysEntry : list (Worker.t N))
    (draftDays : gmap Z string) (selectedYear selectedMonth : Z)
    (selectedPeriod : Period) : list (WorkedDays.t N) :=
  List.map
    (fun worker =>
       let days := parseInt (orString0 (draftDays !! Worker.id worker)) in
       WorkedDays.mk (Worker.id worker) selectedYear selectedMonth
         selectedPeriod
         (if nisNaN days || ngtb nzero days then nzero else days)
         None)
    workersForDaysEntry.

End WithNumbers.
End FinalReportForm.

(** *** DetailedPayrollView.tsx *)

Module DetailedAdjustmentModal.

Inductive Field : Type := AvanceAid | Ir.

(** [handleFieldChange], lines 41-48: the adjustments handed to
    [onAdjustmentsChange], with one field of one worker set; a worker without
    an entry gets one with both fields empty first.  (The entry object is
    shared with the previous state of the modal, which is not read again.) *)
Definition handleFieldChange (adjustments : gmap Z DetailedInputs.t)
    (workerId : Z) (field : Field) (value : string) : gmap Z DetailedInputs.t :=
  let entry := default (DetailedInputs.mk "" "") (adjustments !! workerId) in
  <[ workerId :=
       match field with
       | AvanceAid => DetailedInputs.mk value (DetailedInputs.ir entry)
       | Ir => DetailedInputs.mk (DetailedInputs.avanceAid entry) value
       end ]> adjustments.

End DetailedAdjustmentModal.

Module DetailedReportContent.
Section WithNumbers.
Context {N : Type} `{JsNumber N}.

(** [ReportContent], line 94: the sum the report is closed at. *)
Definition grandTotal (data : list (DetailedPayrollData.t N)) : N :=
  fold_left (fun sum item => (sum + DetailedPayrollData.netAPayer item)%js)
    data nzero.

End WithNumbers.
End DetailedReportContent.

(** *** TransferOrderView.tsx *)

Module TransferOrderContent.
Section WithNumbers.
Context {N : Type} `{JsNumber N}.

(** [ReportContent], line 61: the amount of the transfer order. *)
Definition totalNet (data : list (TransferOrderData.t N)) : N :=
  fold_left (fun sum item => (sum + TransferOrderData.netPay item)%js)
    data nzero.

End WithNumbers.
End TransferOrderContent.

Module PayrollAdjustmentModal.

Inductive Field : Type := Avance | JourFerier.

(** [handleFieldChange] of the payroll's modal, lines 268-275: as in the
    detailed payroll, for the fields [avance] and [jourFerier]. *)
Definition handleFieldChange (adjustments : gmap Z PayrollInputs.t)
    (workerId : Z) (field : Field) (value : string) : gmap Z PayrollInputs.t :=
  let entry := default (PayrollInputs.mk "" "") (adjustments !! workerId) in
  <[ workerId :=
       match field with
       | Avance => PayrollInputs.mk value (PayrollInputs.jourFerier entry)
       | JourFerier => PayrollInputs.mk (PayrollInputs.avance entry) value
       end ]> adjustments.

End PayrollAdjustmentModal.

(** *** AnnualSummaryView.tsx *)

Module AnnualSummaryForm.

(** The check box of a bi-monthly report in the form, line 260: a selected
    report is taken out of the selection, another one is added at its end. *)
Definition toggleReportId (prev : list string) (reportId : string)
    : list string :=
  if existsb (String.eqb reportId) prev
  then List.filter (fun id => negb (String.eqb id reportId)) prev
  else prev ++ [reportId].

End AnnualSummaryForm.

Module AnnualReportContent.
Section WithNumbers.
Context {N : Type} `{JsNumber N}.

(** [ReportContent], lines 124-129: the lines of the HNS group, the others,
    and the totals of the three boxes. *)
Definition hnsData (data : list (AnnualSummaryData.t N))
    : list (AnnualSummaryData.t N) :=
  List.filter AnnualSummaryData.isHNS data.

Definition otherData (data : list (AnnualSummaryData.t N))
    : list (AnnualSummaryData.t N) :=
  List.filter (fun d => negb (AnnualSummaryData.isHNS d)) data.

Definition hnsTotal (data : list (AnnualSummaryData.t N)) : N :=
  fold_left (fun sum item => (sum + AnnualSummaryData.netPay item)%js)
    (hnsData data) nzero.

Definition otherTotal (data : list (AnnualSummaryData.t N)) : N :=
  fold_left (fun sum item => (sum + AnnualSummaryData.netPay item)%js)
    (otherData data) nzero.

Definition grandTotal (data : list (AnnualSummaryData.t N)) : N :=
  (hnsTotal data + otherTotal data)%js.

End WithNumbers.
End AnnualReportContent.

(** *** SeasonView *)

Module SeasonTable.
Section WithNumbers.
Context {N : Type} `{JsNumber N}.

(** [taskIds] and [sortedTaskIds], lines 103-107: the task ids of the rows
    of the summary, each once, in ascending order. *)
Definition taskIds (summaryData : gmap Z (SeasonRow.t N)) : gset Z :=
  map_fold (fun _ d ids => dom (SeasonRow.tasks d) ∪ ids) ∅ summaryData.

Definition headerTaskIds (summaryData : gmap Z (SeasonRow.t N)) : list Z :=
  sortIds (elements (taskIds summaryData)).

End WithNumbers.
End SeasonTable.

(** ** Notions the further properties are stated with *)

(** [group.owner] as a condition: [undefined] and [''] are falsy. *)
Definition groupOwner {N : Type} (g : WorkerGroup.t N) : option string :=
  match WorkerGroup.owner g with
  | None | Some "" => None
  | Some owner => Some owner
  end.

(** The worker is a worker of the group. *)
Definition inGroup {N : Type} (workerId : Z) (g : WorkerGroup.t N) : Prop :=
  In workerId (List.map Worker.id (WorkerGroup.workers g)).

(** [map.get(taskId)] on a [Map] kept as the list of its entries. *)
Definition entryOf {V : Type} (taskId : Z) (m : list (Z * V)) : option V :=
  snd <$> List.find (fun e => (fst e =? taskId)%Z) m.

(** The quantities of the logs of one task, added up in the order of the
    logs from the 0 of a new entry. *)
Definition loggedQuantity {N : Type} `{JsNumber N} (taskId : Z)
    (logs : list (DailyLog.t N)) : N :=
  fold_left (fun sum log => (sum + DailyLog.quantity log)%js)
    (List.filter (fun l => (DailyLog.taskId l =? taskId)%Z) logs) nzero.

(** The body of the loop of [tasksSummary] over the logs of a worker. *)
Definition summaryStep {N : Type} `{JsNumber N} (taskMap : gmap Z (Task.t N))
    (m : list (Z * (N * N))) (log : DailyLog.t N) : list (Z * (N * N)) :=
  match taskMap !! DailyLog.taskId log with
  | None => m
  | Some task =>
      FinalReportView.tasksSummary_add (DailyLog.taskId log)
        (DailyLog.quantity log) (Task.price task) m
  end.

(** The amounts [quantity * price] of the entries of a summary, added up. *)
Definition summaryAmounts {N : Type} `{JsNumber N} (m : list (Z * (N * N))) : N :=
  fold_left (fun sum e => (sum + fst (snd e) * snd (snd e))%js) m nzero.

(** A comparator that is a consistent order, as the collation of a locale is:
    [a] before [b] excludes [b] before [a], and not going before is
    transitive. *)
Definition consistentComparator {A : Type} (compareFn : A -> A -> Z) : Prop :=
  (forall a b, (compareFn a b < 0)%Z -> ~ (compareFn b a < 0)%Z) /\
  (forall a b c,
     ~ (compareFn b a < 0)%Z -> ~ (compareFn c b < 0)%Z ->
     ~ (compareFn c a < 0)%Z).

(** A list in the order of a comparator: no element goes before an element
    listed earlier. *)
Definition inOrder {A : Type} (compareFn : A -> A -> Z) (l : list A) : Prop :=
  StronglySorted (fun a b => ~ (compareFn b a < 0)%Z) l.

(** [workedDays.find(d => d.workerId === id && d.year === year && d.month ===
    month && d.period === period)], the attendance entry of a worker for a
    period. *)
Definition entryOfPeriod {N : Type} (workedDays : list (WorkedDays.t N))
    (year month : Z) (period : Period) (workerId : Z) : option (WorkedDays.t N) :=
  List.find
    (fun d =>
       (WorkedDays.workerId d =? workerId)%Z &&
       (WorkedDays.year d =? year)%Z &&
       (WorkedDays.month d =? month)%Z &&
       Period_eqb (WorkedDays.period d) period)
    workedDays.

(** The workers of a days-entry form, and what is typed for each of them:
    nothing, text, a negative number, a number, a fraction, a number followed
    by text, a number with an exponent, and no entry at all. *)
Definition formWorkers : list (Worker.t float) :=
  List.map (fun id => Worker.mk id "W" 0%float) [1; 2; 3; 4; 5; 6; 7; 8]%Z.

Definition formDays : gmap Z string :=
  list_to_map
    [ (1, ""); (2, "abc"); (3, "-3"); (4, "7"); (5, "3.9"); (6, " 12px");
      (7, "1e3") ]%Z.

(** * Properties *)

(** ** The literals of the program, in binary64 *)

Lemma float_literal_100 : @ndec float _ 100 0 = 100%float.
Proof. reflexivity. Qed.

Lemma float_RETENU_RATE : @RETENU_RATE float _ = 0.0674%float.
Proof. reflexivity. Qed.

Lemma float_RET_CNSS_RATE : @RET_CNSS_RATE float _ = 0.0448%float.
Proof. reflexivity. Qed.

Lemma float_RET_AMO_RATE : @RET_AMO_RATE float _ = 0.0226%float.
Proof. reflexivity. Qed.

Lemma isoDate_example : isoDate 2025 6 3 = "2025-06-03".
Proof. reflexivity. Qed.

Lemma scenarioDraft_logs : FinalReportData.logs scenarioDraft = scenarioLogs.
Proof. reflexivity. Qed.

(** [parseFloat] on the strings of a number field and on other strings. *)
Lemma js_parseFloat_examples :
  List.map js_parseFloat
    [ "12.5"; "0.0674"; " -20"; "1e3"; "12,5"; "5.e1x"; "-0"; "Infinity";
      ""; "abc"; "." ]
  = [ 12.5; 0.0674; -20; 1000; 12; 50; -0; infinity; nan; nan; nan ]%float.
Proof. reflexivity. Qed.

(** White space outside ASCII is skipped as well, here U+00A0, U+2028 followed
    by a space, U+3000 and U+FEFF; a letter with an accent is not white
    space. *)
Lemma js_parseFloat_white_space :
  List.map js_parseFloat
    [ String "194" (String "160" "12");
      String "226" (String "128" (String "168" " 12"));
      String "227" (String "128" (String "128" "12"));
      String "239" (String "187" (String "191" "12"));
      String "195" (String "169" "12") ]
  = [ 12; 12; 12; 12; nan ]%float.
Proof. reflexivity. Qed.

(** The seniority factor of a whole percentage from 0 to 100 is finite. *)
Lemma finiteSeniority_percent (id : Z) (name : string) (n : nat) :
  (n <= 100)%nat ->
  finiteSeniority (Worker.mk id name (float_of_Z (Z.of_nat n))).
Proof.
  intros Hn. unfold finiteSeniority. simpl.
  do 101 (destruct n as [| n]; [reflexivity |]).
  exfalso. lia.
Qed.

(** ** The sort of an array *)

Lemma insertBy_Permutation {A : Type} (compareFn : A -> A -> Z) (a : A)
    (l : list A) :
  Permutation (insertBy compareFn a l) (a :: l).
Proof.
  induction l as [| b l IH]; simpl; [reflexivity |].
  destruct (compareFn a b <? 0)%Z; [reflexivity |].
  rewrite IH. apply perm_swap.
Qed.

(** The sorted array holds the elements of the array, each as often. *)
Lemma arraySort_Permutation {A : Type} (compareFn : A -> A -> Z) (l : list A) :
  Permutation (arraySort compareFn l) l.
Proof.
  unfold arraySort.
  assert (Hacc : forall acc,
            Permutation
              (fold_left (fun sorted a => insertBy compareFn a sorted) l acc)
              (acc ++ l)).
  { induction l as [| a l IH]; intros acc; simpl.
    - rewrite List.app_nil_r. reflexivity.
    - rewrite IH, insertBy_Permutation.
      change (a :: acc) with ([a] ++ acc).
      rewrite (Permutation_app_comm [a] acc), <- List.app_assoc. reflexivity. }
  exact (Hacc []).
Qed.

Lemma arraySort_In {A : Type} (compareFn : A -> A -> Z) (l : list A) (a : A) :
  In a (arraySort compareFn l) <-> In a l.
Proof.
  split; apply Permutation_in;
    [| symmetry]; apply arraySort_Permutation.
Qed.

Lemma arraySort_Forall {A : Type} (P : A -> Prop) (compareFn : A -> A -> Z)
    (l : list A) :
  Forall P (arraySort compareFn l) <-> Forall P l.
Proof.
  rewrite !List.Forall_forall. split; intros HP a Ha; apply HP;
    apply (arraySort_In compareFn l a); exact Ha.
Qed.

(** Two arrays whose elements correspond, with equal sort keys, are sorted the
    same way: the comparisons of the two sorts have the same outcomes. *)
Lemma insertBy_Forall2 {A K : Type} (R : A -> A -> Prop) (key : A -> K)
    (compareFn : K -> K -> Z) (a a' : A) (l l' : list A) :
  (forall b b', R b b' -> key b' = key b) ->
  R a a' -> Forall2 R l l' ->
  Forall2 R (insertBy (fun x y => compareFn (key x) (key y)) a l)
    (insertBy (fun x y => compareFn (key x) (key y)) a' l').
Proof.
  intros Hkey Ha Hl.
  induction Hl as [| b b' l l' Hb Hl IH]; simpl.
  - constructor; [exact Ha | constructor].
  - rewrite (Hkey a a' Ha), (Hkey b b' Hb).
    destruct (compareFn (key a) (key b) <? 0)%Z.
    + constructor; [exact Ha |]. constructor; assumption.
    + constructor; assumption.
Qed.

Lemma arraySort_Forall2 {A K : Type} (R : A -> A -> Prop) (key : A -> K)
    (compareFn : K -> K -> Z) (l l' : list A) :
  (forall b b', R b b' -> key b' = key b) ->
  Forall2 R l l' ->
  Forall2 R (arraySort (fun x y => compareFn (key x) (key y)) l)
    (arraySort (fun x y => compareFn (key x) (key y)) l').
Proof.
  intros Hkey Hl. unfold arraySort.
  assert (Hacc : forall acc acc',
            Forall2 R acc acc' ->
            Forall2 R
              (fold_left
                 (fun sorted a => insertBy (fun x y => compareFn (key x) (key y)) a sorted)
                 l acc)
              (fold_left
                 (fun sorted a => insertBy (fun x y => compareFn (key x) (key y)) a sorted)
                 l' acc')).
  { induction Hl as [| a a' l l' Ha Hl IH]; intros acc acc' Hacc; simpl.
    - exact Hacc.
    - apply IH. apply insertBy_Forall2; assumption. }
  apply Hacc. constructor.
Qed.

(** ** C1: the derivation pipeline *)

(** The equations of a payroll line, for any number type. *)
Lemma payrollLine_equations {N : Type} `{JsNumber N}
    (draftData : FinalReportData.t N) (workedDays : list (WorkedDays.t N))
    (taskMap : gmap Z (Task.t N)) (y m : Z) (p : Period) (w : Worker.t N) :
  let d := FinalReportView.payrollLine draftData workedDays taskMap y m p w in
  PayrollData.worker d = w /\
  PayrollData.jourFerier d = nzero /\
  PayrollData.anciennete d =
    (PayrollData.totalOperation d *
     (Worker.seniorityPercentage w / ndec 100 0))%js /\
  PayrollData.totalBrut d =
    (PayrollData.totalOperation d + PayrollData.anciennete d +
     PayrollData.jourFerier d)%js /\
  PayrollData.retenu d = (PayrollData.totalBrut d * RETENU_RATE)%js.
Proof. cbv zeta. unfold FinalReportView.payrollLine. simpl. tauto. Qed.

(** C1. Every line of the payroll that [handleSave] derives satisfies
    anciennete = totalOperation * (seniorityPercentage / 100),
    totalBrut = totalOperation + anciennete + jourFerier and
    retenu = totalBrut * 0.0674; and for worker W (seniority 10%, 100 units
    of a task priced 5.00, 10 days worked, milk priced 8, meal basket priced
    12, no advance) the cascade yields totalOperation 500, anciennete 50,
    totalBrut 550, retenu 37.07 and a net pay of 712.93, in the transfer
    order as in the payroll view. *)
Theorem C1_pipeline_equations_and_scenario :
  (forall (draftData : FinalReportData.t float)
          (workedDays : list (WorkedDays.t float))
          (taskMap : gmap Z (Task.t float)) (y m : Z) (p : Period),
     Forall
       (fun d : PayrollData.t float =>
          PayrollData.anciennete d =
            (PayrollData.totalOperation d *
             (Worker.seniorityPercentage (PayrollData.worker d) / 100))%float /\
          PayrollData.totalBrut d =
            (PayrollData.totalOperation d + PayrollData.anciennete d +
             PayrollData.jourFerier d)%float /\
          PayrollData.retenu d = (PayrollData.totalBrut d * 0.0674)%float)
       (FinalReportView.payrollData draftData workedDays taskMap y m p)) /\
  FinalReportView.payrollData scenarioDraft scenarioWorkedDays scenarioTaskMap
    2025 6 PFirst
  = [ PayrollData.mk scenarioWorker [PayrollTask.mk 5 100 5 500]
        500 50 550 37.07 10 0 ]%float /\
  FinalReportView.transferOrderData scenarioDraft scenarioWorkedDays
    scenarioTaskMap 2025 6 PFirst
  = [ TransferOrderData.mk scenarioWorker 712.93%float ] /\
  List.map (PayrollView.netAPayer js_parseFloat scenarioTaskMap scenarioPayroll)
    (SavedPayroll.data scenarioPayroll)
  = [ 712.93%float ].
Proof.
  split; [| repeat split; vm_compute; reflexivity ].
  intros draftData workedDays taskMap y m p.
  unfold FinalReportView.payrollData.
  apply List.Forall_forall. intros d Hd.
  apply List.in_map_iff in Hd. destruct Hd as [w [<- _]].
  destruct (payrollLine_equations draftData workedDays taskMap y m p w)
    as (Hw & _ & Ha & Hb & Hr).
  rewrite Hw. split; [exact Ha | split; [exact Hb | exact Hr]].
Qed.

(** ** C2: the owner of a log *)

(** Steps that do nothing on the elements a filter drops. *)
Lemma fold_left_filter_neutral {A B : Type} (f : A -> B -> A) (keep : B -> bool)
    (l : list B) :
  (forall a x, keep x = false -> f a x = a) ->
  forall a, fold_left f l a = fold_left f (List.filter keep l) a.
Proof.
  intros Hneutral. induction l as [| x l IH]; intros a; simpl.
  - reflexivity.
  - destruct (keep x) eqn:Hx; simpl.
    + apply IH.
    + rewrite (Hneutral a x Hx). apply IH.
Qed.

Lemma filter_filter_comm {A : Type} (f g : A -> bool) (l : list A) :
  List.filter f (List.filter g l) = List.filter g (List.filter f l).
Proof.
  induction l as [| x l IH]; simpl; [reflexivity |].
  destruct (f x) eqn:Hf, (g x) eqn:Hg; simpl; rewrite ?Hf, ?Hg, IH; reflexivity.
Qed.

Lemma addLog_other_owner {N : Type} `{JsNumber N}
    (workerGroups : list (WorkerGroup.t N)) (data : gmap Z (SeasonRow.t N))
    (log : DailyLog.t N) :
  logOwnerMatches workerGroups log = false ->
  SeasonView.addLog workerGroups data log = data.
Proof.
  unfold logOwnerMatches, SeasonView.addLog. intros Hno.
  destruct (data !! DailyLog.workerId log); [| reflexivity].
  rewrite Hno. reflexivity.
Qed.

Lemma addWorkedDays_other_owner {N : Type} `{JsNumber N}
    (workerGroups : list (WorkerGroup.t N)) (data : gmap Z (SeasonRow.t N))
    (wd : WorkedDays.t N) :
  entryOwnerMatches workerGroups wd = false ->
  SeasonView.addWorkedDays workerGroups data wd = data.
Proof.
  unfold entryOwnerMatches, SeasonView.addWorkedDays. intros Hno.
  destruct (data !! WorkedDays.workerId wd); [| reflexivity].
  rewrite Hno. reflexivity.
Qed.

(** The season summary is the summary of the logs and attendance entries
    whose owner is the owner of record of their worker. *)
Lemma seasonData_owner_filter {N : Type} `{JsNumber N}
    (workerGroups : list (WorkerGroup.t N)) (allLogs : list (DailyLog.t N))
    (workedDays : list (WorkedDays.t N)) (startYear endYear : Z) :
  SeasonView.seasonData workerGroups allLogs workedDays startYear endYear =
  SeasonView.seasonData workerGroups
    (List.filter (logOwnerMatches workerGroups) allLogs)
    (List.filter (entryOwnerMatches workerGroups) workedDays)
    startYear endYear.
Proof.
  unfold SeasonView.seasonData, SeasonView.logsForSeason,
    SeasonView.workedDaysForSeason.
  rewrite (filter_filter_comm _ (logOwnerMatches workerGroups)).
  rewrite (filter_filter_comm _ (entryOwnerMatches workerGroups)).
  rewrite <- (fold_left_filter_neutral _ (entryOwnerMatches workerGroups))
    by (intros; apply addWorkedDays_other_owner; assumption).
  rewrite <- (fold_left_filter_neutral _ (logOwnerMatches workerGroups))
    by (intros; apply addLog_other_owner; assumption).
  reflexivity.
Qed.

(** The draft of the bi-monthly report takes a log for its date and its
    worker alone. *)
Lemma logsForReport_spec {N : Type} `{JsNumber N} (allLogs : list (DailyLog.t N))
    (startDateStr endDateStr : string) (workerIdsToReport : list Z)
    (log : DailyLog.t N) :
  In log (FinalReportView.logsForReport allLogs startDateStr endDateStr
            workerIdsToReport) <->
  In log allLogs /\
  String.leb startDateStr (DailyLog.date log) = true /\
  String.leb (DailyLog.date log) endDateStr = true /\
  In (DailyLog.workerId log) workerIdsToReport.
Proof.
  unfold FinalReportView.logsForReport. rewrite List.filter_In.
  rewrite !andb_true_iff, List.existsb_exists.
  split.
  - intros (Hin & (Hs & He) & (x & Hx & Heq)).
    apply Z.eqb_eq in Heq. subst x. auto.
  - intros (Hin & Hs & He & Hw). repeat split; try assumption.
    exists (DailyLog.workerId log). split; [assumption | apply Z.eqb_refl].
Qed.

(** C2, as stated, fails for the bi-monthly report: worker 1 belongs to the
    group of owner u1, the log was entered under owner u2, and the draft for
    June 1-15 still counts its 100 units for the worker, where the season
    summary leaves them out. *)
Lemma C2_bimonthly_counts_other_owner :
  SeasonView.workerOwnerMap movedGroups !! 1%Z = Some "u1" /\
  List.map DailyLog.owner movedLogs = [Some "u2"] /\
  FinalReportView.dataMap
    (FinalReportData.logs
       (FinalReportView.handleGenerateDraft movedLogs [] [movedWorker]
          2025 6 PFirst)) !! 1%Z
  = Some {[ 5%Z := 100%float ]} /\
  SeasonRow.tasks <$>
    SeasonView.seasonData movedGroups movedLogs [] 2025 2026 !! 1%Z
  = Some ∅.
Proof. repeat split; vm_compute; reflexivity. Qed.

(** C2, amended. The season summary counts a log, and an attendance entry,
    only when its owner is the owner of record of its worker: it is the
    summary of the matching entries alone.  The bi-monthly draft has no
    owner test: it holds exactly the logs dated in the period whose worker
    is one of the workers of the report. *)
Theorem C2_owner_filter_season_only :
  (forall (workerGroups : list (WorkerGroup.t float))
          (allLogs : list (DailyLog.t float))
          (workedDays : list (WorkedDays.t float)) (startYear endYear : Z),
     SeasonView.seasonData workerGroups allLogs workedDays startYear endYear =
     SeasonView.seasonData workerGroups
       (List.filter (logOwnerMatches workerGroups) allLogs)
       (List.filter (entryOwnerMatches workerGroups) workedDays)
       startYear endYear) /\
  (forall (allLogs : list (DailyLog.t float))
          (workedDays : list (WorkedDays.t float))
          (workersForDaysEntry : list (Worker.t float))
          (year month : Z) (period : Period) (log : DailyLog.t float),
     In log
       (FinalReportData.logs
          (FinalReportView.handleGenerateDraft allLogs workedDays
             workersForDaysEntry year month period)) <->
     In log allLogs /\
     String.leb (isoDate year month (startDateNum period)) (DailyLog.date log)
       = true /\
     String.leb (DailyLog.date log)
       (isoDate year month (endDateNum year month period)) = true /\
     In (DailyLog.workerId log) (List.map Worker.id workersForDaysEntry)).
Proof.
  split.
  - intros. apply seasonData_owner_filter.
  - intros. unfold FinalReportView.handleGenerateDraft. simpl.
    apply logsForReport_spec.
Qed.

(** ** C3: recomputation after an adjustment *)

(** What [adjustLine] keeps of a line. *)
Lemma adjustLine_frame {N : Type} `{JsNumber N} (parseFloat : string -> N)
    (draftAdjustments : gmap Z PayrollInputs.t) (d : PayrollData.t N) :
  let d' := PayrollView.adjustLine parseFloat draftAdjustments d in
  PayrollData.worker d' = PayrollData.worker d /\
  PayrollData.tasks d' = PayrollData.tasks d /\
  PayrollData.totalOperation d' = PayrollData.totalOperation d /\
  PayrollData.anciennete d' = PayrollData.anciennete d /\
  PayrollData.joursTravailles d' = PayrollData.joursTravailles d /\
  PayrollData.totalBrut d' =
    (PayrollData.totalOperation d + PayrollData.anciennete d +
     PayrollData.jourFerier d')%js /\
  PayrollData.retenu d' = (PayrollData.totalBrut d' * RETENU_RATE)%js.
Proof. cbv zeta. unfold PayrollView.adjustLine. simpl. tauto. Qed.

(** A finite double other than -0 comes back from JSON as it is. *)
Lemma njson_finite (x : float) :
  is_finite x = true -> x <> (-0)%float -> njson x = x.
Proof.
  intros Hfin Hneg. simpl. rewrite Hfin. simpl.
  destruct (x =? 0)%float eqn:Hz; simpl; [| reflexivity].
  rewrite FloatAxioms.eqb_spec in Hz.
  change (Prim2SF 0) with (S754_zero false) in Hz.
  rewrite <- (SF2Prim_Prim2SF x) in Hneg |- *.
  destruct (Prim2SF x) as [[|] | [|] | | [|] m e]; try discriminate Hz.
  - exfalso. apply Hneg. reflexivity.
  - reflexivity.
Qed.

(** The lines of the detailed payroll regenerated with other inputs. *)
Lemma reportLine_frame {N : Type} `{JsNumber N} (parseFloat : string -> N)
    (workerGroups : list (WorkerGroup.t N)) (allLogs : list (DailyLog.t N))
    (workedDays : list (WorkedDays.t N)) (taskMap : gmap Z (Task.t N))
    (year month : Z) (period : Period)
    (inputs inputs' : gmap Z DetailedInputs.t) (workerId : Z) :
  option_Forall2
    (fun d d' =>
       DetailedPayrollData.worker d' = DetailedPayrollData.worker d /\
       DetailedPayrollData.montant d' = DetailedPayrollData.montant d /\
       DetailedPayrollData.anciennete d' = DetailedPayrollData.anciennete d /\
       DetailedPayrollData.joursTravailles d' =
         DetailedPayrollData.joursTravailles d)
    (DetailedPayrollView.reportLine parseFloat workerGroups allLogs workedDays
       taskMap year month period inputs workerId)
    (DetailedPayrollView.reportLine parseFloat workerGroups allLogs workedDays
       taskMap year month period inputs' workerId).
Proof.
  unfold DetailedPayrollView.reportLine.
  destruct (List.find _ _); constructor. simpl. tauto.
Qed.

Lemma omap_Forall2 {A B : Type} (R : B -> B -> Prop) (f g : A -> option B)
    (l : list A) :
  (forall a, option_Forall2 R (f a) (g a)) ->
  Forall2 R (omap f l) (omap g l).
Proof.
  intros Hfg. induction l as [| a l IH]; simpl; [constructor |].
  destruct (Hfg a); [constructor |]; assumption.
Qed.

(** C3, as stated, fails for the detailed payroll: the report saved for the
    scenario holds montant 500 and anciennete 50; once 60 more units are
    logged, saving its adjustments, unchanged, yields montant 800 and
    anciennete 80: the lines come from the live logs. *)
Lemma C3_detailed_payroll_reads_live_logs :
  let updated :=
    DetailedPayrollView.handleSaveAdjustments js_parseFloat codeUnitCompare
      scenarioGroups laterLogs scenarioWorkedDays scenarioTaskMap
      scenarioDetailed
      (SavedDetailedPayroll.additionalInputs scenarioDetailed) in
  List.map (fun d => (DetailedPayrollData.montant d, DetailedPayrollData.anciennete d))
    (SavedDetailedPayroll.data scenarioDetailed) = [ (500, 50)%float ] /\
  List.map (fun d => (DetailedPayrollData.montant d, DetailedPayrollData.anciennete d))
    (SavedDetailedPayroll.data updated) = [ (800, 80)%float ].
Proof. split; vm_compute; reflexivity. Qed.

(** C3, amended. Saving the adjustments of a payroll takes the saved report
    and the edited inputs alone, and keeps the worker, the tasks,
    totalOperation, anciennete and joursTravailles of every line whose
    numbers are JSON numbers; totalBrut and retenu follow from the kept
    figures and the new jourFerier.  Saving the adjustments of a detailed
    payroll regenerates its lines from the roster, logs, attendance entries
    and prices of the component and orders them by worker name: line by line
    of the report as it is stored, the worker, montant, anciennete and
    joursTravailles are kept as long as that state is the one the report was
    generated from, for a report as generated and for a report saved with
    adjustments before. *)
Theorem C3_adjustment_recomputation_frame
    (viewingReport : SavedPayroll.t float)
    (draftAdjustments : gmap Z PayrollInputs.t)
    (Hjson : Forall jsonStable (SavedPayroll.data viewingReport)) :
  Forall2
    (fun d d' : PayrollData.t float =>
       PayrollData.worker d' = PayrollData.worker d /\
       PayrollData.tasks d' = PayrollData.tasks d /\
       PayrollData.totalOperation d' = PayrollData.totalOperation d /\
       PayrollData.anciennete d' = PayrollData.anciennete d /\
       PayrollData.joursTravailles d' = PayrollData.joursTravailles d /\
       PayrollData.totalBrut d' =
         (PayrollData.totalOperation d + PayrollData.anciennete d +
          PayrollData.jourFerier d')%float /\
       PayrollData.retenu d' = (PayrollData.totalBrut d' * 0.0674)%float)
    (SavedPayroll.data viewingReport)
    (SavedPayroll.data
       (PayrollView.handleSaveAdjustments js_parseFloat viewingReport
          draftAdjustments)) /\
  (forall (localeCompare : string -> string -> Z)
          (workerGroups : list (WorkerGroup.t float))
          (allLogs : list (DailyLog.t float))
          (workedDays : list (WorkedDays.t float))
          (taskMap : gmap Z (Task.t float)),
     let handleGenerateDraft :=
       DetailedPayrollView.handleGenerateDraft js_parseFloat localeCompare
         workerGroups allLogs workedDays taskMap in
     let handleSaveAdjustments :=
       DetailedPayrollView.handleSaveAdjustments js_parseFloat localeCompare
         workerGroups allLogs workedDays taskMap in
     let kept (d d' : DetailedPayrollData.t float) :=
       DetailedPayrollData.worker d' = DetailedPayrollData.worker d /\
       DetailedPayrollData.montant d' = DetailedPayrollData.montant d /\
       DetailedPayrollData.anciennete d' = DetailedPayrollData.anciennete d /\
       DetailedPayrollData.joursTravailles d' =
         DetailedPayrollData.joursTravailles d in
     (forall (selectedWorkerIds : list Z) (year month : Z) (period : Period)
             (adjustments : gmap Z DetailedInputs.t),
        let report := handleGenerateDraft selectedWorkerIds year month period in
        Forall2 kept (SavedDetailedPayroll.data report)
          (SavedDetailedPayroll.data (handleSaveAdjustments report adjustments))) /\
     (forall (earlier : SavedDetailedPayroll.t float)
             (inputs adjustments : gmap Z DetailedInputs.t),
        let report := handleSaveAdjustments earlier inputs in
        Forall2 kept (SavedDetailedPayroll.data report)
          (SavedDetailedPayroll.data (handleSaveAdjustments report adjustments)))).
Proof.
  split.
  - unfold PayrollView.handleSaveAdjustments. simpl.
    induction Hjson as [| d l Hd Hl IH]; simpl; constructor; [| exact IH].
    unfold jsonStable in Hd. rewrite Hd.
    exact (adjustLine_frame js_parseFloat draftAdjustments d).
  - intros localeCompare workerGroups allLogs workedDays taskMap.
    assert (Hsorted : forall workerIds year month period inputs inputs',
              Forall2
                (fun d d' : DetailedPayrollData.t float =>
                   DetailedPayrollData.worker d' = DetailedPayrollData.worker d /\
                   DetailedPayrollData.montant d' = DetailedPayrollData.montant d /\
                   DetailedPayrollData.anciennete d' =
                     DetailedPayrollData.anciennete d /\
                   DetailedPayrollData.joursTravailles d' =
                     DetailedPayrollData.joursTravailles d)
                (DetailedPayrollView.sortByWorkerName localeCompare
                   (DetailedPayrollView.generateReportData js_parseFloat
                      workerGroups allLogs workedDays taskMap workerIds year
                      month period inputs))
                (DetailedPayrollView.sortByWorkerName localeCompare
                   (DetailedPayrollView.generateReportData js_parseFloat
                      workerGroups allLogs workedDays taskMap workerIds year
                      month period inputs'))).
    { intros. unfold DetailedPayrollView.sortByWorkerName.
      apply (arraySort_Forall2 _
               (fun d => Worker.name (DetailedPayrollData.worker d))
               localeCompare).
      - intros b b' (Hw & _). rewrite Hw. reflexivity.
      - unfold DetailedPayrollView.generateReportData.
        apply omap_Forall2. intros workerId. apply reportLine_frame. }
    cbv zeta. split; intros; apply Hsorted.
Qed.

Lemma C3_adjustment_recomputation_frame_witness :
  Forall jsonStable (SavedPayroll.data scenarioPayroll) /\
  Forall2
    (fun d d' : PayrollData.t float =>
       PayrollData.totalOperation d' = PayrollData.totalOperation d /\
       PayrollData.anciennete d' = PayrollData.anciennete d /\
       PayrollData.joursTravailles d' = PayrollData.joursTravailles d)
    (SavedPayroll.data scenarioPayroll)
    (SavedPayroll.data
       (PayrollView.handleSaveAdjustments js_parseFloat scenarioPayroll
          scenarioAdjustments)) /\
  (let report :=
     DetailedPayrollView.handleGenerateDraft js_parseFloat codeUnitCompare
       namedGroups [] [] scenarioTaskMap [1; 2]%Z 2025 6 PFirst in
   let saved :=
     DetailedPayrollView.handleSaveAdjustments js_parseFloat codeUnitCompare
       namedGroups [] [] scenarioTaskMap report
       {[ 1%Z := DetailedInputs.mk "100" "" ]} in
   List.map DetailedPayrollData.worker (SavedDetailedPayroll.data report)
   = [abeWorker; zedWorker] /\
   Forall2 (fun d d' => DetailedPayrollData.worker d' = DetailedPayrollData.worker d)
     (SavedDetailedPayroll.data report) (SavedDetailedPayroll.data saved)).
Proof.
  assert (Hjson : Forall jsonStable (SavedPayroll.data scenarioPayroll)).
  { repeat constructor. }
  split; [exact Hjson |].
  pose proof (C3_adjustment_recomputation_frame scenarioPayroll
                scenarioAdjustments Hjson) as [Hpayroll Hdetailed].
  split.
  - eapply Forall2_impl; [exact Hpayroll |].
    intros d d' (_ & _ & Ht & Ha & Hj & _).
    split; [exact Ht | split; [exact Ha | exact Hj]].
  - cbv zeta. split; [vm_compute; reflexivity |].
    eapply Forall2_impl.
    + exact (proj1 (Hdetailed codeUnitCompare namedGroups [] []
                      scenarioTaskMap)
               [1; 2]%Z 2025%Z 6%Z PFirst
               {[ 1%Z := DetailedInputs.mk "100" "" ]}).
    + intros d d' (Hw & _). exact Hw.
Defined.

(** ** C4: the two withholding policies *)

(** In exact arithmetic the two rates of the detailed payroll add up to the
    combined rate. *)
Lemma split_rates_exact (total : Qc) :
  (total * RET_CNSS_RATE + total * RET_AMO_RATE)%Qc = (total * RETENU_RATE)%Qc.
Proof.
  rewrite <- Qcmult_plus_distr_r. apply f_equal.
  apply Qc_is_canon. reflexivity.
Qed.

Lemma reportLine_withholding {N : Type} `{JsNumber N} (parseFloat : string -> N)
    (workerGroups : list (WorkerGroup.t N)) (allLogs : list (DailyLog.t N))
    (workedDays : list (WorkedDays.t N)) (taskMap : gmap Z (Task.t N))
    (year month : Z) (period : Period) (inputs : gmap Z DetailedInputs.t)
    (workerId : Z) (d : DetailedPayrollData.t N) :
  DetailedPayrollView.reportLine parseFloat workerGroups allLogs workedDays
    taskMap year month period inputs workerId = Some d ->
  DetailedPayrollData.retCnss d = (DetailedPayrollData.total d * RET_CNSS_RATE)%js /\
  DetailedPayrollData.retAmo d = (DetailedPayrollData.total d * RET_AMO_RATE)%js.
Proof.
  unfold DetailedPayrollView.reportLine.
  destruct (List.find _ _); [| discriminate].
  intros [= <-]. simpl. split; reflexivity.
Qed.

Lemma In_omap {A B : Type} (f : A -> option B) (l : list A) (b : B) :
  In b (omap f l) -> exists a, In a l /\ f a = Some b.
Proof.
  induction l as [| a l IH]; simpl; [tauto |].
  destruct (f a) as [b' |] eqn:Hfa.
  - intros [-> | Hin].
    + exists a. auto.
    + destruct (IH Hin) as (a' & Ha' & Hf). exists a'. auto.
  - intros Hin. destruct (IH Hin) as (a' & Ha' & Hf). exists a'. auto.
Qed.

(** C4, as stated, fails in the arithmetic of the program: for a gross pay
    of 100 the detailed payroll withholds 100 * 0.0448 + 100 * 0.0226 =
    6.739999999999999, the payroll of the same worker and logs withholds
    100 * 0.0674 = 6.74. *)
Lemma C4_split_and_combined_differ_at_100 :
  List.map
    (fun d => (DetailedPayrollData.total d,
               (DetailedPayrollData.retCnss d + DetailedPayrollData.retAmo d)%float))
    (DetailedPayrollView.generateReportData js_parseFloat plainGroups plainLogs
       [] plainTaskMap [2%Z] 2025 6 PFirst ∅)
  = [ (100, 6.739999999999999)%float ] /\
  List.map (fun d => (PayrollData.totalBrut d, PayrollData.retenu d))
    (FinalReportView.payrollData
       (FinalReportView.handleGenerateDraft plainLogs [] [plainWorker]
          2025 6 PFirst)
       [] plainTaskMap 2025 6 PFirst)
  = [ (100, 6.74)%float ] /\
  (100 * 0.0448 + 100 * 0.0226 =? 100 * 0.0674)%float = false.
Proof. repeat split; vm_compute; reflexivity. Qed.

(** C4, amended. In exact arithmetic the split policy agrees with the
    combined policy on every line of the detailed payroll: retCnss + retAmo
    = total * 0.0674.  In binary64 the two figures are equal for the gross
    pay 550 of the scenario, 37.07 both. *)
Theorem C4_split_agrees_with_combined_exactly :
  (forall (parseFloat : string -> Qc) (workerGroups : list (WorkerGroup.t Qc))
          (allLogs : list (DailyLog.t Qc)) (workedDays : list (WorkedDays.t Qc))
          (taskMap : gmap Z (Task.t Qc)) (workerIds : list Z) (year month : Z)
          (period : Period) (inputs : gmap Z DetailedInputs.t),
     Forall
       (fun d : DetailedPayrollData.t Qc =>
          (DetailedPayrollData.retCnss d + DetailedPayrollData.retAmo d)%Qc =
          (DetailedPayrollData.total d * RETENU_RATE)%Qc)
       (DetailedPayrollView.generateReportData parseFloat workerGroups allLogs
          workedDays taskMap workerIds year month period inputs)) /\
  List.map
    (fun d => (DetailedPayrollData.total d,
               (DetailedPayrollData.retCnss d + DetailedPayrollData.retAmo d)%float))
    (SavedDetailedPayroll.data scenarioDetailed)
  = [ (550, 37.07)%float ] /\
  (550 * 0.0674)%float = 37.07%float.
Proof.
  split; [| split; vm_compute; reflexivity ].
  intros. apply List.Forall_forall. intros d Hd.
  unfold DetailedPayrollView.generateReportData in Hd.
  apply In_omap in Hd. destruct Hd as (workerId & _ & Hline).
  apply reportLine_withholding in Hline. destruct Hline as [-> ->].
  apply split_rates_exact.
Qed.

(** ** Zeros in binary64 *)

Lemma finite_cases (f : float) :
  is_finite f = true ->
  (exists s, Prim2SF f = S754_zero s) \/ (exists s m e, Prim2SF f = S754_finite s m e).
Proof.
  unfold is_finite, is_nan, is_infinity.
  rewrite !FloatAxioms.eqb_spec, abs_spec.
  change (Prim2SF infinity) with (S754_infinity false).
  destruct (Prim2SF f) as [s | [|] | | s m e]; intros Hfin.
  - left. exists s. reflexivity.
  - discriminate Hfin.
  - discriminate Hfin.
  - discriminate Hfin.
  - right. exists s, m, e. reflexivity.
Qed.

Lemma zero_cases (x : float) (s : bool) :
  Prim2SF x = S754_zero s -> x = 0%float \/ x = (-0)%float.
Proof.
  intros Hx. rewrite <- (SF2Prim_Prim2SF x), Hx.
  destruct s; [right | left]; reflexivity.
Qed.

(** Zero times a finite number is a zero. *)
Lemma mul_zero_finite (f : float) :
  is_finite f = true -> (0 * f = 0 \/ 0 * f = -0)%float.
Proof.
  intros Hfin.
  assert (Hz : exists s, Prim2SF (0 * f) = S754_zero s).
  { rewrite mul_spec. change (Prim2SF 0) with (S754_zero false).
    destruct (finite_cases f Hfin) as [[s ->] | (s & m & e & ->)];
      exists (xorb false s); reflexivity. }
  destruct Hz as [s Hs]. exact (zero_cases _ s Hs).
Qed.

(** ** C5: workers without activity *)

Lemma payrollLine_idle (draftData : FinalReportData.t float)
    (workedDays : list (WorkedDays.t float)) (taskMap : gmap Z (Task.t float))
    (y m : Z) (p : Period) (w : Worker.t float) :
  List.filter (fun l => (DailyLog.workerId l =? Worker.id w)%Z)
    (FinalReportData.logs draftData) = [] ->
  FinalReportView.getDaysWorkedForWorker workedDays y m p (Worker.id w) = 0%float ->
  finiteSeniority w ->
  let d := FinalReportView.payrollLine draftData workedDays taskMap y m p w in
  PayrollData.tasks d = [] /\
  PayrollData.totalOperation d = 0%float /\
  (PayrollData.anciennete d =? 0)%float = true /\
  PayrollData.jourFerier d = 0%float /\
  PayrollData.totalBrut d = 0%float /\
  PayrollData.retenu d = 0%float /\
  PayrollData.joursTravailles d = 0%float.
Proof.
  intros Hlogs Hdays Hfin. cbv zeta. unfold FinalReportView.payrollLine.
  rewrite Hlogs, Hdays. cbn [PayrollData.tasks PayrollData.totalOperation
    PayrollData.anciennete PayrollData.jourFerier PayrollData.totalBrut
    PayrollData.retenu PayrollData.joursTravailles].
  change (FinalReportView.workerTasks taskMap []) with (@nil (PayrollTask.t float)).
  cbn [fold_left FinalReportView.sortTasks].
  change (@ndec float _ 100 0) with 100%float.
  change (@nzero float _) with 0%float.
  change (@nmul float _) with PrimFloat.mul.
  change (@nadd float _) with PrimFloat.add.
  change (@ndiv float _) with PrimFloat.div.
  destruct (mul_zero_finite _ Hfin) as [-> | ->]; repeat split; reflexivity.
Qed.

Lemma payrollData_workers {N : Type} `{JsNumber N}
    (draftData : FinalReportData.t N) (workedDays : list (WorkedDays.t N))
    (taskMap : gmap Z (Task.t N)) (y m : Z) (p : Period) :
  List.map PayrollData.worker
    (FinalReportView.payrollData draftData workedDays taskMap y m p)
  = FinalReportData.workers draftData.
Proof.
  unfold FinalReportView.payrollData. rewrite List.map_map.
  apply List.map_id.
Qed.

Lemma reportLine_worker {N : Type} `{JsNumber N} (parseFloat : string -> N)
    (workerGroups : list (WorkerGroup.t N)) (allLogs : list (DailyLog.t N))
    (workedDays : list (WorkedDays.t N)) (taskMap : gmap Z (Task.t N))
    (year month : Z) (period : Period) (inputs : gmap Z DetailedInputs.t)
    (workerId : Z) :
  In workerId (List.map Worker.id (DetailedPayrollView.allWorkers workerGroups)) ->
  exists d,
    DetailedPayrollView.reportLine parseFloat workerGroups allLogs workedDays
      taskMap year month period inputs workerId = Some d /\
    Worker.id (DetailedPayrollData.worker d) = workerId.
Proof.
  intros Hin. unfold DetailedPayrollView.reportLine.
  destruct (List.find _ _) as [w |] eqn:Hfind.
  - eexists. split; [reflexivity |]. simpl.
    apply List.find_some in Hfind. apply Z.eqb_eq, Hfind.
  - exfalso. apply List.in_map_iff in Hin. destruct Hin as (w & Hid & Hw).
    apply (List.find_none _ _ Hfind) in Hw. simpl in Hw.
    rewrite Hid, Z.eqb_refl in Hw. discriminate Hw.
Qed.

Lemma generateReportData_workers {N : Type} `{JsNumber N} (parseFloat : string -> N)
    (workerGroups : list (WorkerGroup.t N)) (allLogs : list (DailyLog.t N))
    (workedDays : list (WorkedDays.t N)) (taskMap : gmap Z (Task.t N))
    (year month : Z) (period : Period) (inputs : gmap Z DetailedInputs.t)
    (workerIds : list Z) :
  (forall id, In id workerIds ->
     In id (List.map Worker.id (DetailedPayrollView.allWorkers workerGroups))) ->
  List.map (fun d => Worker.id (DetailedPayrollData.worker d))
    (DetailedPayrollView.generateReportData parseFloat workerGroups allLogs
       workedDays taskMap workerIds year month period inputs)
  = workerIds.
Proof.
  unfold DetailedPayrollView.generateReportData.
  induction workerIds as [| id ids IH]; intros Hroster; [reflexivity |].
  simpl.
  destruct (reportLine_worker parseFloat workerGroups allLogs workedDays taskMap
              year month period inputs id) as (d & -> & Hd).
  { apply Hroster. left. reflexivity. }
  simpl. rewrite Hd. f_equal. apply IH.
  intros id' Hin. apply Hroster. right. exact Hin.
Qed.

Lemma transferOrderData_pays {N : Type} `{JsNumber N}
    (draftData : FinalReportData.t N) (workedDays : list (WorkedDays.t N))
    (taskMap : gmap Z (Task.t N)) (y m : Z) (p : Period) :
  Forall (fun item => ngtb (TransferOrderData.netPay item) nzero = true)
    (FinalReportView.transferOrderData draftData workedDays taskMap y m p).
Proof.
  apply List.Forall_forall. intros item Hin.
  unfold FinalReportView.transferOrderData in Hin.
  apply List.filter_In in Hin. exact (proj2 Hin).
Qed.

Lemma annual_draft_pays {N : Type} `{JsNumber N}
    (localeCompare : string -> string -> Z)
    (workerGroups : list (WorkerGroup.t N)) (taskMap : gmap Z (Task.t N))
    (savedFinalReports : list (SavedFinalReport.t N))
    (selectedReportIds : list string) (data : list (AnnualSummaryData.t N)) :
  AnnualSummaryView.handleGenerateDraft localeCompare workerGroups taskMap
    savedFinalReports selectedReportIds = Some data ->
  Forall (fun item => ngtb (AnnualSummaryData.netPay item) nzero = true) data.
Proof.
  unfold AnnualSummaryView.handleGenerateDraft.
  destruct selectedReportIds as [| r rs]; [discriminate |].
  intros [= <-]. apply arraySort_Forall.
  apply List.Forall_forall. intros item Hin.
  unfold AnnualSummaryView.processedData in Hin.
  apply List.filter_In in Hin. exact (proj2 Hin).
Qed.

(** The days-entry step of the bi-monthly form: the workers of the roster
    whose id is selected, each as often as the roster has it. *)
Lemma handlePrepareDaysEntry_workers {N : Type}
    (localeCompare : string -> string -> Z) (numberToString : N -> string)
    (workerGroups : list (WorkerGroup.t N)) (workedDays : list (WorkedDays.t N))
    (selectedWorkerIds : list Z) (y m : Z) (p : Period) :
  selectedWorkerIds <> [] ->
  exists initialDrafts relevantWorkers,
    FinalReportView.handlePrepareDaysEntry localeCompare numberToString
      workerGroups workedDays selectedWorkerIds y m p
    = Some (initialDrafts, relevantWorkers) /\
    Permutation relevantWorkers
      (List.filter (fun w => existsb (Z.eqb (Worker.id w)) selectedWorkerIds)
         (FinalReportView.allWorkersIncludingDeparted workerGroups)).
Proof.
  intros Hsel. unfold FinalReportView.handlePrepareDaysEntry.
  destruct selectedWorkerIds as [| id ids]; [congruence |].
  eexists. eexists. split; [reflexivity |]. apply arraySort_Permutation.
Qed.

(** The line of a requested id: there is one exactly when the roster has the
    id. *)
Lemma reportLine_in_roster {N : Type} `{JsNumber N} (parseFloat : string -> N)
    (workerGroups : list (WorkerGroup.t N)) (allLogs : list (DailyLog.t N))
    (workedDays : list (WorkedDays.t N)) (taskMap : gmap Z (Task.t N))
    (year month : Z) (period : Period) (inputs : gmap Z DetailedInputs.t)
    (workerId : Z) :
  let inRoster :=
    existsb (Z.eqb workerId)
      (List.map Worker.id (DetailedPayrollView.allWorkers workerGroups)) in
  match
    DetailedPayrollView.reportLine parseFloat workerGroups allLogs workedDays
      taskMap year month period inputs workerId
  with
  | Some d => Worker.id (DetailedPayrollData.worker d) = workerId /\ inRoster = true
  | None => inRoster = false
  end.
Proof.
  cbv zeta. unfold DetailedPayrollView.reportLine.
  destruct (List.find _ _) as [w |] eqn:Hfind.
  - apply List.find_some in Hfind. destruct Hfind as [Hw Hid].
    apply Z.eqb_eq in Hid. cbn [DetailedPayrollData.worker].
    split; [exact Hid |].
    apply List.existsb_exists. exists (Worker.id w).
    split; [apply List.in_map; exact Hw | apply Z.eqb_eq; congruence].
  - apply not_true_is_false. intros Hex.
    apply List.existsb_exists in Hex. destruct Hex as (i & Hi & Heq).
    apply Z.eqb_eq in Heq. subst i.
    apply List.in_map_iff in Hi. destruct Hi as (w & Hid & Hw).
    pose proof (List.find_none _ _ Hfind w Hw) as Hnone. simpl in Hnone.
    rewrite Hid, Z.eqb_refl in Hnone. discriminate Hnone.
Qed.

(** The lines of the detailed payroll: one for each requested id that the
    roster has, in the order of the request. *)
Lemma generateReportData_ids {N : Type} `{JsNumber N} (parseFloat : string -> N)
    (workerGroups : list (WorkerGroup.t N)) (allLogs : list (DailyLog.t N))
    (workedDays : list (WorkedDays.t N)) (taskMap : gmap Z (Task.t N))
    (year month : Z) (period : Period) (inputs : gmap Z DetailedInputs.t)
    (workerIds : list Z) :
  List.map (fun d => Worker.id (DetailedPayrollData.worker d))
    (DetailedPayrollView.generateReportData parseFloat workerGroups allLogs
       workedDays taskMap workerIds year month period inputs)
  = List.filter
      (fun id =>
         existsb (Z.eqb id)
           (List.map Worker.id (DetailedPayrollView.allWorkers workerGroups)))
      workerIds.
Proof.
  unfold DetailedPayrollView.generateReportData.
  induction workerIds as [| id ids IH]; [reflexivity |].
  simpl.
  pose proof (reportLine_in_roster parseFloat workerGroups allLogs workedDays
                taskMap year month period inputs id) as Hline.
  cbv zeta in Hline.
  destruct (DetailedPayrollView.reportLine _ _ _ _ _ _ _ _ _ id) as [d |].
  - destruct Hline as [Hid ->]. simpl. rewrite Hid. f_equal. exact IH.
  - rewrite Hline. exact IH.
Qed.

(** C5, as stated, fails for the transfer order: the idle worker is a worker
    of the report, the line derived for the worker has net pay 0, and the
    transfer order the cascade saves has no line. *)
Lemma C5_transfer_order_drops_idle_worker :
  FinalReportData.workers idleDraft = [idleWorker] /\
  List.map
    (fun w =>
       TransferOrderData.netPay
         (FinalReportView.transferLine idleDraft [] scenarioTaskMap 2025 6
            PFirst w))
    (FinalReportData.workers idleDraft) = [ 0%float ] /\
  FinalReportView.transferOrderData idleDraft [] scenarioTaskMap 2025 6 PFirst
  = [].
Proof. repeat split; vm_compute; reflexivity. Qed.

(** C5, amended. The bi-monthly form turns the selected ids into the workers
    of the roster that have them (a selected id the roster does not have is
    dropped), the draft holds these workers and the payroll has one line for
    each of them; the line of a worker with no log and zero days worked,
    whose seniority factor is finite, is all zero.  The detailed payroll has
    one line for each requested id that the roster has, and none for another.
    The transfer order, like the annual rollup, keeps only the lines whose
    net pay is greater than 0: the all-zero line the rollup derives for the
    idle worker is not in its draft. *)
Theorem C5_idle_worker_lines :
  (forall (localeCompare : string -> string -> Z)
          (numberToString : float -> string)
          (workerGroups : list (WorkerGroup.t float))
          (allLogs : list (DailyLog.t float))
          (workedDays : list (WorkedDays.t float))
          (taskMap : gmap Z (Task.t float))
          (selectedWorkerIds : list Z) (y m : Z) (p : Period),
     selectedWorkerIds <> [] ->
     exists initialDrafts relevantWorkers,
       FinalReportView.handlePrepareDaysEntry localeCompare numberToString
         workerGroups workedDays selectedWorkerIds y m p
       = Some (initialDrafts, relevantWorkers) /\
       let draftData :=
         FinalReportView.handleGenerateDraft allLogs workedDays relevantWorkers
           y m p in
       Permutation (FinalReportData.workers draftData)
         (List.filter
            (fun w => existsb (Z.eqb (Worker.id w)) selectedWorkerIds)
            (FinalReportView.allWorkersIncludingDeparted workerGroups)) /\
       List.map PayrollData.worker
         (FinalReportView.payrollData draftData workedDays taskMap y m p)
       = FinalReportData.workers draftData) /\
  (forall (draftData : FinalReportData.t float)
          (workedDays : list (WorkedDays.t float))
          (taskMap : gmap Z (Task.t float)) (y m : Z) (p : Period),
     List.map PayrollData.worker
       (FinalReportView.payrollData draftData workedDays taskMap y m p)
     = FinalReportData.workers draftData /\
     Forall (fun item => (0 <? TransferOrderData.netPay item)%float = true)
       (FinalReportView.transferOrderData draftData workedDays taskMap y m p) /\
     forall w : Worker.t float,
       List.filter (fun l => (DailyLog.workerId l =? Worker.id w)%Z)
         (FinalReportData.logs draftData) = [] ->
       FinalReportView.getDaysWorkedForWorker workedDays y m p (Worker.id w)
         = 0%float ->
       finiteSeniority w ->
       let d := FinalReportView.payrollLine draftData workedDays taskMap y m p w in
       PayrollData.tasks d = [] /\
       PayrollData.totalOperation d = 0%float /\
       (PayrollData.anciennete d =? 0)%float = true /\
       PayrollData.jourFerier d = 0%float /\
       PayrollData.totalBrut d = 0%float /\
       PayrollData.retenu d = 0%float /\
       PayrollData.joursTravailles d = 0%float) /\
  (forall (localeCompare : string -> string -> Z)
          (workerGroups : list (WorkerGroup.t float))
          (allLogs : list (DailyLog.t float))
          (workedDays : list (WorkedDays.t float))
          (taskMap : gmap Z (Task.t float)) (year month : Z) (period : Period)
          (inputs : gmap Z DetailedInputs.t) (workerIds : list Z),
     let inRoster (id : Z) :=
       existsb (Z.eqb id)
         (List.map Worker.id (DetailedPayrollView.allWorkers workerGroups)) in
     List.map (fun d => Worker.id (DetailedPayrollData.worker d))
       (DetailedPayrollView.generateReportData js_parseFloat workerGroups
          allLogs workedDays taskMap workerIds year month period inputs)
     = List.filter inRoster workerIds /\
     Permutation
       (List.map (fun d => Worker.id (DetailedPayrollData.worker d))
          (SavedDetailedPayroll.data
             (DetailedPayrollView.handleGenerateDraft js_parseFloat
                localeCompare workerGroups allLogs workedDays taskMap
                workerIds year month period)))
       (List.filter inRoster workerIds)) /\
  (forall (localeCompare : string -> string -> Z)
          (workerGroups : list (WorkerGroup.t float))
          (taskMap : gmap Z (Task.t float))
          (savedFinalReports : list (SavedFinalReport.t float))
          (selectedReportIds : list string)
          (data : list (AnnualSummaryData.t float)),
     AnnualSummaryView.handleGenerateDraft localeCompare workerGroups taskMap
       savedFinalReports selectedReportIds = Some data ->
     Forall (fun item => (0 <? AnnualSummaryData.netPay item)%float = true) data) /\
  AnnualSummaryView.summaryLine idleGroups scenarioTaskMap [idleReport] ["r0"] 3
  = Some (AnnualSummaryData.mk idleWorker 0 0 0 0 0 0 0 "G" false)%float /\
  AnnualSummaryView.handleGenerateDraft codeUnitCompare idleGroups
    scenarioTaskMap [idleReport] ["r0"] = Some [].
Proof.
  split; [| split; [| split; [| split; [| split; vm_compute; reflexivity]]]].
  - intros localeCompare numberToString workerGroups allLogs workedDays taskMap
      selectedWorkerIds y m p Hsel.
    destruct (handlePrepareDaysEntry_workers localeCompare numberToString
                workerGroups workedDays selectedWorkerIds y m p Hsel)
      as (initialDrafts & relevantWorkers & Hprepare & Hperm).
    exists initialDrafts, relevantWorkers.
    split; [exact Hprepare |]. cbv zeta.
    split; [exact Hperm | apply payrollData_workers].
  - intros. split; [apply payrollData_workers |].
    split; [exact (transferOrderData_pays draftData workedDays taskMap y m p) |].
    intros w. apply payrollLine_idle.
  - intros. cbv zeta.
    pose proof (generateReportData_ids js_parseFloat workerGroups allLogs
                  workedDays taskMap year month period) as Hids.
    split; [apply Hids |].
    unfold DetailedPayrollView.handleGenerateDraft,
      DetailedPayrollView.sortByWorkerName.
    cbn [SavedDetailedPayroll.data].
    rewrite arraySort_Permutation, Hids. reflexivity.
  - intros localeCompare workerGroups taskMap savedFinalReports
      selectedReportIds data.
    exact (annual_draft_pays localeCompare workerGroups taskMap
             savedFinalReports selectedReportIds data).
Qed.

(** The idle worker is selected together with an id, 99, that the roster does
    not have; no attendance entry is on file. *)
Lemma C5_idle_worker_lines_witness :
  [3; 99]%Z <> [] /\
  (exists initialDrafts relevantWorkers,
     FinalReportView.handlePrepareDaysEntry codeUnitCompare
       (fun _ : float => "0") idleGroups [] [3; 99]%Z 2025 6 PFirst
     = Some (initialDrafts, relevantWorkers) /\
     Permutation relevantWorkers [idleWorker]) /\
  FinalReportView.payrollData idleDraft [] scenarioTaskMap 2025 6 PFirst
  = [ PayrollData.mk idleWorker [] 0 0 0 0 0 0 ]%float /\
  PayrollData.totalBrut
    (FinalReportView.payrollLine idleDraft [] scenarioTaskMap 2025 6 PFirst
       idleWorker) = 0%float /\
  List.map (fun d => Worker.id (DetailedPayrollData.worker d))
    (DetailedPayrollView.generateReportData js_parseFloat idleGroups [] []
       scenarioTaskMap [3; 99]%Z 2025 6 PFirst ∅) = [3%Z].
Proof.
  pose proof C5_idle_worker_lines as (Hform & Hpayroll & Hdetailed & _).
  assert (Hsel : [3; 99]%Z <> []) by discriminate.
  split; [exact Hsel |]. split; [| split; [| split]].
  - destruct (Hform codeUnitCompare (fun _ : float => "0") idleGroups [] []
                scenarioTaskMap [3; 99]%Z 2025%Z 6%Z PFirst Hsel)
      as (initialDrafts & relevantWorkers & Hprepare & Hperm & _).
    exists initialDrafts, relevantWorkers.
    split; [exact Hprepare | exact Hperm].
  - vm_compute. reflexivity.
  - refine (proj1 (proj2 (proj2 (proj2 (proj2
      (proj2 (proj2 (Hpayroll idleDraft [] scenarioTaskMap 2025%Z 6%Z PFirst))
         idleWorker _ _ _)))))); reflexivity.
  - rewrite (proj1 (Hdetailed codeUnitCompare idleGroups [] [] scenarioTaskMap
                      2025%Z 6%Z PFirst ∅ [3; 99]%Z)).
    reflexivity.
Defined.

(** ** C6: the indemnity tasks *)

Lemma filter_notIndemnity_nil {N : Type} (logs : list (DailyLog.t N)) :
  onlyIndemnities logs -> List.filter notIndemnity logs = [].
Proof.
  unfold onlyIndemnities. induction 1 as [| l logs Hl _ IH]; [reflexivity |].
  simpl. unfold notIndemnity at 1.
  destruct Hl as [-> | ->]; simpl; exact IH.
Qed.

Lemma onlyIndemnities_filter {N : Type} (keep : DailyLog.t N -> bool)
    (logs : list (DailyLog.t N)) :
  onlyIndemnities logs -> onlyIndemnities (List.filter keep logs).
Proof.
  unfold onlyIndemnities. rewrite !List.Forall_forall.
  intros Hall l Hin. apply List.filter_In in Hin. apply Hall, Hin.
Qed.

Lemma filter_idempotent {A : Type} (keep : A -> bool) (l : list A) :
  List.filter keep (List.filter keep l) = List.filter keep l.
Proof.
  induction l as [| x l IH]; simpl; [reflexivity |].
  destruct (keep x) eqn:Hx; simpl; rewrite ?Hx, IH; reflexivity.
Qed.

(** The logs of the indemnity tasks can be dropped beforehand: the
    operational total is the same. *)
Lemma totalOperationOf_without_indemnities {N : Type} `{JsNumber N}
    (taskMap : gmap Z (Task.t N)) (logs : list (DailyLog.t N)) (workerId : Z) :
  AnnualSummaryView.totalOperationOf taskMap logs workerId =
  AnnualSummaryView.totalOperationOf taskMap (List.filter notIndemnity logs)
    workerId.
Proof.
  unfold AnnualSummaryView.totalOperationOf.
  rewrite (filter_filter_comm _ notIndemnity logs), filter_idempotent.
  reflexivity.
Qed.

Lemma reportLine_without_indemnities {N : Type} `{JsNumber N}
    (parseFloat : string -> N) (workerGroups : list (WorkerGroup.t N))
    (allLogs : list (DailyLog.t N)) (workedDays : list (WorkedDays.t N))
    (taskMap : gmap Z (Task.t N)) (year month : Z) (period : Period)
    (inputs : gmap Z DetailedInputs.t) (workerId : Z) :
  DetailedPayrollView.reportLine parseFloat workerGroups allLogs workedDays
    taskMap year month period inputs workerId =
  DetailedPayrollView.reportLine parseFloat workerGroups
    (List.filter notIndemnity allLogs) workedDays taskMap year month period
    inputs workerId.
Proof.
  unfold DetailedPayrollView.reportLine.
  destruct (List.find _ _) as [w |]; [| reflexivity].
  rewrite (filter_filter_comm _ notIndemnity allLogs), filter_idempotent.
  reflexivity.
Qed.

(** Subtracting 0 changes nothing, whatever the number. *)
Lemma sub_zero_r (x : float) : (x - 0)%float = x.
Proof.
  apply Prim2SF_inj. rewrite sub_spec.
  change (Prim2SF 0) with (S754_zero false).
  destruct (Prim2SF x) as [[|] | [|] | | s m e]; reflexivity.
Qed.

(** The detailed payroll over indemnity logs alone, in binary64. *)
Lemma reportLine_indemnities_float (workerGroups : list (WorkerGroup.t float))
    (allLogs : list (DailyLog.t float)) (workedDays : list (WorkedDays.t float))
    (taskMap : gmap Z (Task.t float)) (year month : Z) (period : Period)
    (inputs : gmap Z DetailedInputs.t) (workerId : Z)
    (d : DetailedPayrollData.t float) :
  onlyIndemnities allLogs ->
  DetailedPayrollView.reportLine js_parseFloat workerGroups allLogs workedDays
    taskMap year month period inputs workerId = Some d ->
  finiteSeniority (DetailedPayrollData.worker d) ->
  DetailedPayrollData.montant d = 0%float /\
  DetailedPayrollData.total d = 0%float /\
  DetailedPayrollData.retCnss d = 0%float /\
  DetailedPayrollData.retAmo d = 0%float /\
  DetailedPayrollData.netAPayer d =
    (0 + DetailedPayrollData.joursTravailles d * priceOr0 taskMap LAIT_TASK_ID
       + DetailedPayrollData.joursTravailles d * priceOr0 taskMap PANIER_TASK_ID
       - DetailedPayrollData.avanceAid d - DetailedPayrollData.ir d)%float.
Proof.
  intros Hlogs. unfold DetailedPayrollView.reportLine.
  destruct (List.find _ _) as [w |]; [| discriminate].
  rewrite (filter_notIndemnity_nil _ (onlyIndemnities_filter _ _ Hlogs)).
  intros [= <-]. unfold finiteSeniority.
  cbn [DetailedPayrollData.worker DetailedPayrollData.montant
    DetailedPayrollData.total DetailedPayrollData.retCnss
    DetailedPayrollData.retAmo DetailedPayrollData.netAPayer
    DetailedPayrollData.joursTravailles DetailedPayrollData.avanceAid
    DetailedPayrollData.ir fold_left].
  change (@ndec float _ 100 0) with 100%float.
  change (@nzero float _) with 0%float.
  change (@nmul float _) with PrimFloat.mul.
  change (@nadd float _) with PrimFloat.add.
  change (@nsub float _) with PrimFloat.sub.
  change (@ndiv float _) with PrimFloat.div.
  intros Hfin.
  assert (Htotal : (0 + 0 * (Worker.seniorityPercentage w / 100))%float = 0%float).
  { destruct (mul_zero_finite _ Hfin) as [-> | ->]; reflexivity. }
  rewrite Htotal.
  change (0 * RET_CNSS_RATE)%float with 0%float.
  change (0 * RET_AMO_RATE)%float with 0%float.
  rewrite !sub_zero_r. repeat split; reflexivity.
Qed.

(** The annual rollup over indemnity logs alone, in binary64. *)
Lemma summaryLine_indemnities_float (workerGroups : list (WorkerGroup.t float))
    (taskMap : gmap Z (Task.t float))
    (savedFinalReports : list (SavedFinalReport.t float))
    (selectedReportIds : list string) (workerId : Z)
    (d : AnnualSummaryData.t float) :
  onlyIndemnities
    (AnnualSummaryView.aggregatedLogs savedFinalReports selectedReportIds) ->
  AnnualSummaryView.summaryLine workerGroups taskMap savedFinalReports
    selectedReportIds workerId = Some d ->
  finiteSeniority (AnnualSummaryData.worker d) ->
  AnnualSummaryData.totalOperation d = 0%float /\
  AnnualSummaryData.totalBrut d = 0%float /\
  AnnualSummaryData.retenu d = 0%float /\
  AnnualSummaryData.netPay d =
    (0 + AnnualSummaryData.joursTravailles d *
         (priceOr0 taskMap LAIT_TASK_ID + priceOr0 taskMap PANIER_TASK_ID))%float.
Proof.
  intros Hlogs. unfold AnnualSummaryView.summaryLine.
  destruct (List.find _ _) as [w |]; [| discriminate].
  unfold AnnualSummaryView.totalOperationOf.
  rewrite (filter_notIndemnity_nil _ (onlyIndemnities_filter _ _ Hlogs)).
  intros [= <-]. unfold finiteSeniority.
  cbn [AnnualSummaryData.worker AnnualSummaryData.totalOperation
    AnnualSummaryData.totalBrut AnnualSummaryData.retenu
    AnnualSummaryData.netPay AnnualSummaryData.joursTravailles fold_left].
  change (@ndec float _ 100 0) with 100%float.
  change (@nzero float _) with 0%float.
  change (@nmul float _) with PrimFloat.mul.
  change (@nadd float _) with PrimFloat.add.
  change (@nsub float _) with PrimFloat.sub.
  change (@ndiv float _) with PrimFloat.div.
  intros Hfin.
  assert (Htotal : (0 + 0 * (Worker.seniorityPercentage w / 100))%float = 0%float).
  { destruct (mul_zero_finite _ Hfin) as [-> | ->]; reflexivity. }
  rewrite Htotal.
  change (0 * RETENU_RATE)%float with 0%float.
  rewrite sub_zero_r. repeat split; reflexivity.
Qed.

(** The same two lines in exact arithmetic. *)
Lemma reportLine_indemnities_exact (parseFloat : string -> Qc)
    (workerGroups : list (WorkerGroup.t Qc)) (allLogs : list (DailyLog.t Qc))
    (workedDays : list (WorkedDays.t Qc)) (taskMap : gmap Z (Task.t Qc))
    (year month : Z) (period : Period) (inputs : gmap Z DetailedInputs.t)
    (workerId : Z) (d : DetailedPayrollData.t Qc) :
  onlyIndemnities allLogs ->
  DetailedPayrollView.reportLine parseFloat workerGroups allLogs workedDays
    taskMap year month period inputs workerId = Some d ->
  DetailedPayrollData.montant d = 0%Qc /\
  DetailedPayrollData.total d = 0%Qc /\
  DetailedPayrollData.retCnss d = 0%Qc /\
  DetailedPayrollData.retAmo d = 0%Qc /\
  DetailedPayrollData.netAPayer d =
    (DetailedPayrollData.joursTravailles d *
       (priceOr0 taskMap LAIT_TASK_ID + priceOr0 taskMap PANIER_TASK_ID)
     - DetailedPayrollData.avanceAid d - DetailedPayrollData.ir d)%Qc.
Proof.
  intros Hlogs. unfold DetailedPayrollView.reportLine.
  destruct (List.find _ _) as [w |]; [| discriminate].
  rewrite (filter_notIndemnity_nil _ (onlyIndemnities_filter _ _ Hlogs)).
  intros [= <-].
  cbn [DetailedPayrollData.montant DetailedPayrollData.total
    DetailedPayrollData.retCnss DetailedPayrollData.retAmo
    DetailedPayrollData.netAPayer DetailedPayrollData.joursTravailles
    DetailedPayrollData.avanceAid DetailedPayrollData.ir fold_left].
  change (@nzero Qc _) with 0%Qc.
  change (@nmul Qc _) with Qcmult.
  change (@nadd Qc _) with Qcplus.
  change (@nsub Qc _) with Qcminus.
  repeat split; ring.
Qed.

Lemma summaryLine_indemnities_exact (workerGroups : list (WorkerGroup.t Qc))
    (taskMap : gmap Z (Task.t Qc))
    (savedFinalReports : list (SavedFinalReport.t Qc))
    (selectedReportIds : list string) (workerId : Z)
    (d : AnnualSummaryData.t Qc) :
  onlyIndemnities
    (AnnualSummaryView.aggregatedLogs savedFinalReports selectedReportIds) ->
  AnnualSummaryView.summaryLine workerGroups taskMap savedFinalReports
    selectedReportIds workerId = Some d ->
  AnnualSummaryData.totalOperation d = 0%Qc /\
  AnnualSummaryData.totalBrut d = 0%Qc /\
  AnnualSummaryData.retenu d = 0%Qc /\
  AnnualSummaryData.netPay d =
    (AnnualSummaryData.joursTravailles d *
       (priceOr0 taskMap LAIT_TASK_ID + priceOr0 taskMap PANIER_TASK_ID))%Qc.
Proof.
  intros Hlogs. unfold AnnualSummaryView.summaryLine.
  destruct (List.find _ _) as [w |]; [| discriminate].
  unfold AnnualSummaryView.totalOperationOf.
  rewrite (filter_notIndemnity_nil _ (onlyIndemnities_filter _ _ Hlogs)).
  intros [= <-].
  cbn [AnnualSummaryData.totalOperation AnnualSummaryData.totalBrut
    AnnualSummaryData.retenu AnnualSummaryData.netPay
    AnnualSummaryData.joursTravailles fold_left].
  change (@nzero Qc _) with 0%Qc.
  change (@nmul Qc _) with Qcmult.
  change (@nadd Qc _) with Qcplus.
  change (@nsub Qc _) with Qcminus.
  repeat split; ring.
Qed.

(** C6, as stated, fails for the net pay of the detailed payroll.  Worker W
    logs only milk and meal basket and works 10 days.  With prices 8 and 12
    and an income tax of 5, the line pays 195, not 10 * (8 + 12) - 0 = 200:
    the income tax is deducted too.  With prices 0.1 and 0.2 and no
    deduction, the line pays 10 * 0.1 + 10 * 0.2 = 3, where
    10 * (0.1 + 0.2) is 3.0000000000000004. *)
Lemma C6_detailed_net_pay_differs :
  onlyIndemnities indemnityLogs /\
  List.map
    (fun d => (DetailedPayrollData.montant d, DetailedPayrollData.avanceAid d,
               DetailedPayrollData.netAPayer d))
    (DetailedPayrollView.generateReportData js_parseFloat scenarioGroups
       indemnityLogs scenarioWorkedDays scenarioTaskMap [1%Z] 2025 6 PFirst
       {[ 1%Z := DetailedInputs.mk "" "5" ]})
  = [ (0, 0, 195)%float ] /\
  (10 * (8 + 12) - 0)%float = 200%float /\
  List.map
    (fun d => (DetailedPayrollData.montant d, DetailedPayrollData.avanceAid d,
               DetailedPayrollData.netAPayer d))
    (DetailedPayrollView.generateReportData js_parseFloat scenarioGroups
       indemnityLogs scenarioWorkedDays dimeTaskMap [1%Z] 2025 6 PFirst ∅)
  = [ (0, 0, 3)%float ] /\
  (10 * (0.1 + 0.2) - 0)%float = 3.0000000000000004%float.
Proof.
  split; [| repeat split; vm_compute; reflexivity].
  constructor; [left; reflexivity |].
  constructor; [right; reflexivity | constructor].
Qed.

(** C6, amended. The logs of the two indemnity tasks never count in the
    operational total: dropping them beforehand changes no line of the
    detailed payroll and no operational total of the annual rollup.  For
    logs of the two indemnity tasks alone, the operational total is 0 and, the seniority factor being finite, so are the gross pay
    and the withholdings; the net pay is what the indemnities leave after
    every deduction.  In binary64 the detailed payroll pays
    0 + daysWorked * laitPrice + daysWorked * panierPrice - avanceAid - ir
    and the annual rollup, which has no deduction,
    0 + daysWorked * (laitPrice + panierPrice); in exact arithmetic these are
    daysWorked * (laitPrice + panierPrice) - avanceAid - ir and
    daysWorked * (laitPrice + panierPrice). *)
Theorem C6_indemnities_excluded_from_total :
  (forall (workerGroups : list (WorkerGroup.t float))
          (allLogs : list (DailyLog.t float))
          (workedDays : list (WorkedDays.t float))
          (taskMap : gmap Z (Task.t float)) (year month : Z) (period : Period)
          (inputs : gmap Z DetailedInputs.t) (workerId : Z),
     DetailedPayrollView.reportLine js_parseFloat workerGroups allLogs
       workedDays taskMap year month period inputs workerId =
     DetailedPayrollView.reportLine js_parseFloat workerGroups
       (List.filter notIndemnity allLogs) workedDays taskMap year month period
       inputs workerId) /\
  (forall (taskMap : gmap Z (Task.t float)) (logs : list (DailyLog.t float))
          (workerId : Z),
     AnnualSummaryView.totalOperationOf taskMap logs workerId =
     AnnualSummaryView.totalOperationOf taskMap (List.filter notIndemnity logs)
       workerId) /\
  (forall (workerGroups : list (WorkerGroup.t float))
          (allLogs : list (DailyLog.t float))
          (workedDays : list (WorkedDays.t float))
          (taskMap : gmap Z (Task.t float)) (year month : Z) (period : Period)
          (inputs : gmap Z DetailedInputs.t) (workerId : Z)
          (d : DetailedPayrollData.t float),
     onlyIndemnities allLogs ->
     DetailedPayrollView.reportLine js_parseFloat workerGroups allLogs
       workedDays taskMap year month period inputs workerId = Some d ->
     finiteSeniority (DetailedPayrollData.worker d) ->
     DetailedPayrollData.montant d = 0%float /\
     DetailedPayrollData.total d = 0%float /\
     DetailedPayrollData.retCnss d = 0%float /\
     DetailedPayrollData.retAmo d = 0%float /\
     DetailedPayrollData.netAPayer d =
       (0 + DetailedPayrollData.joursTravailles d * priceOr0 taskMap LAIT_TASK_ID
          + DetailedPayrollData.joursTravailles d * priceOr0 taskMap PANIER_TASK_ID
          - DetailedPayrollData.avanceAid d - DetailedPayrollData.ir d)%float) /\
  (forall (workerGroups : list (WorkerGroup.t float))
          (taskMap : gmap Z (Task.t float))
          (savedFinalReports : list (SavedFinalReport.t float))
          (selectedReportIds : list string) (workerId : Z)
          (d : AnnualSummaryData.t float),
     onlyIndemnities
       (AnnualSummaryView.aggregatedLogs savedFinalReports selectedReportIds) ->
     AnnualSummaryView.summaryLine workerGroups taskMap savedFinalReports
       selectedReportIds workerId = Some d ->
     finiteSeniority (AnnualSummaryData.worker d) ->
     AnnualSummaryData.totalOperation d = 0%float /\
     AnnualSummaryData.totalBrut d = 0%float /\
     AnnualSummaryData.retenu d = 0%float /\
     AnnualSummaryData.netPay d =
       (0 + AnnualSummaryData.joursTravailles d *
            (priceOr0 taskMap LAIT_TASK_ID + priceOr0 taskMap PANIER_TASK_ID))%float) /\
  (forall (parseFloat : string -> Qc) (workerGroups : list (WorkerGroup.t Qc))
          (allLogs : list (DailyLog.t Qc)) (workedDays : list (WorkedDays.t Qc))
          (taskMap : gmap Z (Task.t Qc)) (year month : Z) (period : Period)
          (inputs : gmap Z DetailedInputs.t) (workerId : Z)
          (d : DetailedPayrollData.t Qc),
     onlyIndemnities allLogs ->
     DetailedPayrollView.reportLine parseFloat workerGroups allLogs workedDays
       taskMap year month period inputs workerId = Some d ->
     DetailedPayrollData.montant d = 0%Qc /\
     DetailedPayrollData.total d = 0%Qc /\
     DetailedPayrollData.retCnss d = 0%Qc /\
     DetailedPayrollData.retAmo d = 0%Qc /\
     DetailedPayrollData.netAPayer d =
       (DetailedPayrollData.joursTravailles d *
          (priceOr0 taskMap LAIT_TASK_ID + priceOr0 taskMap PANIER_TASK_ID)
        - DetailedPayrollData.avanceAid d - DetailedPayrollData.ir d)%Qc) /\
  (forall (workerGroups : list (WorkerGroup.t Qc)) (taskMap : gmap Z (Task.t Qc))
          (savedFinalReports : list (SavedFinalReport.t Qc))
          (selectedReportIds : list string) (workerId : Z)
          (d : AnnualSummaryData.t Qc),
     onlyIndemnities
       (AnnualSummaryView.aggregatedLogs savedFinalReports selectedReportIds) ->
     AnnualSummaryView.summaryLine workerGroups taskMap savedFinalReports
       selectedReportIds workerId = Some d ->
     AnnualSummaryData.totalOperation d = 0%Qc /\
     AnnualSummaryData.totalBrut d = 0%Qc /\
     AnnualSummaryData.retenu d = 0%Qc /\
     AnnualSummaryData.netPay d =
       (AnnualSummaryData.joursTravailles d *
          (priceOr0 taskMap LAIT_TASK_ID + priceOr0 taskMap PANIER_TASK_ID))%Qc).
Proof.
  split; [| split; [| split; [| split; [| split]]]].
  - intros *. apply reportLine_without_indemnities.
  - intros *. apply totalOperationOf_without_indemnities.
  - intros *. apply reportLine_indemnities_float.
  - intros *. apply summaryLine_indemnities_float.
  - intros *. apply reportLine_indemnities_exact.
  - intros *. apply summaryLine_indemnities_exact.
Qed.

Lemma C6_indemnities_excluded_from_total_witness :
  exists d : DetailedPayrollData.t float,
    DetailedPayrollView.reportLine js_parseFloat scenarioGroups indemnityLogs
      scenarioWorkedDays scenarioTaskMap 2025 6 PFirst ∅ 1 = Some d /\
    DetailedPayrollData.montant d = 0%float /\
    DetailedPayrollData.netAPayer d = (0 + 10 * 8 + 10 * 12 - 0 - 0)%float.
Proof.
  exists (DetailedPayrollData.mk scenarioWorker 0 0 0 80 120 0 0 0 0 200 10 0 0)%float.
  assert (Hline :
    DetailedPayrollView.reportLine js_parseFloat scenarioGroups indemnityLogs
      scenarioWorkedDays scenarioTaskMap 2025 6 PFirst ∅ 1
    = Some (DetailedPayrollData.mk scenarioWorker 0 0 0 80 120 0 0 0 0 200 10 0 0)%float).
  { vm_compute. reflexivity. }
  assert (Hlogs : onlyIndemnities indemnityLogs).
  { constructor; [left; reflexivity |].
    constructor; [right; reflexivity | constructor]. }
  assert (Hfin :
    finiteSeniority
      (DetailedPayrollData.worker
         (DetailedPayrollData.mk scenarioWorker 0 0 0 80 120 0 0 0 0 200 10 0 0)%float)).
  { reflexivity. }
  destruct (proj1 (proj2 (proj2 C6_indemnities_excluded_from_total))
              scenarioGroups indemnityLogs
              scenarioWorkedDays scenarioTaskMap 2025%Z 6%Z PFirst ∅ 1%Z _
              Hlogs Hline Hfin) as (Hm & _ & _ & _ & Hn).
  split; [exact Hline | split; [exact Hm |]].
  rewrite Hn. vm_compute. reflexivity.
Defined.

(** ** C7: the rollup *)

(** The equations of a line of the annual rollup, for any number type. *)
Lemma summaryLine_equations {N : Type} `{JsNumber N}
    (workerGroups : list (WorkerGroup.t N)) (taskMap : gmap Z (Task.t N))
    (savedFinalReports : list (SavedFinalReport.t N))
    (selectedReportIds : list string) (workerId : Z)
    (d : AnnualSummaryData.t N) :
  AnnualSummaryView.summaryLine workerGroups taskMap savedFinalReports
    selectedReportIds workerId = Some d ->
  AnnualSummaryData.totalOperation d =
    AnnualSummaryView.totalOperationOf taskMap
      (AnnualSummaryView.aggregatedLogs savedFinalReports selectedReportIds)
      workerId /\
  AnnualSummaryData.joursTravailles d =
    AnnualSummaryView.joursTravaillesOf
      (AnnualSummaryView.aggregatedWorkedDays savedFinalReports selectedReportIds)
      workerId /\
  AnnualSummaryData.anciennete d =
    (AnnualSummaryData.totalOperation d *
     (Worker.seniorityPercentage (AnnualSummaryData.worker d) / ndec 100 0))%js /\
  AnnualSummaryData.totalBrut d =
    (AnnualSummaryData.totalOperation d + AnnualSummaryData.anciennete d)%js /\
  AnnualSummaryData.retenu d = (AnnualSummaryData.totalBrut d * RETENU_RATE)%js /\
  AnnualSummaryData.indemnites d =
    (AnnualSummaryData.joursTravailles d *
     (priceOr0 taskMap LAIT_TASK_ID + priceOr0 taskMap PANIER_TASK_ID))%js /\
  AnnualSummaryData.netPay d =
    (AnnualSummaryData.totalBrut d - AnnualSummaryData.retenu d +
     AnnualSummaryData.indemnites d)%js.
Proof.
  unfold AnnualSummaryView.summaryLine.
  destruct (List.find _ _) as [w |]; [| discriminate].
  intros [= <-]. simpl. tauto.
Qed.

(** The logs of the selected reports are summed in one pass: the sum over
    the logs of a further period goes on from the sum so far. *)
Lemma totalOperationOf_app {N : Type} `{JsNumber N} (taskMap : gmap Z (Task.t N))
    (logs1 logs2 : list (DailyLog.t N)) (workerId : Z) :
  AnnualSummaryView.totalOperationOf taskMap (logs1 ++ logs2) workerId =
  fold_left
    (fun sum log =>
       (sum + DailyLog.quantity log * priceOr0 taskMap (DailyLog.taskId log))%js)
    (List.filter notIndemnity
       (List.filter (fun l => (DailyLog.workerId l =? workerId)%Z) logs2))
    (AnnualSummaryView.totalOperationOf taskMap logs1 workerId).
Proof.
  unfold AnnualSummaryView.totalOperationOf.
  rewrite !List.filter_app, List.fold_left_app. reflexivity.
Qed.

Lemma fold_left_Qcplus_shift {A : Type} (g : A -> Qc) (l : list A) (a : Qc) :
  fold_left (fun sum x => (sum + g x)%Qc) l a =
  (a + fold_left (fun sum x => (sum + g x)%Qc) l 0%Qc)%Qc.
Proof.
  revert a. induction l as [| x l IH]; intros a; simpl.
  - ring.
  - rewrite (IH (a + g x)%Qc), (IH (0 + g x)%Qc). ring.
Qed.

(** In exact arithmetic the total over two periods is the sum of the totals
    of the periods. *)
Lemma totalOperationOf_app_exact (taskMap : gmap Z (Task.t Qc))
    (logs1 logs2 : list (DailyLog.t Qc)) (workerId : Z) :
  AnnualSummaryView.totalOperationOf taskMap (logs1 ++ logs2) workerId =
  (AnnualSummaryView.totalOperationOf taskMap logs1 workerId +
   AnnualSummaryView.totalOperationOf taskMap logs2 workerId)%Qc.
Proof.
  rewrite totalOperationOf_app. unfold AnnualSummaryView.totalOperationOf.
  exact (fold_left_Qcplus_shift
           (fun log =>
              (DailyLog.quantity log * priceOr0 taskMap (DailyLog.taskId log))%Qc)
           _ _).
Qed.

Lemma summaryLine_worker {N : Type} `{JsNumber N}
    (workerGroups : list (WorkerGroup.t N)) (taskMap : gmap Z (Task.t N))
    (savedFinalReports : list (SavedFinalReport.t N))
    (selectedReportIds : list string) (workerId : Z)
    (d : AnnualSummaryData.t N) :
  AnnualSummaryView.summaryLine workerGroups taskMap savedFinalReports
    selectedReportIds workerId = Some d ->
  Worker.id (AnnualSummaryData.worker d) = workerId /\
  In (AnnualSummaryData.worker d) (AnnualSummaryView.allWorkers workerGroups).
Proof.
  unfold AnnualSummaryView.summaryLine.
  destruct (List.find (fun w => (Worker.id w =? workerId)%Z)
              (AnnualSummaryView.allWorkers workerGroups)) as [w |] eqn:Hfind;
    [| discriminate].
  intros Heq. injection Heq as <-. cbn [AnnualSummaryData.worker].
  apply List.find_some in Hfind. destruct Hfind as [Hin Hid].
  split; [apply Z.eqb_eq; exact Hid | exact Hin].
Qed.

(** A line of the draft of the rollup is the line derived for its worker. *)
Lemma annual_draft_lines {N : Type} `{JsNumber N}
    (localeCompare : string -> string -> Z)
    (workerGroups : list (WorkerGroup.t N)) (taskMap : gmap Z (Task.t N))
    (savedFinalReports : list (SavedFinalReport.t N))
    (selectedReportIds : list string) (data : list (AnnualSummaryData.t N))
    (d : AnnualSummaryData.t N) :
  AnnualSummaryView.handleGenerateDraft localeCompare workerGroups taskMap
    savedFinalReports selectedReportIds = Some data ->
  In d data ->
  In (Worker.id (AnnualSummaryData.worker d))
    (AnnualSummaryView.workerIdsWithActivity savedFinalReports selectedReportIds) /\
  AnnualSummaryView.summaryLine workerGroups taskMap savedFinalReports
    selectedReportIds (Worker.id (AnnualSummaryData.worker d)) = Some d.
Proof.
  unfold AnnualSummaryView.handleGenerateDraft.
  destruct selectedReportIds as [| r0 rest] eqn:Hsel; [discriminate |].
  rewrite <- Hsel. intros Heq Hin. injection Heq as <-.
  apply arraySort_In in Hin. unfold AnnualSummaryView.processedData in Hin.
  apply List.filter_In in Hin. destruct Hin as [Hin _].
  apply In_omap in Hin. destruct Hin as (id & Hid & Hline).
  destruct (summaryLine_worker _ _ _ _ _ _ Hline) as [Hw _].
  rewrite Hw. split; assumption.
Qed.

(** C7.  What a line of the annual rollup is derived from.  Every line of the
    draft is derived once.  Its operational total is one sum that runs
    through the logs of the selected reports (in exact arithmetic, the sum of
    the totals of the periods), and anciennete, totalBrut and retenu follow
    from it; for the two reports with operational totals 500 and 300 the line
    is derived over 800.  Its days are the sum of every attendance entry of
    the worker in the list stored with each selected report, whatever the
    period of the entry, and indemnites and netPay follow from these days.  A
    report stores the whole attendance list of the component: for the two
    half-month reports of June, of 10 and 12 days, each storing both entries,
    the rollup has 44 days, indemnites of 880 and a net pay of 1700.688,
    where the two payrolls have 10 and 12 days, the two transfer orders pay
    712.93 and 547.758, and a line derived over 800 and 22 days would pay
    1260.688.  The rollup of the first report alone has 22 days already. *)
Theorem C7_rollup_sums_every_stored_attendance_entry :
  (forall (localeCompare : string -> string -> Z)
          (workerGroups : list (WorkerGroup.t float))
          (taskMap : gmap Z (Task.t float))
          (savedFinalReports : list (SavedFinalReport.t float))
          (selectedReportIds : list string)
          (data : list (AnnualSummaryData.t float)),
     AnnualSummaryView.handleGenerateDraft localeCompare workerGroups taskMap
       savedFinalReports selectedReportIds = Some data ->
     let selected :=
       List.filter
         (fun r => existsb (String.eqb (SavedFinalReport.id r)) selectedReportIds)
         savedFinalReports in
     Forall
       (fun d =>
          let workerId := Worker.id (AnnualSummaryData.worker d) in
          AnnualSummaryData.totalOperation d =
            fold_left
              (fun sum log =>
                 (sum + DailyLog.quantity log *
                        priceOr0 taskMap (DailyLog.taskId log))%float)
              (List.filter notIndemnity
                 (List.filter (fun l => (DailyLog.workerId l =? workerId)%Z)
                    (flat_map
                       (fun r => FinalReportData.logs (SavedFinalReport.data r))
                       selected)))
              0%float /\
          AnnualSummaryData.joursTravailles d =
            fold_left (fun sum wd => (sum + WorkedDays.days wd)%float)
              (List.filter (fun wd => (WorkedDays.workerId wd =? workerId)%Z)
                 (flat_map
                    (fun r =>
                       FinalReportData.allWorkedDays (SavedFinalReport.data r))
                    selected))
              0%float /\
          AnnualSummaryData.anciennete d =
            (AnnualSummaryData.totalOperation d *
             (Worker.seniorityPercentage (AnnualSummaryData.worker d) / 100))%float /\
          AnnualSummaryData.totalBrut d =
            (AnnualSummaryData.totalOperation d + AnnualSummaryData.anciennete d)%float /\
          AnnualSummaryData.retenu d =
            (AnnualSummaryData.totalBrut d * 0.0674)%float /\
          AnnualSummaryData.indemnites d =
            (AnnualSummaryData.joursTravailles d *
             (priceOr0 taskMap LAIT_TASK_ID + priceOr0 taskMap PANIER_TASK_ID))%float /\
          AnnualSummaryData.netPay d =
            (AnnualSummaryData.totalBrut d - AnnualSummaryData.retenu d +
             AnnualSummaryData.indemnites d)%float)
       data) /\
  (forall (taskMap : gmap Z (Task.t float))
          (logs1 logs2 : list (DailyLog.t float)) (workerId : Z),
     AnnualSummaryView.totalOperationOf taskMap (logs1 ++ logs2) workerId =
     fold_left
       (fun sum log =>
          (sum + DailyLog.quantity log * priceOr0 taskMap (DailyLog.taskId log))%float)
       (List.filter notIndemnity
          (List.filter (fun l => (DailyLog.workerId l =? workerId)%Z) logs2))
       (AnnualSummaryView.totalOperationOf taskMap logs1 workerId)) /\
  (forall (taskMap : gmap Z (Task.t Qc)) (logs1 logs2 : list (DailyLog.t Qc))
          (workerId : Z),
     AnnualSummaryView.totalOperationOf taskMap (logs1 ++ logs2) workerId =
     (AnnualSummaryView.totalOperationOf taskMap logs1 workerId +
      AnnualSummaryView.totalOperationOf taskMap logs2 workerId)%Qc) /\
  ( AnnualSummaryView.totalOperationOf scenarioTaskMap
      (FinalReportData.logs (SavedFinalReport.data firstHalfReport)) 1 = 500%float /\
    AnnualSummaryView.totalOperationOf scenarioTaskMap
      (FinalReportData.logs (SavedFinalReport.data secondHalfReport)) 1 = 300%float /\
    AnnualSummaryView.handleGenerateDraft codeUnitCompare scenarioGroups
      scenarioTaskMap [firstHalfReport; secondHalfReport] ["r1"; "r2"]
    = Some [ AnnualSummaryData.mk scenarioWorker 800 80 880 (880 * 0.0674) 0 0
               820.688 "G" false ]%float /\
    periodNetPay firstHalfReport PFirst scenarioWorker = 512.93%float /\
    periodNetPay secondHalfReport PSecond scenarioWorker = 307.758%float /\
    (512.93 + 307.758)%float = 820.6879999999999%float ) /\
  ( List.map PayrollData.joursTravailles
      (FinalReportView.payrollData (SavedFinalReport.data juneFirstHalf)
         juneWorkedDays scenarioTaskMap 2025 6 PFirst) = [ 10%float ] /\
    List.map PayrollData.joursTravailles
      (FinalReportView.payrollData (SavedFinalReport.data juneSecondHalf)
         juneWorkedDays scenarioTaskMap 2025 6 PSecond) = [ 12%float ] /\
    List.map TransferOrderData.netPay
      (FinalReportView.transferOrderData (SavedFinalReport.data juneFirstHalf)
         juneWorkedDays scenarioTaskMap 2025 6 PFirst) = [ 712.93%float ] /\
    List.map TransferOrderData.netPay
      (FinalReportView.transferOrderData (SavedFinalReport.data juneSecondHalf)
         juneWorkedDays scenarioTaskMap 2025 6 PSecond) = [ 547.758%float ] /\
    AnnualSummaryView.handleGenerateDraft codeUnitCompare scenarioGroups
      scenarioTaskMap [juneFirstHalf; juneSecondHalf; julyFirstHalf]
      ["j1"; "j2"]
    = Some [ AnnualSummaryData.mk scenarioWorker 800 80 880 (880 * 0.0674) 44
               880 1700.688 "G" false ]%float /\
    (880 - 880 * 0.0674 + 22 * (8 + 12))%float = 1260.688%float /\
    AnnualSummaryView.handleGenerateDraft codeUnitCompare scenarioGroups
      scenarioTaskMap [juneFirstHalf; juneSecondHalf; julyFirstHalf] ["j1"]
    = Some [ AnnualSummaryData.mk scenarioWorker 500 50 550 37.07 22 440
               952.93 "G" false ]%float ).
Proof.
  split; [| split; [| split; [| split]]].
  - intros localeCompare workerGroups taskMap savedFinalReports
      selectedReportIds data Hdraft. cbv zeta.
    apply List.Forall_forall. intros d Hin.
    destruct (annual_draft_lines _ _ _ _ _ _ _ Hdraft Hin) as [_ Hline].
    destruct (summaryLine_equations _ _ _ _ _ _ Hline)
      as (Ht & Hj & Ha & Hb & Hr & Hi & Hn).
    repeat split; assumption.
  - intros. exact (totalOperationOf_app taskMap logs1 logs2 workerId).
  - intros. exact (totalOperationOf_app_exact taskMap logs1 logs2 workerId).
  - repeat split; vm_compute; reflexivity.
  - repeat split; vm_compute; reflexivity.
Qed.

(** ** C8: the order of the logs *)

(** A fold whose steps commute does not depend on the order of the list. *)
Lemma fold_left_commuting {A B : Type} (f : A -> B -> A) :
  (forall a x y, f (f a x) y = f (f a y) x) ->
  forall l l', Permutation l l' -> forall a, fold_left f l a = fold_left f l' a.
Proof.
  intros Hcomm l l' Hperm.
  induction Hperm as [| x l l' _ IH | x y l | l l' l'' _ IH1 _ IH2]; intros a; simpl.
  - reflexivity.
  - apply IH.
  - rewrite Hcomm. reflexivity.
  - rewrite IH1. apply IH2.
Qed.

Lemma List_filter_Permutation {A : Type} (keep : A -> bool) (l l' : list A) :
  Permutation l l' -> Permutation (List.filter keep l) (List.filter keep l').
Proof.
  induction 1 as [| x l l' _ IH | x y l | l l' l'' _ IH1 _ IH2]; simpl.
  - constructor.
  - destruct (keep x); [constructor |]; exact IH.
  - destruct (keep x), (keep y); try reflexivity. constructor.
  - etransitivity; eassumption.
Qed.

(** In exact arithmetic [x || 0] is [x]. *)
Lemma orZero_exact (x : Qc) : orZero x = x.
Proof.
  unfold orZero. simpl.
  destruct (Qc_eq_bool x 0%Qc) eqn:Hx; simpl; [| reflexivity].
  symmetry. apply Qc_eq_bool_correct. exact Hx.
Qed.

Lemma addQuantity_comm (t1 t2 : Z) (q1 q2 : Qc) (m : gmap Z Qc) :
  addQuantity t2 q2 (addQuantity t1 q1 m) = addQuantity t1 q1 (addQuantity t2 q2 m).
Proof.
  unfold addQuantity. rewrite !orZero_exact.
  destruct (decide (t1 = t2)) as [-> | Hne].
  - rewrite !lookup_insert_eq, !insert_insert_eq. simpl. f_equal.
    change (@nadd Qc _) with Qcplus. ring.
  - rewrite (lookup_insert_ne _ t1 t2) by exact Hne.
    rewrite (lookup_insert_ne _ t2 t1) by (intros Heq; apply Hne; symmetry; exact Heq).
    apply insert_insert_ne. intros Heq. apply Hne. symmetry. exact Heq.
Qed.

Lemma dataMap_permutation (logs logs' : list (DailyLog.t Qc)) :
  Permutation logs logs' ->
  FinalReportView.dataMap logs = FinalReportView.dataMap logs'.
Proof.
  intros Hperm. unfold FinalReportView.dataMap.
  apply fold_left_commuting; [| exact Hperm].
  intros dm l1 l2.
  destruct (decide (DailyLog.workerId l1 = DailyLog.workerId l2)) as [Heq | Hne].
  - rewrite Heq, !lookup_insert_eq, !insert_insert_eq. simpl.
    f_equal. apply addQuantity_comm.
  - rewrite (lookup_insert_ne _ _ _ _ Hne).
    rewrite (lookup_insert_ne _ (DailyLog.workerId l2) (DailyLog.workerId l1))
      by (intros Heq; apply Hne; symmetry; exact Heq).
    apply insert_insert_ne. intros Heq. apply Hne. symmetry. exact Heq.
Qed.

Lemma columnTotals_permutation (logs logs' : list (DailyLog.t Qc)) :
  Permutation logs logs' ->
  FinalReportView.columnTotals logs = FinalReportView.columnTotals logs'.
Proof.
  intros Hperm. unfold FinalReportView.columnTotals.
  apply fold_left_commuting; [| exact Hperm].
  intros totals l1 l2. apply addQuantity_comm.
Qed.

Lemma addLog_comm (workerGroups : list (WorkerGroup.t Qc))
    (data : gmap Z (SeasonRow.t Qc)) (l1 l2 : DailyLog.t Qc) :
  SeasonView.addLog workerGroups (SeasonView.addLog workerGroups data l1) l2 =
  SeasonView.addLog workerGroups (SeasonView.addLog workerGroups data l2) l1.
Proof.
  unfold SeasonView.addLog.
  destruct (decide (DailyLog.workerId l1 = DailyLog.workerId l2)) as [Heq | Hne].
  - rewrite <- Heq.
    destruct (data !! DailyLog.workerId l1) as [row |] eqn:Hrow.
    + destruct (bool_decide (DailyLog.owner l1 = _)),
               (bool_decide (DailyLog.owner l2 = _));
        rewrite ?lookup_insert_eq, ?Hrow; try reflexivity.
      rewrite !insert_insert_eq. simpl. f_equal. f_equal. apply addQuantity_comm.
    + rewrite Hrow. reflexivity.
  - assert (Hne' : DailyLog.workerId l2 <> DailyLog.workerId l1)
      by (intros Heq; apply Hne; symmetry; exact Heq).
    destruct (data !! DailyLog.workerId l1) as [row1 |] eqn:Hrow1;
      destruct (data !! DailyLog.workerId l2) as [row2 |] eqn:Hrow2;
      destruct (bool_decide (DailyLog.owner l1 = _)),
               (bool_decide (DailyLog.owner l2 = _));
      rewrite ?(lookup_insert_ne _ _ _ _ Hne), ?(lookup_insert_ne _ _ _ _ Hne'),
        ?Hrow1, ?Hrow2; try reflexivity.
    apply insert_insert_ne. exact Hne'.
Qed.

Lemma addWorkedDays_comm (workerGroups : list (WorkerGroup.t Qc))
    (data : gmap Z (SeasonRow.t Qc)) (d1 d2 : WorkedDays.t Qc) :
  SeasonView.addWorkedDays workerGroups
    (SeasonView.addWorkedDays workerGroups data d1) d2 =
  SeasonView.addWorkedDays workerGroups
    (SeasonView.addWorkedDays workerGroups data d2) d1.
Proof.
  unfold SeasonView.addWorkedDays.
  destruct (decide (WorkedDays.workerId d1 = WorkedDays.workerId d2)) as [Heq | Hne].
  - rewrite <- Heq.
    destruct (data !! WorkedDays.workerId d1) as [row |] eqn:Hrow.
    + destruct (bool_decide (WorkedDays.owner d1 = _)),
               (bool_decide (WorkedDays.owner d2 = _));
        rewrite ?lookup_insert_eq, ?Hrow; try reflexivity.
      rewrite !insert_insert_eq. simpl. f_equal. f_equal.
      change (@nadd Qc _) with Qcplus. ring.
    + rewrite Hrow. reflexivity.
  - assert (Hne' : WorkedDays.workerId d2 <> WorkedDays.workerId d1)
      by (intros Heq; apply Hne; symmetry; exact Heq).
    destruct (data !! WorkedDays.workerId d1) as [row1 |] eqn:Hrow1;
      destruct (data !! WorkedDays.workerId d2) as [row2 |] eqn:Hrow2;
      destruct (bool_decide (WorkedDays.owner d1 = _)),
               (bool_decide (WorkedDays.owner d2 = _));
      rewrite ?(lookup_insert_ne _ _ _ _ Hne), ?(lookup_insert_ne _ _ _ _ Hne'),
        ?Hrow1, ?Hrow2; try reflexivity.
    apply insert_insert_ne. exact Hne'.
Qed.

Lemma seasonData_permutation (workerGroups : list (WorkerGroup.t Qc))
    (allLogs allLogs' : list (DailyLog.t Qc))
    (workedDays workedDays' : list (WorkedDays.t Qc)) (startYear endYear : Z) :
  Permutation allLogs allLogs' -> Permutation workedDays workedDays' ->
  SeasonView.seasonData workerGroups allLogs workedDays startYear endYear =
  SeasonView.seasonData workerGroups allLogs' workedDays' startYear endYear.
Proof.
  intros Hlogs Hdays. unfold SeasonView.seasonData.
  rewrite (fold_left_commuting _ (addLog_comm workerGroups)
             (SeasonView.logsForSeason allLogs startYear endYear)
             (SeasonView.logsForSeason allLogs' startYear endYear))
    by (apply List_filter_Permutation; exact Hlogs).
  apply fold_left_commuting; [apply addWorkedDays_comm |].
  apply List_filter_Permutation. exact Hdays.
Qed.

(** [find] does not depend on the order when at most one element is found. *)
Lemma find_permutation {A : Type} (p : A -> bool) (l l' : list A) :
  Permutation l l' ->
  (forall x y, In x l -> In y l -> p x = true -> p y = true -> x = y) ->
  List.find p l = List.find p l'.
Proof.
  induction 1 as [| x l l' Hperm IH | x y l | l l' l'' Hperm1 IH1 Hperm2 IH2];
    intros Hone; simpl.
  - reflexivity.
  - destruct (p x); [reflexivity |].
    apply IH. intros a b Ha Hb. apply Hone; right; assumption.
  - destruct (p x) eqn:Hx, (p y) eqn:Hy; try reflexivity.
    f_equal. apply Hone; simpl; auto.
  - rewrite IH1 by exact Hone. apply IH2.
    intros a b Ha Hb. apply Hone; eapply Permutation_in; try eassumption;
      symmetry; exact Hperm1.
Qed.

Lemma Period_eqb_eq (p q : Period) : Period_eqb p q = true -> p = q.
Proof. destruct p, q; simpl; intros Heq; try reflexivity; discriminate Heq. Qed.

Lemma getDaysWorkedForWorker_permutation {N : Type} `{JsNumber N}
    (workedDays workedDays' : list (WorkedDays.t N)) (year month : Z)
    (period : Period) (workerId : Z) :
  Permutation workedDays workedDays' ->
  oneEntryPerPeriod workedDays ->
  FinalReportView.getDaysWorkedForWorker workedDays year month period workerId =
  FinalReportView.getDaysWorkedForWorker workedDays' year month period workerId.
Proof.
  intros Hperm Hone. unfold FinalReportView.getDaysWorkedForWorker.
  rewrite (find_permutation _ workedDays workedDays' Hperm); [reflexivity |].
  intros d1 d2 Hd1 Hd2 Hp1 Hp2.
  apply andb_prop in Hp1. destruct Hp1 as [Hp1 Hper1].
  apply andb_prop in Hp1. destruct Hp1 as [Hp1 Hm1].
  apply andb_prop in Hp1. destruct Hp1 as [Hw1 Hy1].
  apply andb_prop in Hp2. destruct Hp2 as [Hp2 Hper2].
  apply andb_prop in Hp2. destruct Hp2 as [Hp2 Hm2].
  apply andb_prop in Hp2. destruct Hp2 as [Hw2 Hy2].
  apply Z.eqb_eq in Hw1, Hy1, Hm1, Hw2, Hy2, Hm2.
  apply Period_eqb_eq in Hper1, Hper2.
  apply Hone; try assumption; congruence.
Qed.

(** In any arithmetic, the quantity of a worker and a task is the sum of the
    logs of that worker and task, in the order of the list. *)
Lemma addQuantity_fold_lookup {N : Type} `{JsNumber N} (taskId : Z)
    (logs : list (DailyLog.t N)) :
  forall m : gmap Z N,
    fold_left (fun m l => addQuantity (DailyLog.taskId l) (DailyLog.quantity l) m)
      logs m !! taskId =
    match List.filter (fun l => (DailyLog.taskId l =? taskId)%Z) logs with
    | [] => m !! taskId
    | same =>
        Some (fold_left (fun sum l => (orZero sum + DailyLog.quantity l)%js)
                same (default nzero (m !! taskId)))
    end.
Proof.
  induction logs as [| x logs IH]; intros m; [reflexivity |].
  cbn [fold_left List.filter]. rewrite IH. unfold addQuantity.
  destruct (Z.eqb_spec (DailyLog.taskId x) taskId) as [-> | Hne].
  - rewrite !lookup_insert_eq.
    destruct (List.filter _ logs); reflexivity.
  - rewrite !lookup_insert_ne by exact Hne. reflexivity.
Qed.

Lemma dataMap_fold_lookup {N : Type} `{JsNumber N} (workerId : Z)
    (logs : list (DailyLog.t N)) :
  forall dm : gmap Z (gmap Z N),
    fold_left
      (fun dataMap log =>
         let workerMap := default ∅ (dataMap !! DailyLog.workerId log) in
         <[ DailyLog.workerId log :=
              addQuantity (DailyLog.taskId log) (DailyLog.quantity log) workerMap ]>
           dataMap)
      logs dm !! workerId =
    match List.filter (fun l => (DailyLog.workerId l =? workerId)%Z) logs with
    | [] => dm !! workerId
    | same =>
        Some (fold_left
                (fun m l => addQuantity (DailyLog.taskId l) (DailyLog.quantity l) m)
                same (default ∅ (dm !! workerId)))
    end.
Proof.
  induction logs as [| x logs IH]; intros dm; [reflexivity |].
  cbn [fold_left List.filter]. rewrite IH. cbv zeta.
  destruct (Z.eqb_spec (DailyLog.workerId x) workerId) as [-> | Hne].
  - rewrite !lookup_insert_eq.
    destruct (List.filter _ logs); reflexivity.
  - rewrite !lookup_insert_ne by exact Hne. reflexivity.
Qed.

Lemma filter_filter_andb {A : Type} (f g : A -> bool) (l : list A) :
  List.filter g (List.filter f l) = List.filter (fun x => f x && g x) l.
Proof.
  induction l as [| x l IH]; simpl; [reflexivity |].
  destruct (f x); simpl; [destruct (g x) |]; rewrite IH; reflexivity.
Qed.

Lemma quantityOf_in_order {N : Type} `{JsNumber N} (logs : list (DailyLog.t N))
    (workerId taskId : Z) :
  quantityOf logs workerId taskId =
  match logsOf workerId taskId logs with
  | [] => None
  | same =>
      Some (fold_left (fun sum l => (orZero sum + DailyLog.quantity l)%js)
              same nzero)
  end.
Proof.
  unfold quantityOf, FinalReportView.dataMap, logsOf.
  rewrite dataMap_fold_lookup, <- filter_filter_andb.
  destruct (List.filter (fun l => (DailyLog.workerId l =? workerId)%Z) logs)
    as [| x same]; [reflexivity |].
  cbn [mbind option_bind]. rewrite addQuantity_fold_lookup. reflexivity.
Qed.

(** C8, as stated, fails in the arithmetic of the program: the quantities
    12.1, 7.3 and 0.2 logged for one worker and one task add up to
    19.599999999999998, and to 19.6 when the same logs come
    in the reverse order, in the bi-monthly report as in the season
    summary. *)
Lemma C8_totals_depend_on_log_order :
  Permutation orderedLogs reorderedLogs /\
  FinalReportView.dataMap orderedLogs !! 1%Z
    = Some {[ 5%Z := 19.599999999999998%float ]} /\
  FinalReportView.dataMap reorderedLogs !! 1%Z
    = Some {[ 5%Z := 19.6%float ]} /\
  SeasonRow.tasks <$>
    SeasonView.seasonData scenarioGroups orderedLogs [] 2025 2026 !! 1%Z
    = Some {[ 5%Z := 19.599999999999998%float ]} /\
  SeasonRow.tasks <$>
    SeasonView.seasonData scenarioGroups reorderedLogs [] 2025 2026 !! 1%Z
    = Some {[ 5%Z := 19.6%float ]} /\
  (19.599999999999998 =? 19.6)%float = false.
Proof.
  split; [apply Permutation_rev |].
  repeat split; vm_compute; reflexivity.
Qed.

(** C8, amended. In exact arithmetic the aggregation does not depend on the
    order of its input: permuted logs give the same quantity per worker and
    task and the same column totals in the bi-monthly report, and permuted
    logs and attendance entries give the same season summary, task totals
    and days worked.  In binary64 the quantities of a worker and a task are
    added in the order of the logs: two lists that hold, for every worker
    and task, the same logs in the same order give the same quantities.  The
    days worked of the bi-monthly report are those of the first matching
    attendance entry: they do not depend on the order when there is at most
    one entry per worker, year, month and period. *)
Theorem C8_aggregation_order_independent_exactly :
  (forall logs logs' : list (DailyLog.t Qc),
     Permutation logs logs' ->
     FinalReportView.dataMap logs = FinalReportView.dataMap logs' /\
     FinalReportView.columnTotals logs = FinalReportView.columnTotals logs') /\
  (forall (workerGroups : list (WorkerGroup.t Qc))
          (allLogs allLogs' : list (DailyLog.t Qc))
          (workedDays workedDays' : list (WorkedDays.t Qc))
          (startYear endYear : Z),
     Permutation allLogs allLogs' -> Permutation workedDays workedDays' ->
     SeasonView.seasonData workerGroups allLogs workedDays startYear endYear =
     SeasonView.seasonData workerGroups allLogs' workedDays' startYear endYear) /\
  (forall logs logs' : list (DailyLog.t float),
     (forall workerId taskId,
        logsOf workerId taskId logs = logsOf workerId taskId logs') ->
     forall workerId taskId,
       quantityOf logs workerId taskId = quantityOf logs' workerId taskId) /\
  (forall (workedDays workedDays' : list (WorkedDays.t float))
          (year month : Z) (period : Period) (workerId : Z),
     Permutation workedDays workedDays' ->
     oneEntryPerPeriod workedDays ->
     FinalReportView.getDaysWorkedForWorker workedDays year month period workerId =
     FinalReportView.getDaysWorkedForWorker workedDays' year month period workerId).
Proof.
  split; [| split; [| split]].
  - intros logs logs' Hperm. split.
    + apply dataMap_permutation. exact Hperm.
    + apply columnTotals_permutation. exact Hperm.
  - intros. apply seasonData_permutation; assumption.
  - intros logs logs' Hsame workerId taskId.
    rewrite !quantityOf_in_order, Hsame. reflexivity.
  - intros. apply getDaysWorkedForWorker_permutation; assumption.
Qed.

Lemma C8_aggregation_order_independent_exactly_witness :
  Permutation exactLogs (rev exactLogs) /\
  FinalReportView.dataMap exactLogs = FinalReportView.dataMap (rev exactLogs) /\
  this <$> quantityOf exactLogs 1 5 = Some (98 # 5).
Proof.
  assert (Hperm : Permutation exactLogs (rev exactLogs)) by apply Permutation_rev.
  split; [exact Hperm |].
  split; [| vm_compute; reflexivity].
  exact (proj1 (proj1 C8_aggregation_order_independent_exactly
                  exactLogs (rev exactLogs) Hperm)).
Defined.

(** ** C9: the pipeline is total *)


(** The equations of a line of the detailed payroll, for any number type. *)
Lemma reportLine_equations {N : Type} `{JsNumber N} (parseFloat : string -> N)
    (workerGroups : list (WorkerGroup.t N)) (allLogs : list (DailyLog.t N))
    (workedDays : list (WorkedDays.t N)) (taskMap : gmap Z (Task.t N))
    (year month : Z) (period : Period) (inputs : gmap Z DetailedInputs.t)
    (workerId : Z) (d : DetailedPayrollData.t N) :
  DetailedPayrollView.reportLine parseFloat workerGroups allLogs workedDays
    taskMap year month period inputs workerId = Some d ->
  DetailedPayrollData.anciennete d =
    (DetailedPayrollData.montant d *
     (Worker.seniorityPercentage (DetailedPayrollData.worker d) / ndec 100 0))%js /\
  DetailedPayrollData.total d =
    (DetailedPayrollData.montant d + DetailedPayrollData.anciennete d)%js /\
  DetailedPayrollData.netAPayer d =
    (DetailedPayrollData.total d + DetailedPayrollData.indemLait d +
     DetailedPayrollData.primePanier d - DetailedPayrollData.retCnss d -
     DetailedPayrollData.retAmo d - DetailedPayrollData.avanceAid d -
     DetailedPayrollData.ir d)%js /\
  DetailedPayrollData.avanceAid d =
    orZero (parseFloat (orString0 (DetailedInputs.avanceAid <$> inputs !! workerId))) /\
  DetailedPayrollData.ir d =
    orZero (parseFloat (orString0 (DetailedInputs.ir <$> inputs !! workerId))).
Proof.
  unfold DetailedPayrollView.reportLine.
  destruct (List.find _ _) as [w |]; [| discriminate].
  intros [= <-]. simpl. tauto.
Qed.




(** ** C10: adjustment strings *)

(** [x || 0] is never NaN, and is 0 when [x] is NaN. *)
Lemma orZero_not_nan (x : float) : is_nan (orZero x) = false.
Proof.
  unfold orZero. simpl.
  destruct (x =? 0)%float; simpl; [reflexivity |].
  destruct (is_nan x) eqn:Hnan; simpl; [reflexivity | exact Hnan].
Qed.

Lemma orZero_nan (x : float) : is_nan x = true -> orZero x = 0%float.
Proof.
  intros Hnan. unfold orZero. simpl. rewrite Hnan, orb_true_r. reflexivity.
Qed.

Lemma amountOf_spec (value : option string) :
  is_nan (amountOf value) = false /\
  (value = None -> amountOf value = 0%float) /\
  (value = Some "" -> amountOf value = 0%float) /\
  (forall s, value = Some s -> is_nan (js_parseFloat s) = true ->
     amountOf value = 0%float).
Proof.
  unfold amountOf. split; [apply orZero_not_nan |].
  split; [intros ->; reflexivity |].
  split; [intros ->; reflexivity |].
  intros s -> Hnan. destruct s as [| c s]; [reflexivity |].
  apply orZero_nan. exact Hnan.
Qed.

(** The holiday pay [adjustLine] reads from the inputs. *)
Lemma adjustLine_jourFerier (draftAdjustments : gmap Z PayrollInputs.t)
    (d : PayrollData.t float) :
  let value :=
    PayrollInputs.jourFerier <$>
      draftAdjustments !! Worker.id (PayrollData.worker d) in
  let d' := PayrollView.adjustLine js_parseFloat draftAdjustments d in
  is_nan (PayrollData.jourFerier d') = false /\
  (value = None -> PayrollData.jourFerier d' = 0%float) /\
  (value = Some "" -> PayrollData.jourFerier d' = 0%float) /\
  (forall s, value = Some s -> is_nan (js_parseFloat s) = true ->
     PayrollData.jourFerier d' = 0%float).
Proof.
  cbv zeta. unfold PayrollView.adjustLine.
  cbn [PayrollData.jourFerier].
  destruct (PayrollInputs.jourFerier <$> _) as [[| c s] |].
  - repeat split; reflexivity || discriminate.
  - change (@nisNaN float _) with is_nan. change (@nzero float _) with 0%float.
    destruct (is_nan (js_parseFloat (String c s))) eqn:Hnan.
    + repeat split; try reflexivity; discriminate.
    + split; [exact Hnan |]. split; [discriminate |]. split; [discriminate |].
      intros s' [= <-] Hnan'. rewrite Hnan in Hnan'. discriminate Hnan'.
  - repeat split; reflexivity || discriminate.
Qed.

(** C10, as stated, fails for the figures derived from the adjustments: the
    holiday pay "1e999" (as "Infinity") is a number for [parseFloat], the
    infinite double; the payroll of the scenario saved with it has an
    infinite totalBrut and retenu, and its net pay, their difference, is
    NaN.  In the detailed payroll an advance of "Infinity" and an income
    tax of "-Infinity" give a net pay of NaN. *)
Lemma C10_infinite_adjustment_gives_NaN :
  js_parseFloat "1e999" = infinity /\
  (let report :=
     PayrollView.handleSaveAdjustments js_parseFloat scenarioPayroll
       {[ 1%Z := PayrollInputs.mk "" "1e999" ]} in
   List.map
     (fun d => (PayrollData.totalBrut d, PayrollData.retenu d,
                PayrollView.netAPayer js_parseFloat scenarioTaskMap report d))
     (SavedPayroll.data report)
   = [ (infinity, infinity, nan) ]) /\
  List.map DetailedPayrollData.netAPayer
    (DetailedPayrollView.generateReportData js_parseFloat scenarioGroups
       scenarioLogs scenarioWorkedDays scenarioTaskMap [1%Z] 2025 6 PFirst
       {[ 1%Z := DetailedInputs.mk "Infinity" "-Infinity" ]})
  = [ nan ].
Proof. repeat split; vm_compute; reflexivity. Qed.

(** C10, amended. Every amount read from an adjustment string, the advance
    and the holiday pay of the payroll, the advance and the income tax of
    the detailed payroll, is a number and never NaN, and it is exactly 0
    when the string is missing, empty, or has no number for [parseFloat] to
    read: the payroll of the scenario saved with the holiday pay "abc" has
    the figures it had, totalBrut 550, retenu 37.07 and net pay 712.93. *)
Theorem C10_adjustment_amounts_are_never_NaN :
  (forall (report : SavedPayroll.t float) (d : PayrollData.t float),
     let value :=
       PayrollInputs.avance <$>
         SavedPayroll.additionalInputs report !! Worker.id (PayrollData.worker d) in
     let avance := PayrollView.avance js_parseFloat report d in
     is_nan avance = false /\
     (value = None -> avance = 0%float) /\
     (value = Some "" -> avance = 0%float) /\
     (forall s, value = Some s -> is_nan (js_parseFloat s) = true ->
        avance = 0%float)) /\
  (forall (draftAdjustments : gmap Z PayrollInputs.t) (d : PayrollData.t float),
     let value :=
       PayrollInputs.jourFerier <$>
         draftAdjustments !! Worker.id (PayrollData.worker d) in
     let d' := PayrollView.adjustLine js_parseFloat draftAdjustments d in
     is_nan (PayrollData.jourFerier d') = false /\
     (value = None -> PayrollData.jourFerier d' = 0%float) /\
     (value = Some "" -> PayrollData.jourFerier d' = 0%float) /\
     (forall s, value = Some s -> is_nan (js_parseFloat s) = true ->
        PayrollData.jourFerier d' = 0%float)) /\
  (forall (workerGroups : list (WorkerGroup.t float))
          (allLogs : list (DailyLog.t float))
          (workedDays : list (WorkedDays.t float))
          (taskMap : gmap Z (Task.t float)) (year month : Z) (period : Period)
          (inputs : gmap Z DetailedInputs.t) (workerId : Z)
          (d : DetailedPayrollData.t float),
     DetailedPayrollView.reportLine js_parseFloat workerGroups allLogs
       workedDays taskMap year month period inputs workerId = Some d ->
     let avanceAid := DetailedInputs.avanceAid <$> inputs !! workerId in
     let ir := DetailedInputs.ir <$> inputs !! workerId in
     is_nan (DetailedPayrollData.avanceAid d) = false /\
     is_nan (DetailedPayrollData.ir d) = false /\
     (avanceAid = None -> DetailedPayrollData.avanceAid d = 0%float) /\
     (avanceAid = Some "" -> DetailedPayrollData.avanceAid d = 0%float) /\
     (forall s, avanceAid = Some s -> is_nan (js_parseFloat s) = true ->
        DetailedPayrollData.avanceAid d = 0%float) /\
     (ir = None -> DetailedPayrollData.ir d = 0%float) /\
     (ir = Some "" -> DetailedPayrollData.ir d = 0%float) /\
     (forall s, ir = Some s -> is_nan (js_parseFloat s) = true ->
        DetailedPayrollData.ir d = 0%float)) /\
  (let report :=
     PayrollView.handleSaveAdjustments js_parseFloat scenarioPayroll
       {[ 1%Z := PayrollInputs.mk "" "abc" ]} in
   List.map
     (fun d => (PayrollData.jourFerier d, PayrollData.totalBrut d,
                PayrollData.retenu d,
                PayrollView.netAPayer js_parseFloat scenarioTaskMap report d))
     (SavedPayroll.data report)
   = [ (0, 550, 37.07, 712.93)%float ]).
Proof.
  split; [| split; [| split; [| vm_compute; reflexivity]]].
  - intros report d. cbv zeta. unfold PayrollView.avance.
    exact (amountOf_spec _).
  - intros draftAdjustments d. exact (adjustLine_jourFerier draftAdjustments d).
  - intros * Hline. cbv zeta.
    destruct (reportLine_equations _ _ _ _ _ _ _ _ _ _ _ Hline)
      as (_ & _ & _ & -> & ->).
    destruct (amountOf_spec (DetailedInputs.avanceAid <$> inputs !! workerId))
      as (Ha1 & Ha2 & Ha3 & Ha4).
    destruct (amountOf_spec (DetailedInputs.ir <$> inputs !! workerId))
      as (Hi1 & Hi2 & Hi3 & Hi4).
    unfold amountOf in *. repeat split; assumption.
Qed.

Lemma C10_adjustment_amounts_are_never_NaN_witness :
  is_nan (js_parseFloat "abc") = true /\
  PayrollData.jourFerier
    (PayrollView.adjustLine js_parseFloat
       {[ 1%Z := PayrollInputs.mk "12.5" "abc" ]}
       (PayrollData.mk scenarioWorker [] 500 50 550 37.07 10 0)%float)
  = 0%float.
Proof.
  split; [reflexivity |].
  refine (proj2 (proj2 (proj2 (proj1 (proj2 C10_adjustment_amounts_are_never_NaN)
            {[ 1%Z := PayrollInputs.mk "12.5" "abc" ]}
            (PayrollData.mk scenarioWorker [] 500 50 550 37.07 10 0)%float)))
          "abc" _ _).
  - reflexivity.
  - reflexivity.
Defined.

(** * Further properties of the components *)

(** ** ISO dates compared as strings *)

Lemma digitChar_compare (a b : Z) :
  Ascii.compare (digitChar a) (digitChar b) = (a mod 10 ?= b mod 10)%Z.
Proof.
  unfold Ascii.compare, digitChar.
  assert (Hd : forall n : Z,
            N_of_ascii (ascii_of_nat (48 + Z.to_nat (n mod 10)))
            = Z.to_N (48 + n mod 10)).
  { intros n. pose proof (Z.mod_pos_bound n 10 eq_refl).
    unfold ascii_of_nat. rewrite N_ascii_embedding by lia. lia. }
  rewrite !Hd.
  pose proof (Z.mod_pos_bound a 10 eq_refl).
  pose proof (Z.mod_pos_bound b 10 eq_refl).
  rewrite Z2N.inj_compare by lia.
  destruct (Z.compare_spec (48 + a mod 10) (48 + b mod 10));
    symmetry;
    first [ apply Z.compare_eq_iff | apply Z.compare_lt_iff
          | apply Z.compare_gt_iff ];
    lia.
Qed.

(** Two ISO dates order as strings the way their years, months and days
    order. *)
Lemma isoDate_compare (y m d y' m' d' : Z) :
  (0 <= y <= 9999 -> 0 <= m <= 99 -> 0 <= d <= 99 ->
   0 <= y' <= 9999 -> 0 <= m' <= 99 -> 0 <= d' <= 99 ->
   String.compare (isoDate y m d) (isoDate y' m' d')
   = (y * 10000 + m * 100 + d ?= y' * 10000 + m' * 100 + d'))%Z.
Proof.
  intros Hy Hm Hd Hy' Hm' Hd'.
  unfold isoDate, pad2. cbv [String.append String.compare].
  rewrite !digitChar_compare.
  change (Ascii.compare "-" "-") with Eq.
  repeat match goal with
  | |- context [(?a mod 10 ?= ?b mod 10)%Z] =>
      destruct (Z.compare_spec (a mod 10) (b mod 10))
  end;
  symmetry;
  first [ apply Z.compare_eq_iff | apply Z.compare_lt_iff
        | apply Z.compare_gt_iff ];
  Z.to_euclidean_division_equations; lia.
Qed.

Lemma isoDate_leb (y m d y' m' d' : Z) :
  (0 <= y <= 9999 -> 0 <= m <= 99 -> 0 <= d <= 99 ->
   0 <= y' <= 9999 -> 0 <= m' <= 99 -> 0 <= d' <= 99 ->
   String.leb (isoDate y m d) (isoDate y' m' d')
   = (y * 10000 + m * 100 + d <=? y' * 10000 + m' * 100 + d'))%Z.
Proof.
  intros. unfold String.leb. rewrite isoDate_compare by assumption.
  unfold Z.leb. reflexivity.
Qed.

Lemma lastDayOfMonth_bounds (y m : Z) : (28 <= lastDayOfMonth y m <= 31)%Z.
Proof.
  unfold lastDayOfMonth.
  repeat match goal with
         | |- context [match ?x with _ => _ end] => destruct x
         end; lia.
Qed.

Lemma lastDayOfMonth_april (y : Z) : lastDayOfMonth y 4 = 30%Z.
Proof. reflexivity. Qed.

Lemma existsb_Zeqb_In (x : Z) (l : list Z) :
  existsb (Z.eqb x) l = true <-> In x l.
Proof.
  rewrite existsb_exists. split.
  - intros (y & Hin & Heq). apply Z.eqb_eq in Heq. subst. exact Hin.
  - intros Hin. exists x. split; [exact Hin | apply Z.eqb_refl].
Qed.

(** The logs of a draft, for a log that carries an ISO date. *)
Lemma draft_logs_of_iso_date {N : Type} `{JsNumber N}
    (allLogs : list (DailyLog.t N)) (workedDays : list (WorkedDays.t N))
    (workers : list (Worker.t N)) (year month : Z) (period : Period)
    (log : DailyLog.t N) (y m d : Z) :
  (100 <= year <= 9999)%Z -> (1 <= month <= 12)%Z ->
  (0 <= y <= 9999)%Z -> (1 <= m <= 12)%Z -> (1 <= d <= 31)%Z ->
  DailyLog.date log = isoDate y m d ->
  (In log (FinalReportData.logs
            (FinalReportView.handleGenerateDraft allLogs workedDays workers
               year month period))
   <->
   In log allLogs /\
   In (DailyLog.workerId log) (List.map Worker.id workers) /\
   y = year /\ m = month /\
   (startDateNum period <= d <= endDateNum year month period)%Z).
Proof.
  intros Hyear Hmonth Hy Hm Hd Hdate.
  unfold FinalReportView.handleGenerateDraft, FinalReportView.logsForReport.
  cbn [FinalReportData.logs].
  rewrite List.filter_In, !andb_true_iff, existsb_Zeqb_In, Hdate.
  pose proof (lastDayOfMonth_bounds year month) as Hlast.
  assert (Hs : (1 <= startDateNum period <= 16)%Z) by (destruct period; cbn; lia).
  assert (He : (15 <= endDateNum year month period <= 31)%Z)
    by (destruct period; cbn; lia).
  rewrite !isoDate_leb by lia.
  rewrite !Z.leb_le. split.
  - intros (Hin & (Hlo & Hhi) & Hw).
    split; [exact Hin |]. split; [exact Hw |]. lia.
  - intros (Hin & Hw & -> & -> & Hlo & Hhi).
    split; [exact Hin |]. split; [lia | exact Hw].
Qed.

(** X1.  [FinalReportView.handleGenerateDraft]: of the logs that carry an
    ISO date, the draft of a half-month takes exactly those of the selected
    workers dated in that year and month, from the 1st to the 15th for the
    first period and from the 16th to the last day of the month for the
    second. *)
Theorem X1_draft_takes_the_logs_of_its_half_month
    {N : Type} `{JsNumber N}
    (allLogs : list (DailyLog.t N)) (workedDays : list (WorkedDays.t N))
    (workers : list (Worker.t N)) (year month : Z) (period : Period)
    (log : DailyLog.t N) (y m d : Z) :
  (100 <= year <= 9999)%Z -> (1 <= month <= 12)%Z ->
  (0 <= y <= 9999)%Z -> (1 <= m <= 12)%Z -> (1 <= d <= 31)%Z ->
  DailyLog.date log = isoDate y m d ->
  (In log (FinalReportData.logs
            (FinalReportView.handleGenerateDraft allLogs workedDays workers
               year month period))
   <->
   In log allLogs /\
   In (DailyLog.workerId log) (List.map Worker.id workers) /\
   y = year /\ m = month /\
   (match period with PFirst => 1 | PSecond => 16 end <= d
    <= match period with
       | PFirst => 15
       | PSecond => lastDayOfMonth year month
       end)%Z).
Proof.
  intros. rewrite draft_logs_of_iso_date by eassumption.
  destruct period; reflexivity.
Qed.

Lemma X1_draft_takes_the_logs_of_its_half_month_witness :
  In (DailyLog.mk 1 5 100%float "2024-02-29" (Some "u1"))
    (FinalReportData.logs
       (FinalReportView.handleGenerateDraft
          [ DailyLog.mk 1 5 100%float "2024-02-29" (Some "u1") ] []
          [scenarioWorker] 2024 2 PSecond)).
Proof.
  apply (X1_draft_takes_the_logs_of_its_half_month
           [ DailyLog.mk 1 5 100%float "2024-02-29" (Some "u1") ] []
           [scenarioWorker] 2024 2 PSecond _ 2024 2 29);
    try lia; try reflexivity.
  split; [left; reflexivity |].
  split; [left; reflexivity |].
  split; [reflexivity |]. split; [reflexivity |].
  vm_compute. split; discriminate.
Defined.

(** X2.  [FinalReportView.handleGenerateDraft]: the two half-months split
    the month.  A log of a selected worker dated on a day of the month is in
    the draft of exactly one of the two periods: the first up to the 15th,
    the second from the 16th. *)
Theorem X2_half_months_split_the_month
    {N : Type} `{JsNumber N}
    (allLogs : list (DailyLog.t N)) (workedDays : list (WorkedDays.t N))
    (workers : list (Worker.t N)) (year month d : Z) (log : DailyLog.t N) :
  (100 <= year <= 9999)%Z -> (1 <= month <= 12)%Z ->
  (1 <= d <= lastDayOfMonth year month)%Z ->
  In log allLogs ->
  In (DailyLog.workerId log) (List.map Worker.id workers) ->
  DailyLog.date log = isoDate year month d ->
  let draft := FinalReportView.handleGenerateDraft allLogs workedDays workers
                 year month in
  (In log (FinalReportData.logs (draft PFirst)) <-> (d <= 15)%Z) /\
  (In log (FinalReportData.logs (draft PSecond)) <-> (16 <= d)%Z).
Proof.
  intros Hyear Hmonth Hd Hin Hw Hdate draft. subst draft.
  pose proof (lastDayOfMonth_bounds year month) as Hlast.
  rewrite !(draft_logs_of_iso_date allLogs workedDays workers year month _
              log year month d) by (assumption || lia).
  cbn [startDateNum endDateNum].
  split; split; try (intros; lia).
  - intros Hle. repeat (split; [assumption || reflexivity |]). lia.
  - intros Hle. repeat (split; [assumption || reflexivity |]). lia.
Qed.

Lemma X2_half_months_split_the_month_witness :
  In (DailyLog.mk 1 5 60%float "2025-06-10" (Some "u1"))
    (FinalReportData.logs
       (FinalReportView.handleGenerateDraft laterLogs [] [scenarioWorker]
          2025 6 PFirst)).
Proof.
  apply (proj1 (X2_half_months_split_the_month laterLogs [] [scenarioWorker]
                  2025 6 10 (DailyLog.mk 1 5 60%float "2025-06-10" (Some "u1"))
                  ltac:(lia) ltac:(lia) ltac:(vm_compute; split; discriminate)
                  ltac:(right; left; reflexivity) ltac:(left; reflexivity)
                  eq_refl)).
  lia.
Defined.

(** ** SeasonView: the window of the season *)

(** [Date.UTC] on the first of a month of the years 100 to 9999. *)
Lemma utcMonth_of_year (year monthIndex : Z) :
  (100 <= year <= 9999)%Z -> (0 <= monthIndex <= 11)%Z ->
  utcMonth year monthIndex = Some (year * 12 + monthIndex)%Z.
Proof.
  intros Hy Hm. unfold utcMonth.
  destruct (Z.leb_spec year 99) as [Hc | _]; [lia |].
  rewrite andb_false_r.
  destruct (Z.leb_spec (-271821 * 12 + 4) (year * 12 + monthIndex)) as [_ | Hc];
    [| lia].
  destruct (Z.leb_spec (year * 12 + monthIndex) (275760 * 12 + 8)) as [_ | Hc];
    [| lia].
  reflexivity.
Qed.

(** The logs of the season, for a log that carries an ISO date: the months
    from May of the first year to April of the second. *)
Lemma logsForSeason_of_iso_date {N : Type}
    (allLogs : list (DailyLog.t N)) (startYear endYear : Z)
    (log : DailyLog.t N) (y m d : Z) :
  (1000 <= startYear <= 9999)%Z -> (1000 <= endYear <= 9999)%Z ->
  (0 <= y <= 9999)%Z -> (1 <= m <= 12)%Z ->
  (1 <= d <= lastDayOfMonth y m)%Z ->
  DailyLog.date log = isoDate y m d ->
  (In log (SeasonView.logsForSeason allLogs startYear endYear)
   <->
   In log allLogs /\
   (startYear * 12 + 4 <= y * 12 + (m - 1) < endYear * 12 + 4)%Z).
Proof.
  intros Hs He Hy Hm Hd Hdate.
  unfold SeasonView.logsForSeason, SeasonView.startDate, SeasonView.endDate.
  rewrite List.filter_In, andb_true_iff, Hdate.
  pose proof (lastDayOfMonth_bounds y m) as Hlast.
  rewrite !isoDate_leb by lia.
  rewrite !Z.leb_le.
  assert (Hapril : m = 4%Z -> (d <= 30)%Z).
  { intros ->. rewrite lastDayOfMonth_april in Hd. lia. }
  split; intros (Hin & Hlo & Hhi); (split; [exact Hin | lia]).
Qed.

(** X3.  [SeasonView]: the season's two windows cover the same months.  The
    logs are kept by comparing ISO date strings, the attendance entries by
    comparing UTC dates; a log dated in the month of an attendance entry is
    in the season exactly when the entry is. *)
Theorem X3_season_windows_cover_the_same_months {N : Type}
    (allLogs : list (DailyLog.t N)) (workedDays : list (WorkedDays.t N))
    (startYear endYear : Z) (log : DailyLog.t N) (wd : WorkedDays.t N)
    (d : Z) :
  (1000 <= startYear <= 9999)%Z -> (1000 <= endYear <= 9999)%Z ->
  (100 <= WorkedDays.year wd <= 9999)%Z -> (1 <= WorkedDays.month wd <= 12)%Z ->
  (1 <= d <= lastDayOfMonth (WorkedDays.year wd) (WorkedDays.month wd))%Z ->
  DailyLog.date log = isoDate (WorkedDays.year wd) (WorkedDays.month wd) d ->
  In log allLogs -> In wd workedDays ->
  (In log (SeasonView.logsForSeason allLogs startYear endYear)
   <-> In wd (SeasonView.workedDaysForSeason workedDays startYear endYear)).
Proof.
  intros Hs He Hy Hm Hd Hdate Hlog Hwd.
  rewrite (logsForSeason_of_iso_date allLogs startYear endYear log
             (WorkedDays.year wd) (WorkedDays.month wd) d)
    by (assumption || lia).
  unfold SeasonView.workedDaysForSeason.
  rewrite List.filter_In. cbv beta.
  rewrite !utcMonth_of_year by lia.
  rewrite andb_true_iff, Z.leb_le, Z.ltb_lt.
  tauto.
Qed.

Lemma X3_season_windows_cover_the_same_months_witness :
  In (DailyLog.mk 1 5 100%float "2025-06-03" (Some "u1"))
    (SeasonView.logsForSeason scenarioLogs 2025 2026)
  <-> In (WorkedDays.mk 1 2025 6 PFirst 10%float (Some "u1"))
        (SeasonView.workedDaysForSeason scenarioWorkedDays 2025 2026).
Proof.
  apply (X3_season_windows_cover_the_same_months scenarioLogs
           scenarioWorkedDays 2025 2026
           (DailyLog.mk 1 5 100%float "2025-06-03" (Some "u1"))
           (WorkedDays.mk 1 2025 6 PFirst 10%float (Some "u1")) 3);
    try (cbn; lia); try reflexivity; try (left; reflexivity).
Defined.

(** X4.  [getCurrentSeason]: the season of a day contains that day.  For the
    year and the month (0 for January) of a date, the season runs over two
    consecutive years, and a log dated on that date is among the logs of the
    season. *)
Theorem X4_current_season_contains_today {N : Type}
    (allLogs : list (DailyLog.t N)) (currentYear currentMonth d : Z)
    (log : DailyLog.t N) :
  (1001 <= currentYear <= 9998)%Z -> (0 <= currentMonth <= 11)%Z ->
  (1 <= d <= lastDayOfMonth currentYear (currentMonth + 1))%Z ->
  DailyLog.date log = isoDate currentYear (currentMonth + 1) d ->
  In log allLogs ->
  let '(startYear, endYear) :=
    SeasonView.getCurrentSeason currentYear currentMonth in
  endYear = (startYear + 1)%Z /\
  In log (SeasonView.logsForSeason allLogs startYear endYear).
Proof.
  intros Hy Hm Hd Hdate Hin.
  unfold SeasonView.getCurrentSeason.
  destruct (4 <=? currentMonth)%Z eqn:Hmay.
  - apply Z.leb_le in Hmay. split; [reflexivity |].
    apply (logsForSeason_of_iso_date allLogs currentYear (currentYear + 1) log
             currentYear (currentMonth + 1) d); try assumption; try lia.
    split; [exact Hin | lia].
  - apply Z.leb_gt in Hmay. split; [lia |].
    apply (logsForSeason_of_iso_date allLogs (currentYear - 1) currentYear log
             currentYear (currentMonth + 1) d); try assumption; try lia.
    split; [exact Hin | lia].
Qed.

Lemma X4_current_season_contains_today_witness :
  In (DailyLog.mk 1 5 100%float "2025-04-30" (Some "u1"))
    (SeasonView.logsForSeason
       [ DailyLog.mk 1 5 100%float "2025-04-30" (Some "u1") ] 2024 2025).
Proof.
  apply (X4_current_season_contains_today
           [ DailyLog.mk 1 5 100%float "2025-04-30" (Some "u1") ] 2025 3 30
           (DailyLog.mk 1 5 100%float "2025-04-30" (Some "u1"))
           ltac:(lia) ltac:(lia) ltac:(vm_compute; split; discriminate)
           eq_refl ltac:(left; reflexivity)).
Defined.

(** ** SeasonView: the owner of record of a worker *)

Lemma set_owner_lookup {N : Type} (owner : string) (ws : list (Worker.t N))
    (m : gmap Z string) (w : Z) :
  fold_left (fun map worker => <[ Worker.id worker := owner ]> map) ws m !! w
  = if existsb (Z.eqb w) (List.map Worker.id ws) then Some owner else m !! w.
Proof.
  revert m. induction ws as [| x ws IH]; intros m;
    cbn [fold_left List.map existsb]; [reflexivity |].
  rewrite IH.
  destruct (existsb (Z.eqb w) (List.map Worker.id ws));
    [rewrite orb_true_r; reflexivity |].
  rewrite orb_false_r.
  destruct (Z.eqb_spec w (Worker.id x)) as [-> | Hne].
  - apply lookup_insert_eq.
  - apply lookup_insert_ne. congruence.
Qed.

Lemma workerOwnerMap_snoc {N : Type} (groups : list (WorkerGroup.t N))
    (g : WorkerGroup.t N) (w : Z) :
  SeasonView.workerOwnerMap (groups ++ [g]) !! w
  = match groupOwner g with
    | Some owner =>
        if existsb (Z.eqb w) (List.map Worker.id (WorkerGroup.workers g))
        then Some owner
        else SeasonView.workerOwnerMap groups !! w
    | None => SeasonView.workerOwnerMap groups !! w
    end.
Proof.
  unfold SeasonView.workerOwnerMap, groupOwner.
  rewrite fold_left_app. cbn [fold_left].
  destruct (WorkerGroup.owner g) as [[| c o] |]; try reflexivity.
  apply set_owner_lookup.
Qed.

Lemma workerOwnerMap_snoc_cases {N : Type} (groups : list (WorkerGroup.t N))
    (g : WorkerGroup.t N) (w : Z) :
  (exists owner,
     groupOwner g = Some owner /\ inGroup w g /\
     SeasonView.workerOwnerMap (groups ++ [g]) !! w = Some owner) \/
  ((groupOwner g = None \/ ~ inGroup w g) /\
   SeasonView.workerOwnerMap (groups ++ [g]) !! w
   = SeasonView.workerOwnerMap groups !! w).
Proof.
  rewrite workerOwnerMap_snoc. unfold inGroup.
  destruct (groupOwner g) as [o |]; [| right; split; [left |]; reflexivity].
  destruct (existsb (Z.eqb w) (List.map Worker.id (WorkerGroup.workers g)))
    eqn:Hin.
  - left. exists o. apply existsb_Zeqb_In in Hin. repeat split. exact Hin.
  - right. split; [| reflexivity]. right. intros Hc.
    apply existsb_Zeqb_In in Hc. congruence.
Qed.

Lemma workerOwnerMap_unowned {N : Type} (groups later : list (WorkerGroup.t N))
    (w : Z) :
  (forall g, In g later -> groupOwner g <> None -> ~ inGroup w g) ->
  SeasonView.workerOwnerMap (groups ++ later) !! w
  = SeasonView.workerOwnerMap groups !! w.
Proof.
  induction later as [| g later IH] using rev_ind; intros Hnone.
  - rewrite app_nil_r. reflexivity.
  - rewrite app_assoc.
    assert (Hrest : SeasonView.workerOwnerMap (groups ++ later) !! w
                    = SeasonView.workerOwnerMap groups !! w).
    { apply IH. intros g' Hin. apply Hnone. apply in_or_app. left. exact Hin. }
    destruct (workerOwnerMap_snoc_cases (groups ++ later) g w)
      as [(o & Ho & Hin & _) | (_ & ->)]; [| exact Hrest].
    exfalso. apply (Hnone g); [apply in_or_app; right; left; reflexivity
                              | rewrite Ho; discriminate | exact Hin].
Qed.

(** X5.  [workerOwnerMap]: the owner of record of a worker is the owner of
    the last group with an owner that has the worker; a worker that no group
    with an owner has, has no owner of record. *)
Theorem X5_owner_of_record_is_the_last_owning_group {N : Type}
    (workerGroups : list (WorkerGroup.t N)) (w : Z) :
  (forall before g after owner,
     workerGroups = before ++ g :: after ->
     groupOwner g = Some owner -> inGroup w g ->
     (forall g', In g' after -> groupOwner g' <> None -> ~ inGroup w g') ->
     SeasonView.workerOwnerMap workerGroups !! w = Some owner) /\
  (SeasonView.workerOwnerMap workerGroups !! w = None
   <-> forall g, In g workerGroups -> groupOwner g <> None -> ~ inGroup w g).
Proof.
  split.
  - intros before g after owner -> Ho Hin Hafter.
    change (before ++ g :: after) with (before ++ [g] ++ after).
    rewrite app_assoc, (workerOwnerMap_unowned _ after w Hafter).
    destruct (workerOwnerMap_snoc_cases before g w)
      as [(o & Ho' & _ & ->) | ([Hn | Hn] & _)].
    + congruence.
    + congruence.
    + contradiction.
  - induction workerGroups as [| g groups IH] using rev_ind.
    + split; [intros _ g [] | reflexivity].
    + destruct (workerOwnerMap_snoc_cases groups g w)
        as [(o & Ho & Hin & ->) | (Hn & ->)].
      * split; [discriminate |]. intros Hall. exfalso.
        apply (Hall g); [apply in_or_app; right; left; reflexivity
                        | rewrite Ho; discriminate | exact Hin].
      * rewrite IH. split.
        -- intros Hall g' Hin' Ho'.
           apply in_app_or in Hin'. destruct Hin' as [Hin' | [<- | []]].
           ++ apply Hall; assumption.
           ++ destruct Hn as [Hn | Hn]; [contradiction | exact Hn].
        -- intros Hall g' Hin'. apply Hall. apply in_or_app. left. exact Hin'.
Qed.

Lemma X5_owner_of_record_is_the_last_owning_group_witness :
  SeasonView.workerOwnerMap
    [ WorkerGroup.mk "G" (Some "u1") [scenarioWorker];
      WorkerGroup.mk "H" (Some "u2") [scenarioWorker];
      WorkerGroup.mk "Departed" None [scenarioWorker] ] !! 1%Z
  = Some "u2".
Proof.
  apply (proj1 (X5_owner_of_record_is_the_last_owning_group
                  [ WorkerGroup.mk "G" (Some "u1") [scenarioWorker];
                    WorkerGroup.mk "H" (Some "u2") [scenarioWorker];
                    WorkerGroup.mk "Departed" None [scenarioWorker] ] 1%Z)
           [ WorkerGroup.mk "G" (Some "u1") [scenarioWorker] ]
           (WorkerGroup.mk "H" (Some "u2") [scenarioWorker])
           [ WorkerGroup.mk "Departed" None [scenarioWorker] ] "u2").
  - reflexivity.
  - reflexivity.
  - left. reflexivity.
  - intros g' [<- | []] Ho. exfalso. apply Ho. reflexivity.
Defined.

(** ** Sorting and sets of ids *)

Lemma insertId_In (a x : Z) (l : list Z) :
  In x (insertId a l) <-> x = a \/ In x l.
Proof.
  induction l as [| u l IH]; cbn [insertId].
  - cbn. intuition.
  - destruct (a <? u)%Z; cbn [In]; [intuition |].
    rewrite IH. intuition.
Qed.

Lemma insertId_sorted (a : Z) (l : list Z) :
  StronglySorted Z.lt l -> ~ In a l -> StronglySorted Z.lt (insertId a l).
Proof.
  induction l as [| u l IH]; intros Hs Hn; cbn [insertId].
  - constructor; constructor.
  - apply StronglySorted_inv in Hs. destruct Hs as [Hs Hu].
    destruct (Z.ltb_spec a u) as [Hlt | Hge].
    + constructor; [constructor; assumption |].
      constructor; [exact Hlt |].
      rewrite List.Forall_forall in Hu |- *. intros x Hx.
      specialize (Hu x Hx). lia.
    + assert (Hne : a <> u) by (intros ->; apply Hn; left; reflexivity).
      constructor.
      * apply IH; [exact Hs |]. intros Hin. apply Hn. right. exact Hin.
      * rewrite List.Forall_forall in Hu |- *. intros x Hx.
        apply insertId_In in Hx. destruct Hx as [-> | Hx]; [lia | auto].
Qed.

Lemma sortIds_fold_In (l acc : list Z) (x : Z) :
  In x (fold_left (fun sorted id => insertId id sorted) l acc)
  <-> In x acc \/ In x l.
Proof.
  revert acc. induction l as [| a l IH]; intros acc; cbn [fold_left].
  - cbn. intuition.
  - rewrite IH, insertId_In. cbn [In]. intuition.
Qed.

Lemma sortIds_In (l : list Z) (x : Z) : In x (sortIds l) <-> In x l.
Proof. unfold sortIds. rewrite sortIds_fold_In. cbn. intuition. Qed.

Lemma sortIds_fold_sorted (l acc : list Z) :
  List.NoDup l -> StronglySorted Z.lt acc -> (forall x, In x l -> ~ In x acc) ->
  StronglySorted Z.lt (fold_left (fun sorted id => insertId id sorted) l acc).
Proof.
  revert acc. induction l as [| a l IH]; intros acc Hnd Hs Hdisj;
    cbn [fold_left]; [exact Hs |].
  apply List.NoDup_cons_iff in Hnd. destruct Hnd as [Ha Hnd].
  apply IH; [exact Hnd | |].
  - apply insertId_sorted; [exact Hs |]. apply Hdisj. left. reflexivity.
  - intros x Hx Hin. apply insertId_In in Hin. destruct Hin as [-> | Hin].
    + contradiction.
    + apply (Hdisj x); [right; exact Hx | exact Hin].
Qed.

Lemma sortIds_sorted (l : list Z) :
  List.NoDup l -> StronglySorted Z.lt (sortIds l).
Proof.
  intros Hnd. apply sortIds_fold_sorted; [exact Hnd | constructor |].
  intros x _ [].
Qed.

Lemma setOfIds_fold (ids seen : list Z) :
  List.NoDup seen ->
  List.NoDup (fold_left
           (fun seen id => if existsb (Z.eqb id) seen then seen else seen ++ [id])
           ids seen) /\
  forall x,
    In x (fold_left
            (fun seen id => if existsb (Z.eqb id) seen then seen else seen ++ [id])
            ids seen)
    <-> In x seen \/ In x ids.
Proof.
  revert seen. induction ids as [| a ids IH]; intros seen Hnd; cbn [fold_left].
  - split; [exact Hnd |]. cbn. intuition.
  - destruct (existsb (Z.eqb a) seen) eqn:Hin.
    + apply existsb_Zeqb_In in Hin.
      destruct (IH seen Hnd) as [Hnd' Hiff]. split; [exact Hnd' |].
      intros x. rewrite Hiff. cbn [In]. intuition (subst; auto).
    + assert (Hn : ~ In a seen).
      { intros Hc. apply existsb_Zeqb_In in Hc. congruence. }
      assert (Hnd2 : List.NoDup (seen ++ [a])).
      { apply List.NoDup_app; [exact Hnd | repeat constructor; intros [] |].
        intros x Hx [<- | []]. contradiction. }
      destruct (IH (seen ++ [a]) Hnd2) as [Hnd' Hiff]. split; [exact Hnd' |].
      intros x. rewrite Hiff, in_app_iff. cbn [In]. intuition.
Qed.

Lemma setOfIds_NoDup (ids : list Z) : List.NoDup (setOfIds ids).
Proof. apply setOfIds_fold. constructor. Qed.

Lemma setOfIds_In (ids : list Z) (x : Z) : In x (setOfIds ids) <-> In x ids.
Proof.
  unfold setOfIds. rewrite (proj2 (setOfIds_fold ids [] (List.NoDup_nil _))).
  cbn. intuition.
Qed.

(** ** FinalReportView: the columns of the bi-monthly table *)

Lemma columnTotals_is_Some {N : Type} `{JsNumber N}
    (logs : list (DailyLog.t N)) (t : Z) :
  is_Some (FinalReportView.columnTotals logs !! t)
  <-> exists log, In log logs /\ DailyLog.taskId log = t.
Proof.
  unfold FinalReportView.columnTotals.
  rewrite addQuantity_fold_lookup, lookup_empty.
  destruct (List.filter (fun l => (DailyLog.taskId l =? t)%Z) logs)
    as [| l0 rest] eqn:Hf.
  - split; [intros [x Hx]; discriminate |].
    intros (log & Hin & Ht).
    assert (Hc : In log (List.filter (fun l => (DailyLog.taskId l =? t)%Z) logs)).
    { apply List.filter_In. split; [exact Hin | apply Z.eqb_eq; exact Ht]. }
    rewrite Hf in Hc. destruct Hc.
  - split; [| intros _; eexists; reflexivity].
    intros _. exists l0.
    assert (Hc : In l0 (List.filter (fun l => (DailyLog.taskId l =? t)%Z) logs))
      by (rewrite Hf; left; reflexivity).
    apply List.filter_In in Hc. destruct Hc as [Hin Ht].
    split; [exact Hin | apply Z.eqb_eq; exact Ht].
Qed.

Lemma quantityOf_is_Some {N : Type} `{JsNumber N}
    (logs : list (DailyLog.t N)) (w t : Z) :
  is_Some (quantityOf logs w t)
  <-> exists log,
        In log logs /\ DailyLog.workerId log = w /\ DailyLog.taskId log = t.
Proof.
  unfold quantityOf, FinalReportView.dataMap.
  rewrite dataMap_fold_lookup, lookup_empty.
  destruct (List.filter (fun l => (DailyLog.workerId l =? w)%Z) logs)
    as [| l0 rest] eqn:Hf.
  - cbn. split; [intros [x Hx]; discriminate |].
    intros (log & Hin & Hw & Ht).
    assert (Hc : In log (List.filter (fun l => (DailyLog.workerId l =? w)%Z) logs)).
    { apply List.filter_In. split; [exact Hin | apply Z.eqb_eq; exact Hw]. }
    rewrite Hf in Hc. destruct Hc.
  - cbn [mbind option_bind default].
    rewrite addQuantity_fold_lookup, lookup_empty, <- Hf.
    destruct (List.filter (fun l => (DailyLog.taskId l =? t)%Z)
                (List.filter (fun l => (DailyLog.workerId l =? w)%Z) logs))
      as [| l1 rest1] eqn:Hg.
    + split; [intros [x Hx]; discriminate |].
      intros (log & Hin & Hw & Ht).
      assert (Hc : In log (List.filter (fun l => (DailyLog.taskId l =? t)%Z)
                             (List.filter (fun l => (DailyLog.workerId l =? w)%Z)
                                logs))).
      { apply List.filter_In. split; [| apply Z.eqb_eq; exact Ht].
        apply List.filter_In. split; [exact Hin | apply Z.eqb_eq; exact Hw]. }
      rewrite Hg in Hc. destruct Hc.
    + split; [| intros _; eexists; reflexivity].
      intros _. exists l1.
      assert (Hc : In l1 (List.filter (fun l => (DailyLog.taskId l =? t)%Z)
                            (List.filter (fun l => (DailyLog.workerId l =? w)%Z)
                               logs)))
        by (rewrite Hg; left; reflexivity).
      apply List.filter_In in Hc. destruct Hc as [Hc Ht].
      apply List.filter_In in Hc. destruct Hc as [Hin Hw].
      split; [exact Hin |]. split; apply Z.eqb_eq; assumption.
Qed.

(** X6.  [ReportContent] of the bi-monthly report: the columns of the table
    are the task ids of the logs, each once and in ascending order; every
    column has a column total and every total has its column; and every
    quantity of the table falls in a column. *)
Theorem X6_bimonthly_columns_are_the_logged_tasks {N : Type} `{JsNumber N}
    (logs : list (DailyLog.t N)) :
  StronglySorted Z.lt (FinalReportContent.headerTaskIds logs) /\
  (forall t,
     In t (FinalReportContent.headerTaskIds logs)
     <-> exists log, In log logs /\ DailyLog.taskId log = t) /\
  (forall t,
     In t (FinalReportContent.headerTaskIds logs)
     <-> is_Some (FinalReportView.columnTotals logs !! t)) /\
  (forall w t,
     is_Some (quantityOf logs w t) ->
     In t (FinalReportContent.headerTaskIds logs)).
Proof.
  assert (Hhdr : forall t,
            In t (FinalReportContent.headerTaskIds logs)
            <-> exists log, In log logs /\ DailyLog.taskId log = t).
  { intros t. unfold FinalReportContent.headerTaskIds.
    rewrite sortIds_In, setOfIds_In, List.in_map_iff.
    split; intros (log & H1 & H2); exists log; split; assumption. }
  split; [apply sortIds_sorted, setOfIds_NoDup |].
  split; [exact Hhdr |].
  split.
  - intros t. rewrite Hhdr, columnTotals_is_Some. reflexivity.
  - intros w t Hq. apply Hhdr. apply quantityOf_is_Some in Hq.
    destruct Hq as (log & Hin & _ & Ht). exists log. split; assumption.
Qed.

Lemma X6_bimonthly_columns_are_the_logged_tasks_witness :
  In 5%Z (FinalReportContent.headerTaskIds scenarioLogs) /\
  FinalReportContent.headerTaskIds debtLogs = [5; 8; 99]%Z.
Proof.
  split; [| vm_compute; reflexivity].
  apply (proj2 (proj2 (proj2 (X6_bimonthly_columns_are_the_logged_tasks
                                scenarioLogs))) 1%Z 5%Z).
  vm_compute. eexists. reflexivity.
Defined.

(** ** FinalReportView: the tasks of a payroll line *)

Section TasksSummary.
Context {N : Type} `{JsNumber N}.
Variable taskMap : gmap Z (Task.t N).

Lemma entryOf_add (k taskId : Z) (quantity price : N) (m : list (Z * (N * N))) :
  entryOf k (FinalReportView.tasksSummary_add taskId quantity price m)
  = if (k =? taskId)%Z
    then Some (match entryOf taskId m with
               | Some (q, p) => ((q + quantity)%js, p)
               | None => ((nzero + quantity)%js, price)
               end)
    else entryOf k m.
Proof.
  unfold entryOf.
  induction m as [| [k' [q p]] m IH]; cbn [FinalReportView.tasksSummary_add].
  - cbn [List.find fst]. rewrite (Z.eqb_sym taskId k).
    destruct (k =? taskId)%Z; reflexivity.
  - destruct (Z.eqb_spec k' taskId) as [-> | Hne].
    + cbn [List.find fst]. rewrite Z.eqb_refl, (Z.eqb_sym taskId k).
      destruct (k =? taskId)%Z; reflexivity.
    + cbn [List.find fst].
      destruct (Z.eqb_spec k' k) as [-> | Hne'].
      * destruct (Z.eqb_spec k taskId); [contradiction | reflexivity].
      * rewrite IH.
        destruct (Z.eqb_spec k' taskId) as [| _]; [contradiction |].
        reflexivity.
Qed.

Lemma keys_add (taskId : Z) (quantity price : N) (m : list (Z * (N * N))) :
  List.map fst (FinalReportView.tasksSummary_add taskId quantity price m)
  = if existsb (Z.eqb taskId) (List.map fst m)
    then List.map fst m
    else List.map fst m ++ [taskId].
Proof.
  induction m as [| [k' [q p]] m IH];
    cbn [FinalReportView.tasksSummary_add List.map existsb fst]; [reflexivity |].
  rewrite (Z.eqb_sym taskId k').
  destruct (k' =? taskId)%Z; cbn [orb List.map fst]; [reflexivity |].
  rewrite IH. destruct (existsb (Z.eqb taskId) (List.map fst m)); reflexivity.
Qed.

Lemma keys_add_NoDup (taskId : Z) (quantity price : N) (m : list (Z * (N * N))) :
  List.NoDup (List.map fst m) ->
  List.NoDup
    (List.map fst (FinalReportView.tasksSummary_add taskId quantity price m)).
Proof.
  intros Hnd. rewrite keys_add.
  destruct (existsb (Z.eqb taskId) (List.map fst m)) eqn:Hin; [exact Hnd |].
  apply List.NoDup_app; [exact Hnd | repeat constructor; intros [] |].
  intros x Hx [<- | []].
  apply existsb_Zeqb_In in Hx. congruence.
Qed.

Lemma summary_fold_NoDup (logs : list (DailyLog.t N)) (m : list (Z * (N * N))) :
  List.NoDup (List.map fst m) ->
  List.NoDup (List.map fst (fold_left (summaryStep taskMap) logs m)).
Proof.
  revert m. induction logs as [| log logs IH]; intros m Hnd; cbn [fold_left];
    [exact Hnd |].
  apply IH. unfold summaryStep.
  destruct (taskMap !! DailyLog.taskId log); [| exact Hnd].
  apply keys_add_NoDup. exact Hnd.
Qed.

Lemma entryOf_step (k : Z) (m : list (Z * (N * N))) (log : DailyLog.t N) :
  entryOf k (summaryStep taskMap m log)
  = if (DailyLog.taskId log =? k)%Z
    then match taskMap !! k with
         | Some task =>
             Some (match entryOf k m with
                   | Some (q, p) => ((q + DailyLog.quantity log)%js, p)
                   | None => ((nzero + DailyLog.quantity log)%js, Task.price task)
                   end)
         | None => entryOf k m
         end
    else entryOf k m.
Proof.
  unfold summaryStep.
  destruct (Z.eqb_spec (DailyLog.taskId log) k) as [-> | Hk].
  - destruct (taskMap !! k); [| reflexivity].
    rewrite entryOf_add, Z.eqb_refl. reflexivity.
  - destruct (taskMap !! DailyLog.taskId log); [| reflexivity].
    rewrite entryOf_add.
    destruct (Z.eqb_spec k (DailyLog.taskId log)) as [-> | _];
      [contradiction | reflexivity].
Qed.

Lemma summary_fold_entry (k : Z) (logs : list (DailyLog.t N))
    (m : list (Z * (N * N))) :
  entryOf k (fold_left (summaryStep taskMap) logs m)
  = match taskMap !! k,
          List.filter (fun l => (DailyLog.taskId l =? k)%Z) logs with
    | Some task, l0 :: rest =>
        Some (fold_left (fun sum log => (sum + DailyLog.quantity log)%js)
                (l0 :: rest) (default nzero (fst <$> entryOf k m)),
              default (Task.price task) (snd <$> entryOf k m))
    | _, _ => entryOf k m
    end.
Proof.
  revert m. induction logs as [| log logs IH]; intros m;
    cbn [fold_left List.filter].
  - destruct (taskMap !! k); reflexivity.
  - rewrite IH, entryOf_step.
    destruct (DailyLog.taskId log =? k)%Z;
      destruct (taskMap !! k) as [task |];
      destruct (List.filter (fun l => (DailyLog.taskId l =? k)%Z) logs)
        as [| l1 rest];
      destruct (entryOf k m) as [[q p] |]; reflexivity.
Qed.

Lemma entryOf_In {V : Type} (k : Z) (v : V) (m : list (Z * V)) :
  List.NoDup (List.map fst m) -> (In (k, v) m <-> entryOf k m = Some v).
Proof.
  unfold entryOf. induction m as [| [k' v'] m IH]; intros Hnd.
  - cbn. split; [intros [] | discriminate].
  - cbn [List.map fst] in Hnd. apply List.NoDup_cons_iff in Hnd.
    destruct Hnd as [Hk' Hnd]. cbn [List.find fst In].
    destruct (Z.eqb_spec k' k) as [-> | Hne].
    + cbn. split.
      * intros [Heq | Hin]; [congruence |].
        exfalso. apply Hk'. apply List.in_map_iff. exists (k, v). auto.
      * intros Heq. left. congruence.
    + rewrite <- (IH Hnd). split; [| auto].
      intros [Heq | Hin]; [congruence | exact Hin].
Qed.

End TasksSummary.

Lemma insertTask_ids {N : Type} (t : PayrollTask.t N)
    (l : list (PayrollTask.t N)) :
  List.map PayrollTask.taskId (FinalReportView.insertTask t l)
  = insertId (PayrollTask.taskId t) (List.map PayrollTask.taskId l).
Proof.
  induction l as [| u l IH]; cbn [FinalReportView.insertTask insertId List.map];
    [reflexivity |].
  destruct (PayrollTask.taskId t <? PayrollTask.taskId u)%Z;
    cbn [List.map]; [reflexivity |].
  rewrite IH. reflexivity.
Qed.

Lemma sortTasks_fold_ids {N : Type} (l acc : list (PayrollTask.t N)) :
  List.map PayrollTask.taskId
    (fold_left (fun sorted t => FinalReportView.insertTask t sorted) l acc)
  = fold_left (fun sorted id => insertId id sorted)
      (List.map PayrollTask.taskId l) (List.map PayrollTask.taskId acc).
Proof.
  revert acc. induction l as [| t l IH]; intros acc; cbn [fold_left List.map];
    [reflexivity |].
  rewrite IH, insertTask_ids. reflexivity.
Qed.

Lemma sortTasks_ids {N : Type} (l : list (PayrollTask.t N)) :
  List.map PayrollTask.taskId (FinalReportView.sortTasks l)
  = sortIds (List.map PayrollTask.taskId l).
Proof. apply sortTasks_fold_ids. Qed.

Lemma insertTask_In {N : Type} (t x : PayrollTask.t N)
    (l : list (PayrollTask.t N)) :
  In x (FinalReportView.insertTask t l) <-> x = t \/ In x l.
Proof.
  induction l as [| u l IH]; cbn [FinalReportView.insertTask].
  - cbn. intuition.
  - destruct (PayrollTask.taskId t <? PayrollTask.taskId u)%Z; cbn [In];
      [intuition |].
    rewrite IH. intuition.
Qed.

Lemma sortTasks_In {N : Type} (l : list (PayrollTask.t N))
    (x : PayrollTask.t N) :
  In x (FinalReportView.sortTasks l) <-> In x l.
Proof.
  unfold FinalReportView.sortTasks.
  assert (Hgen : forall acc,
            In x (fold_left (fun sorted t => FinalReportView.insertTask t sorted)
                    l acc)
            <-> In x acc \/ In x l).
  { induction l as [| t l IH]; intros acc; cbn [fold_left].
    - cbn. intuition.
    - rewrite IH, insertTask_In. cbn [In]. intuition. }
  rewrite Hgen. cbn. intuition.
Qed.

(** The entry of a task in the summary of the logs of a worker. *)
Lemma tasksSummary_entry {N : Type} `{JsNumber N} (taskMap : gmap Z (Task.t N))
    (workerLogs : list (DailyLog.t N)) (k : Z) :
  entryOf k (FinalReportView.tasksSummary taskMap workerLogs)
  = match taskMap !! k,
          List.filter (fun l => (DailyLog.taskId l =? k)%Z)
            (List.filter notIndemnity workerLogs) with
    | Some task, _ :: _ =>
        Some (loggedQuantity k (List.filter notIndemnity workerLogs),
              Task.price task)
    | _, _ => None
    end.
Proof.
  change (FinalReportView.tasksSummary taskMap workerLogs)
    with (fold_left (summaryStep taskMap)
            (List.filter notIndemnity workerLogs) []).
  unfold loggedQuantity. rewrite summary_fold_entry.
  destruct (taskMap !! k);
    destruct (List.filter (fun l => (DailyLog.taskId l =? k)%Z)
                (List.filter notIndemnity workerLogs));
    reflexivity.
Qed.

Lemma tasksSummary_NoDup {N : Type} `{JsNumber N} (taskMap : gmap Z (Task.t N))
    (workerLogs : list (DailyLog.t N)) :
  List.NoDup (List.map fst (FinalReportView.tasksSummary taskMap workerLogs)).
Proof.
  change (FinalReportView.tasksSummary taskMap workerLogs)
    with (fold_left (summaryStep taskMap)
            (List.filter notIndemnity workerLogs) []).
  apply summary_fold_NoDup. constructor.
Qed.

Lemma workerTasks_ids {N : Type} `{JsNumber N} (taskMap : gmap Z (Task.t N))
    (workerLogs : list (DailyLog.t N)) :
  List.map PayrollTask.taskId (FinalReportView.workerTasks taskMap workerLogs)
  = List.map fst (FinalReportView.tasksSummary taskMap workerLogs).
Proof.
  unfold FinalReportView.workerTasks. rewrite List.map_map.
  apply List.map_ext. intros [k [q p]]. reflexivity.
Qed.

Lemma filter_nonempty_In {A : Type} (f : A -> bool) (l : list A) :
  List.filter f l <> [] <-> exists x, In x l /\ f x = true.
Proof.
  split.
  - destruct (List.filter f l) as [| x rest] eqn:Hf; [congruence |].
    intros _. exists x. apply List.filter_In. rewrite Hf. left. reflexivity.
  - intros (x & Hin & Hfx) Hnil.
    assert (Hc : In x (List.filter f l)) by (apply List.filter_In; auto).
    rewrite Hnil in Hc. destruct Hc.
Qed.

(** X7.  [handleSave], step 2: the tasks of a payroll line.  They are listed
    in ascending order of task id, each task once.  A task is listed exactly
    when the worker has a log of it in the draft, it is neither of the two
    indemnity tasks and the price table has it; its price is the price of
    the table, its quantity the sum of the worker's logs of the task in the
    order of the logs, and its amount their product. *)
Theorem X7_payroll_line_lists_each_priced_task_once {N : Type} `{JsNumber N}
    (draftData : FinalReportData.t N) (workedDays : list (WorkedDays.t N))
    (taskMap : gmap Z (Task.t N)) (year month : Z) (period : Period)
    (worker : Worker.t N) :
  let workerLogs :=
    List.filter (fun l => (DailyLog.workerId l =? Worker.id worker)%Z)
      (FinalReportData.logs draftData) in
  let tasks :=
    PayrollData.tasks
      (FinalReportView.payrollLine draftData workedDays taskMap year month
         period worker) in
  StronglySorted Z.lt (List.map PayrollTask.taskId tasks) /\
  forall t : PayrollTask.t N,
    In t tasks
    <->
    (exists log, In log workerLogs /\ DailyLog.taskId log = PayrollTask.taskId t) /\
    PayrollTask.taskId t <> LAIT_TASK_ID /\
    PayrollTask.taskId t <> PANIER_TASK_ID /\
    Task.price <$> taskMap !! PayrollTask.taskId t = Some (PayrollTask.price t) /\
    PayrollTask.quantity t = loggedQuantity (PayrollTask.taskId t) workerLogs /\
    PayrollTask.amount t = (PayrollTask.quantity t * PayrollTask.price t)%js.
Proof.
  intros workerLogs tasks. subst tasks.
  cbn [FinalReportView.payrollLine PayrollData.tasks]. fold workerLogs.
  split.
  - rewrite sortTasks_ids, workerTasks_ids.
    apply sortIds_sorted, tasksSummary_NoDup.
  - intros t. rewrite sortTasks_In.
    unfold FinalReportView.workerTasks. rewrite List.in_map_iff.
    assert (Hentry : forall k q p,
              In (k, (q, p)) (FinalReportView.tasksSummary taskMap workerLogs)
              <->
              (exists log, In log workerLogs /\ DailyLog.taskId log = k) /\
              k <> LAIT_TASK_ID /\ k <> PANIER_TASK_ID /\
              Task.price <$> taskMap !! k = Some p /\
              q = loggedQuantity k workerLogs).
    { intros k q p.
      rewrite (entryOf_In k (q, p)) by apply tasksSummary_NoDup.
      rewrite tasksSummary_entry.
      assert (Hind : forall l : DailyLog.t N,
                DailyLog.taskId l = k ->
                notIndemnity l = true
                <-> k <> LAIT_TASK_ID /\ k <> PANIER_TASK_ID).
      { intros l <-. unfold notIndemnity.
        rewrite andb_true_iff, !negb_true_iff, !Z.eqb_neq. reflexivity. }
      assert (Hq : k <> LAIT_TASK_ID /\ k <> PANIER_TASK_ID ->
                   loggedQuantity k (List.filter notIndemnity workerLogs)
                   = loggedQuantity k workerLogs).
      { intros Hk. unfold loggedQuantity. f_equal.
        rewrite filter_filter_andb. apply List.filter_ext_in.
        intros l _. destruct (Z.eqb_spec (DailyLog.taskId l) k) as [Hl | _];
          [| apply andb_false_r].
        rewrite andb_true_r. apply (Hind l Hl). exact Hk. }
      destruct (taskMap !! k) as [task |] eqn:Htask; cbn [fmap option_fmap option_map].
      2: { split; [discriminate | intros (_ & _ & _ & Hc & _); discriminate]. }
      destruct (List.filter (fun l => (DailyLog.taskId l =? k)%Z)
                  (List.filter notIndemnity workerLogs)) as [| l0 rest] eqn:Hf.
      - split; [discriminate |].
        intros ((log & Hin & Hk) & H37 & H47 & _). exfalso.
        assert (Hc : In log (List.filter (fun l => (DailyLog.taskId l =? k)%Z)
                               (List.filter notIndemnity workerLogs))).
        { apply List.filter_In. split; [| apply Z.eqb_eq; exact Hk].
          apply List.filter_In. split; [exact Hin |].
          apply (Hind log Hk). split; assumption. }
        rewrite Hf in Hc. destruct Hc.
      - assert (Hc : In l0 (List.filter (fun l => (DailyLog.taskId l =? k)%Z)
                              (List.filter notIndemnity workerLogs)))
          by (rewrite Hf; left; reflexivity).
        apply List.filter_In in Hc. destruct Hc as [Hc Hk0].
        apply List.filter_In in Hc. destruct Hc as [Hin0 Hni].
        apply Z.eqb_eq in Hk0. apply (Hind l0 Hk0) in Hni.
        split.
        + intros Heq. injection Heq as <- <-.
          split; [exists l0; split; assumption |].
          split; [apply Hni |]. split; [apply Hni |].
          split; [reflexivity | apply Hq; exact Hni].
        + intros (_ & H37 & H47 & Hp & ->). injection Hp as <-.
          rewrite Hq by (split; assumption). reflexivity. }
    split.
    + intros ([k [q p]] & <- & Hin). cbn [PayrollTask.taskId PayrollTask.price
        PayrollTask.quantity PayrollTask.amount].
      apply Hentry in Hin. destruct Hin as (Hlog & H37 & H47 & Hp & Hq).
      repeat (split; [assumption |]). reflexivity.
    + intros (Hlog & H37 & H47 & Hp & Hq & Ha).
      exists (PayrollTask.taskId t, (PayrollTask.quantity t, PayrollTask.price t)).
      split.
      * destruct t as [k q p a]. cbn in Ha |- *. rewrite Ha. reflexivity.
      * apply Hentry. repeat (split; [assumption |]). exact Hq.
Qed.

(** ** FinalReportView: the payroll and the transfer order of one draft *)

Lemma fold_left_over_map {A B C : Type} (f : A -> C -> A) (g : B -> C)
    (l : list B) (a : A) :
  fold_left f (List.map g l) a = fold_left (fun a x => f a (g x)) l a.
Proof.
  revert a. induction l as [| x l IH]; intros a; cbn [fold_left List.map];
    [reflexivity | apply IH].
Qed.

Lemma fold_left_pointwise {A B : Type} (f g : A -> B -> A) (l : list B) (a : A) :
  (forall a x, f a x = g a x) -> fold_left f l a = fold_left g l a.
Proof.
  intros Hfg. revert a. induction l as [| x l IH]; intros a; cbn [fold_left];
    [reflexivity |].
  rewrite Hfg. apply IH.
Qed.

Section ExactTotals.
Variable taskMap : gmap Z (Task.t Qc).

Lemma amounts_cons (e : Z * (Qc * Qc)) (m : list (Z * (Qc * Qc))) :
  summaryAmounts (e :: m) = (fst (snd e) * snd (snd e) + summaryAmounts m)%Qc.
Proof.
  unfold summaryAmounts. cbn [fold_left nadd nmul nzero Qc_JsNumber].
  rewrite (fold_left_Qcplus_shift (fun e => (fst (snd e) * snd (snd e))%Qc)).
  change (Q2Qc 0) with 0%Qc. ring.
Qed.

Lemma amounts_add (taskId : Z) (quantity price : Qc)
    (m : list (Z * (Qc * Qc))) :
  (forall q p, entryOf taskId m = Some (q, p) -> p = price) ->
  summaryAmounts (FinalReportView.tasksSummary_add taskId quantity price m)
  = (summaryAmounts m + quantity * price)%Qc.
Proof.
  induction m as [| [k [q p]] m IH]; intros Hprice;
    cbn [FinalReportView.tasksSummary_add].
  - rewrite amounts_cons. cbn [fst snd nzero nadd Qc_JsNumber].
    unfold summaryAmounts. cbn [fold_left nadd nmul nzero Qc_JsNumber]. ring.
  - destruct (Z.eqb_spec k taskId) as [-> | Hne].
    + rewrite !amounts_cons. cbn [fst snd nadd Qc_JsNumber].
      assert (Hp : p = price).
      { apply (Hprice q p). unfold entryOf. cbn [List.find fst].
        rewrite Z.eqb_refl. reflexivity. }
      subst p. ring.
    + rewrite !amounts_cons, IH; [ring |].
      intros q' p' Hentry. apply (Hprice q' p').
      unfold entryOf in *. cbn [List.find fst].
      destruct (Z.eqb_spec k taskId); [contradiction | exact Hentry].
Qed.

Lemma amounts_fold (logs : list (DailyLog.t Qc)) (m : list (Z * (Qc * Qc))) :
  (forall k q p, entryOf k m = Some (q, p) ->
     Task.price <$> taskMap !! k = Some p) ->
  summaryAmounts
    (fold_left
       (fun m log =>
          match taskMap !! DailyLog.taskId log with
          | None => m
          | Some task =>
              FinalReportView.tasksSummary_add (DailyLog.taskId log)
                (DailyLog.quantity log) (Task.price task) m
          end)
       logs m)
  = fold_left
      (fun sum log =>
         (sum + DailyLog.quantity log * priceOr0 taskMap (DailyLog.taskId log))%Qc)
      logs (summaryAmounts m).
Proof.
  revert m. induction logs as [| log logs IH]; intros m Hm; cbn [fold_left];
    [reflexivity |].
  unfold priceOr0 at 2.
  destruct (taskMap !! DailyLog.taskId log) as [task |] eqn:Htask.
  - rewrite IH.
    + rewrite amounts_add, orZero_exact; [reflexivity |].
      intros q p Hentry. apply Hm in Hentry. rewrite Htask in Hentry.
      cbn in Hentry. congruence.
    + intros k q p. rewrite entryOf_add.
      destruct (Z.eqb_spec k (DailyLog.taskId log)) as [-> | _]; [| apply Hm].
      rewrite Htask. cbn.
      destruct (entryOf (DailyLog.taskId log) m) as [[q0 p0] |] eqn:He.
      * apply Hm in He. rewrite Htask in He. cbn in He. congruence.
      * congruence.
  - rewrite IH by exact Hm. f_equal.
    cbn [nzero Qc_JsNumber]. ring.
Qed.

(** The operational total of the payroll line is the one of the transfer
    order. *)
Lemma payroll_total_exact (draftData : FinalReportData.t Qc)
    (workedDays : list (WorkedDays.t Qc)) (year month : Z) (period : Period)
    (worker : Worker.t Qc) :
  PayrollData.totalOperation
    (FinalReportView.payrollLine draftData workedDays taskMap year month period
       worker)
  = FinalReportView.transferTotalOperation draftData taskMap worker.
Proof.
  cbn [FinalReportView.payrollLine PayrollData.totalOperation].
  unfold FinalReportView.workerTasks, FinalReportView.transferTotalOperation.
  rewrite fold_left_over_map.
  transitivity
    (summaryAmounts
       (FinalReportView.tasksSummary taskMap
          (List.filter (fun l => (DailyLog.workerId l =? Worker.id worker)%Z)
             (FinalReportData.logs draftData)))).
  { unfold summaryAmounts. apply fold_left_pointwise. intros sum [k [q p]]. reflexivity. }
  unfold FinalReportView.tasksSummary.
  rewrite amounts_fold by (intros k q p He; discriminate).
  rewrite filter_filter_andb. reflexivity.
Qed.

End ExactTotals.

(** The net pay of a transfer line is the one the payroll view shows for
    the payroll line of the worker, under the inputs [inputs], when no
    advance is typed for the worker. *)
Lemma transfer_net_exact (parseFloat : string -> Qc)
    (taskMap : gmap Z (Task.t Qc)) (draftData : FinalReportData.t Qc)
    (workedDays : list (WorkedDays.t Qc)) (year month : Z) (period : Period)
    (data : list (PayrollData.t Qc)) (worker : Worker.t Qc) :
  parseFloat "0" = 0%Qc ->
  TransferOrderData.netPay
    (FinalReportView.transferLine draftData workedDays taskMap year month
       period worker)
  = PayrollView.netAPayer parseFloat taskMap (SavedPayroll.mk ∅ data)
      (FinalReportView.payrollLine draftData workedDays taskMap year month
         period worker).
Proof.
  intros Hzero.
  pose proof (payroll_total_exact taskMap draftData workedDays year month
                period worker) as Htotal.
  unfold PayrollView.netAPayer, PayrollView.avance, PayrollView.laitPricePerDay,
    PayrollView.panierPricePerDay.
  cbn [SavedPayroll.additionalInputs].
  rewrite lookup_empty. cbn [fmap option_fmap option_map orString0].
  rewrite Hzero, orZero_exact.
  cbn [FinalReportView.payrollLine FinalReportView.transferLine
       TransferOrderData.netPay PayrollData.totalBrut PayrollData.retenu
       PayrollData.joursTravailles PayrollData.totalOperation] in Htotal |- *.
  rewrite Htotal.
  cbn [nzero nadd nsub nmul ndiv Qc_JsNumber]. ring.
Qed.

(** X8.  [handleSave], in exact arithmetic: the transfer order pays what the
    payroll shows.  The two are derived separately from the draft (the
    payroll adds up amounts per task and skips tasks the price table does
    not have, the transfer order adds up log by log and prices them 0), and
    they agree on the operational total; the net pay of the transfer line is
    the net pay the payroll view shows for the line as saved, before any
    adjustment. *)
Theorem X8_transfer_order_pays_what_the_payroll_shows
    (parseFloat : string -> Qc) (taskMap : gmap Z (Task.t Qc))
    (draftData : FinalReportData.t Qc) (workedDays : list (WorkedDays.t Qc))
    (year month : Z) (period : Period) (worker : Worker.t Qc) :
  parseFloat "0" = 0%Qc ->
  let payroll :=
    SavedPayroll.mk ∅
      (FinalReportView.payrollData draftData workedDays taskMap year month
         period) in
  let line :=
    FinalReportView.payrollLine draftData workedDays taskMap year month period
      worker in
  PayrollData.totalOperation line
  = FinalReportView.transferTotalOperation draftData taskMap worker /\
  TransferOrderData.netPay
    (FinalReportView.transferLine draftData workedDays taskMap year month
       period worker)
  = PayrollView.netAPayer parseFloat taskMap payroll line.
Proof.
  intros Hzero payroll line. split.
  - apply payroll_total_exact.
  - apply transfer_net_exact. exact Hzero.
Qed.

Lemma X8_transfer_order_pays_what_the_payroll_shows_witness :
  PayrollData.totalOperation
    (FinalReportView.payrollLine
       (FinalReportData.mk [Worker.mk 1 "W" (Q2Qc 10)] exactLogs [])
       [] {[ 5%Z := Task.mk (Q2Qc 5) ]} 2025 6 PFirst
       (Worker.mk 1 "W" (Q2Qc 10)))
  = FinalReportView.transferTotalOperation
      (FinalReportData.mk [Worker.mk 1 "W" (Q2Qc 10)] exactLogs [])
      {[ 5%Z := Task.mk (Q2Qc 5) ]} (Worker.mk 1 "W" (Q2Qc 10)).
Proof.
  exact (proj1 (X8_transfer_order_pays_what_the_payroll_shows
                  (fun _ => 0%Qc) {[ 5%Z := Task.mk (Q2Qc 5) ]}
                  (FinalReportData.mk [Worker.mk 1 "W" (Q2Qc 10)] exactLogs [])
                  [] 2025 6 PFirst (Worker.mk 1 "W" (Q2Qc 10)) eq_refl)).
Defined.

(** ** The operational total across the reports *)

(** The [montant] of a line of the detailed payroll is the operational
    total the transfer order derives from the draft of the same period. *)
Lemma reportLine_montant {N : Type} `{JsNumber N}
    (parseFloat : string -> N) (workerGroups : list (WorkerGroup.t N))
    (allLogs : list (DailyLog.t N)) (workedDays : list (WorkedDays.t N))
    (taskMap : gmap Z (Task.t N)) (workers : list (Worker.t N))
    (year month : Z) (period : Period) (inputs : gmap Z DetailedInputs.t)
    (worker : Worker.t N) (line : DetailedPayrollData.t N) :
  In worker workers ->
  DetailedPayrollView.reportLine parseFloat workerGroups allLogs workedDays
    taskMap year month period inputs (Worker.id worker) = Some line ->
  DetailedPayrollData.montant line
  = FinalReportView.transferTotalOperation
      (FinalReportView.handleGenerateDraft allLogs workedDays workers year
         month period)
      taskMap worker.
Proof.
  intros Hin Hline.
  assert (Hlogs :
            List.filter
              (fun l => (DailyLog.workerId l =? Worker.id worker)%Z && notIndemnity l)
              (FinalReportData.logs
                 (FinalReportView.handleGenerateDraft allLogs workedDays workers
                    year month period))
            = List.filter notIndemnity
                (List.filter
                   (fun log =>
                      String.leb (isoDate year month (startDateNum period))
                        (DailyLog.date log) &&
                      String.leb (DailyLog.date log)
                        (isoDate year month (endDateNum year month period)) &&
                      (DailyLog.workerId log =? Worker.id worker)%Z)
                   allLogs)).
  { unfold FinalReportView.handleGenerateDraft, FinalReportView.logsForReport.
    cbn [FinalReportData.logs].
    rewrite !filter_filter_andb. apply List.filter_ext.
    intros l.
    destruct (Z.eqb_spec (DailyLog.workerId l) (Worker.id worker)) as [Hw | _];
      [| rewrite !andb_false_r; reflexivity].
    assert (Hsel : existsb (Z.eqb (DailyLog.workerId l))
                     (List.map Worker.id workers) = true).
    { apply existsb_Zeqb_In. rewrite Hw. apply List.in_map. exact Hin. }
    rewrite Hsel, !andb_true_r. reflexivity. }
  unfold DetailedPayrollView.reportLine in Hline.
  destruct (List.find (fun w => (Worker.id w =? Worker.id worker)%Z)
              (DetailedPayrollView.allWorkers workerGroups)); [| discriminate].
  injection Hline as <-. cbn [DetailedPayrollData.montant].
  unfold FinalReportView.transferTotalOperation. rewrite Hlogs. reflexivity.
Qed.

(** X9.  The same logs give the same operational total in every report, to
    the last bit: the [montant] of the detailed payroll, the operational
    total of the transfer order and the one of the annual rollup over the
    draft are one sum, of the same products in the same order. *)
Theorem X9_one_operational_total_across_reports {N : Type} `{JsNumber N}
    (parseFloat : string -> N) (workerGroups : list (WorkerGroup.t N))
    (allLogs : list (DailyLog.t N)) (workedDays : list (WorkedDays.t N))
    (taskMap : gmap Z (Task.t N)) (workers : list (Worker.t N))
    (year month : Z) (period : Period) (inputs : gmap Z DetailedInputs.t)
    (worker : Worker.t N) (line : DetailedPayrollData.t N) :
  In worker workers ->
  DetailedPayrollView.reportLine parseFloat workerGroups allLogs workedDays
    taskMap year month period inputs (Worker.id worker) = Some line ->
  let draft :=
    FinalReportView.handleGenerateDraft allLogs workedDays workers year month
      period in
  DetailedPayrollData.montant line
  = FinalReportView.transferTotalOperation draft taskMap worker /\
  AnnualSummaryView.totalOperationOf taskMap (FinalReportData.logs draft)
    (Worker.id worker)
  = FinalReportView.transferTotalOperation draft taskMap worker.
Proof.
  intros Hin Hline draft. split.
  - apply (reportLine_montant parseFloat workerGroups allLogs workedDays
             taskMap workers year month period inputs worker line Hin Hline).
  - unfold AnnualSummaryView.totalOperationOf,
      FinalReportView.transferTotalOperation.
    rewrite filter_filter_andb. reflexivity.
Qed.

Lemma X9_one_operational_total_across_reports_witness :
  (DetailedPayrollData.montant <$>
     DetailedPayrollView.reportLine js_parseFloat scenarioGroups orderedLogs
       scenarioWorkedDays scenarioTaskMap 2025 6 PFirst ∅ 1)
  = Some (FinalReportView.transferTotalOperation
            (FinalReportView.handleGenerateDraft orderedLogs scenarioWorkedDays
               [scenarioWorker] 2025 6 PFirst)
            scenarioTaskMap scenarioWorker).
Proof.
  destruct (DetailedPayrollView.reportLine js_parseFloat scenarioGroups
              orderedLogs scenarioWorkedDays scenarioTaskMap 2025 6 PFirst ∅ 1)
    as [line |] eqn:Hline; [| vm_compute in Hline; discriminate].
  cbn [fmap option_fmap option_map]. f_equal.
  exact (proj1 (X9_one_operational_total_across_reports js_parseFloat
                  scenarioGroups orderedLogs scenarioWorkedDays scenarioTaskMap
                  [scenarioWorker] 2025 6 PFirst ∅ scenarioWorker line
                  ltac:(left; reflexivity) Hline)).
Defined.

(** ** PayrollView: saving adjustments *)

Lemma njson_idempotent (x : float) : njson (njson x) = njson x.
Proof.
  cbn [njson float_JsNumber].
  destruct (is_finite x && negb (x =? 0)%float) eqn:Hx.
  - rewrite Hx. reflexivity.
  - reflexivity.
Qed.

Lemma jsonLine_idempotent (d : PayrollData.t float) :
  PayrollView.jsonLine (PayrollView.jsonLine d) = PayrollView.jsonLine d.
Proof.
  unfold PayrollView.jsonLine, PayrollView.jsonWorker.
  cbn [PayrollData.worker PayrollData.tasks PayrollData.totalOperation
       PayrollData.anciennete PayrollData.totalBrut PayrollData.retenu
       PayrollData.joursTravailles PayrollData.jourFerier
       Worker.id Worker.name Worker.seniorityPercentage].
  rewrite !njson_idempotent, List.map_map. f_equal.
  apply List.map_ext. intros t. unfold PayrollView.jsonTask.
  cbn [PayrollTask.taskId PayrollTask.quantity PayrollTask.price
       PayrollTask.amount].
  rewrite !njson_idempotent. reflexivity.
Qed.

(** What the recomputation of a line reads of the line. *)
Lemma adjustLine_reads {N : Type} `{JsNumber N} (parseFloat : string -> N)
    (adjustments : gmap Z PayrollInputs.t) (d d' : PayrollData.t N) :
  PayrollData.worker d = PayrollData.worker d' ->
  PayrollData.tasks d = PayrollData.tasks d' ->
  PayrollData.totalOperation d = PayrollData.totalOperation d' ->
  PayrollData.anciennete d = PayrollData.anciennete d' ->
  PayrollData.joursTravailles d = PayrollData.joursTravailles d' ->
  PayrollView.adjustLine parseFloat adjustments d
  = PayrollView.adjustLine parseFloat adjustments d'.
Proof.
  intros Hw Ht Ho Ha Hj. unfold PayrollView.adjustLine.
  rewrite Hw, Ht, Ho, Ha, Hj. reflexivity.
Qed.

Lemma adjustLine_after_adjustLine (parseFloat : string -> float)
    (first second : gmap Z PayrollInputs.t) (d : PayrollData.t float) :
  PayrollView.adjustLine parseFloat second
    (PayrollView.jsonLine
       (PayrollView.adjustLine parseFloat first (PayrollView.jsonLine d)))
  = PayrollView.adjustLine parseFloat second (PayrollView.jsonLine d).
Proof.
  rewrite <- (jsonLine_idempotent d) at 2.
  apply adjustLine_reads; reflexivity.
Qed.

(** X10.  [PayrollView.handleSaveAdjustments]: adjustments replace, they do
    not add up.  Saving adjustments on a report whose adjustments were saved
    before gives the report that saving them on the first report gives, for
    every report and all input strings: a holiday pay entered twice is
    counted once. *)
Theorem X10_saving_adjustments_again_replaces_them
    (parseFloat : string -> float) (viewingReport : SavedPayroll.t float)
    (first second : gmap Z PayrollInputs.t) :
  PayrollView.handleSaveAdjustments parseFloat
    (PayrollView.handleSaveAdjustments parseFloat viewingReport first) second
  = PayrollView.handleSaveAdjustments parseFloat viewingReport second.
Proof.
  unfold PayrollView.handleSaveAdjustments. cbn [SavedPayroll.data].
  f_equal. rewrite List.map_map. apply List.map_ext.
  intros d. apply adjustLine_after_adjustLine.
Qed.

(** ** The adjustment modals *)

Lemma payroll_field_lookup (adjustments : gmap Z PayrollInputs.t)
    (workerId : Z) (field : PayrollAdjustmentModal.Field) (value : string)
    (id : Z) :
  PayrollAdjustmentModal.handleFieldChange adjustments workerId field value !! id
  = if (id =? workerId)%Z
    then
      Some (match field with
            | PayrollAdjustmentModal.Avance =>
                PayrollInputs.mk value
                  (default "" (PayrollInputs.jourFerier <$> adjustments !! workerId))
            | PayrollAdjustmentModal.JourFerier =>
                PayrollInputs.mk
                  (default "" (PayrollInputs.avance <$> adjustments !! workerId))
                  value
            end)
    else adjustments !! id.
Proof.
  unfold PayrollAdjustmentModal.handleFieldChange.
  destruct (Z.eqb_spec id workerId) as [-> | Hne].
  - rewrite lookup_insert_eq.
    destruct (adjustments !! workerId) as [[a j] |]; destruct field; reflexivity.
  - apply lookup_insert_ne. congruence.
Qed.

Lemma detailed_field_lookup (adjustments : gmap Z DetailedInputs.t)
    (workerId : Z) (field : DetailedAdjustmentModal.Field) (value : string)
    (id : Z) :
  DetailedAdjustmentModal.handleFieldChange adjustments workerId field value !! id
  = if (id =? workerId)%Z
    then
      Some (match field with
            | DetailedAdjustmentModal.AvanceAid =>
                DetailedInputs.mk value
                  (default "" (DetailedInputs.ir <$> adjustments !! workerId))
            | DetailedAdjustmentModal.Ir =>
                DetailedInputs.mk
                  (default "" (DetailedInputs.avanceAid <$> adjustments !! workerId))
                  value
            end)
    else adjustments !! id.
Proof.
  unfold DetailedAdjustmentModal.handleFieldChange.
  destruct (Z.eqb_spec id workerId) as [-> | Hne].
  - rewrite lookup_insert_eq.
    destruct (adjustments !! workerId) as [[a j] |]; destruct field; reflexivity.
  - apply lookup_insert_ne. congruence.
Qed.

(** X11.  [AdjustmentModal.handleFieldChange] of the payroll: the field reads
    back as typed; the other field of the worker keeps its value, and is
    empty when the worker had no entry; the entries of the other workers are
    untouched; typing again in a field keeps the last value only. *)
Theorem X11_payroll_field_reads_back_as_typed
    (adjustments : gmap Z PayrollInputs.t) (workerId : Z) (value : string) :
  let typedAvance :=
    PayrollAdjustmentModal.handleFieldChange adjustments workerId
      PayrollAdjustmentModal.Avance value in
  let typedJourFerier :=
    PayrollAdjustmentModal.handleFieldChange adjustments workerId
      PayrollAdjustmentModal.JourFerier value in
  (PayrollInputs.avance <$> typedAvance !! workerId = Some value /\
   PayrollInputs.jourFerier <$> typedAvance !! workerId
   = Some (default "" (PayrollInputs.jourFerier <$> adjustments !! workerId))) /\
  (PayrollInputs.jourFerier <$> typedJourFerier !! workerId = Some value /\
   PayrollInputs.avance <$> typedJourFerier !! workerId
   = Some (default "" (PayrollInputs.avance <$> adjustments !! workerId))) /\
  (forall field other,
     other <> workerId ->
     PayrollAdjustmentModal.handleFieldChange adjustments workerId field value
       !! other
     = adjustments !! other) /\
  (forall field earlier,
     PayrollAdjustmentModal.handleFieldChange
       (PayrollAdjustmentModal.handleFieldChange adjustments workerId field
          earlier)
       workerId field value
     = PayrollAdjustmentModal.handleFieldChange adjustments workerId field
         value).
Proof.
  intros typedAvance typedJourFerier. subst typedAvance typedJourFerier.
  rewrite !payroll_field_lookup, Z.eqb_refl. cbn [fmap option_fmap option_map].
  split; [split; reflexivity |]. split; [split; reflexivity |]. split.
  - intros field other Hne. rewrite payroll_field_lookup.
    destruct (Z.eqb_spec other workerId); [contradiction | reflexivity].
  - intros field earlier.
    unfold PayrollAdjustmentModal.handleFieldChange at 1.
    rewrite payroll_field_lookup, Z.eqb_refl.
    unfold PayrollAdjustmentModal.handleFieldChange.
    rewrite insert_insert_eq.
    destruct (adjustments !! workerId) as [[a j] |]; destruct field; reflexivity.
Qed.

Lemma X11_payroll_field_reads_back_as_typed_witness :
  PayrollAdjustmentModal.handleFieldChange scenarioAdjustments 2
    PayrollAdjustmentModal.Avance "30" !! 1%Z
  = Some (PayrollInputs.mk "100" "50").
Proof.
  rewrite (proj1 (proj2 (proj2 (X11_payroll_field_reads_back_as_typed
                                  scenarioAdjustments 2 "30")))
             PayrollAdjustmentModal.Avance 1%Z ltac:(discriminate)).
  reflexivity.
Defined.

(** X12.  The payroll's modal and [handleSaveAdjustments]: what an edit
    changes once saved.  An edit for one worker leaves the recomputed lines
    of the other workers as they were; an edit of the advance changes no
    line at all, of any worker: the advance is only read, and subtracted,
    when the report is shown, where it is the number typed. *)
Theorem X12_payroll_edit_changes_only_its_worker {N : Type} `{JsNumber N}
    (parseFloat : string -> N)
    (viewingReport : SavedPayroll.t N) (adjustments : gmap Z PayrollInputs.t)
    (workerId : Z) (value : string) :
  (forall field d,
     Worker.id (PayrollData.worker d) <> workerId ->
     PayrollView.adjustLine parseFloat
       (PayrollAdjustmentModal.handleFieldChange adjustments workerId field
          value) d
     = PayrollView.adjustLine parseFloat adjustments d) /\
  SavedPayroll.data
    (PayrollView.handleSaveAdjustments parseFloat viewingReport
       (PayrollAdjustmentModal.handleFieldChange adjustments workerId
          PayrollAdjustmentModal.Avance value))
  = SavedPayroll.data
      (PayrollView.handleSaveAdjustments parseFloat viewingReport adjustments) /\
  (forall d,
     Worker.id (PayrollData.worker d) = workerId ->
     PayrollView.avance parseFloat
       (PayrollView.handleSaveAdjustments parseFloat viewingReport
          (PayrollAdjustmentModal.handleFieldChange adjustments workerId
             PayrollAdjustmentModal.Avance value)) d
     = orZero (parseFloat (orString0 (Some value)))).
Proof.
  assert (Hread : forall adj adj' d,
            PayrollInputs.jourFerier <$> adj !! Worker.id (PayrollData.worker d)
            = PayrollInputs.jourFerier <$> adj' !! Worker.id (PayrollData.worker d)
            \/ (default "" (PayrollInputs.jourFerier <$>
                              adj !! Worker.id (PayrollData.worker d))
                = "" /\
                PayrollInputs.jourFerier <$>
                  adj' !! Worker.id (PayrollData.worker d) = None) ->
            PayrollView.adjustLine parseFloat adj d
            = PayrollView.adjustLine parseFloat adj' d).
  { intros adj adj' d [Heq | [Hempty Hnone]]; unfold PayrollView.adjustLine.
    - rewrite Heq. reflexivity.
    - rewrite Hnone.
      destruct (PayrollInputs.jourFerier <$>
                  adj !! Worker.id (PayrollData.worker d)) as [s |];
        [| reflexivity].
      cbn in Hempty. subst s. reflexivity. }
  split; [| split].
  - intros field d Hne. apply Hread. left.
    rewrite payroll_field_lookup.
    destruct (Z.eqb_spec (Worker.id (PayrollData.worker d)) workerId);
      [contradiction | reflexivity].
  - unfold PayrollView.handleSaveAdjustments. cbn [SavedPayroll.data].
    apply List.map_ext. intros d. apply Hread.
    rewrite payroll_field_lookup.
    destruct (Z.eqb_spec (Worker.id (PayrollData.worker (PayrollView.jsonLine d)))
                workerId) as [-> | _]; [| left; reflexivity].
    cbn [fmap option_fmap option_map PayrollInputs.jourFerier].
    destruct (adjustments !! workerId) as [[a j] |]; cbn.
    + left. reflexivity.
    + right. split; reflexivity.
  - intros d <-. unfold PayrollView.avance, PayrollView.handleSaveAdjustments.
    cbn [SavedPayroll.additionalInputs].
    rewrite payroll_field_lookup, Z.eqb_refl. reflexivity.
Qed.

Lemma X12_payroll_edit_changes_only_its_worker_witness :
  PayrollView.avance js_parseFloat
    (PayrollView.handleSaveAdjustments js_parseFloat scenarioPayroll
       (PayrollAdjustmentModal.handleFieldChange ∅ 1
          PayrollAdjustmentModal.Avance "100"))
    (PayrollData.mk scenarioWorker [] 500 50 550 37.07 10 0)%float
  = 100%float.
Proof.
  rewrite (proj2 (proj2 (X12_payroll_edit_changes_only_its_worker
                           js_parseFloat scenarioPayroll ∅ 1 "100"))
             (PayrollData.mk scenarioWorker [] 500 50 550 37.07 10 0)%float eq_refl).
  vm_compute. reflexivity.
Defined.

(** X13.  The detailed payroll's modal and [generateReportData]: what an
    edit changes once saved.  The lines of the other workers are generated
    as before; in the line of the worker only the amount typed and the net
    pay change, the amount to the number typed and the net pay to the total
    with the two indemnities less the withholdings and the two amounts. *)
Theorem X13_detailed_edit_changes_only_its_amount {N : Type} `{JsNumber N}
    (parseFloat : string -> N) (workerGroups : list (WorkerGroup.t N))
    (allLogs : list (DailyLog.t N)) (workedDays : list (WorkedDays.t N))
    (taskMap : gmap Z (Task.t N)) (year month : Z) (period : Period)
    (adjustments : gmap Z DetailedInputs.t) (workerId : Z) (value : string) :
  let line inputs id :=
    DetailedPayrollView.reportLine parseFloat workerGroups allLogs workedDays
      taskMap year month period inputs id in
  let typed := orZero (parseFloat (orString0 (Some value))) in
  (forall field other,
     other <> workerId ->
     line (DetailedAdjustmentModal.handleFieldChange adjustments workerId field
             value) other
     = line adjustments other) /\
  line (DetailedAdjustmentModal.handleFieldChange adjustments workerId
          DetailedAdjustmentModal.AvanceAid value) workerId
  = (fun d =>
       DetailedPayrollData.mk (DetailedPayrollData.worker d)
         (DetailedPayrollData.montant d) (DetailedPayrollData.anciennete d)
         (DetailedPayrollData.total d) (DetailedPayrollData.indemLait d)
         (DetailedPayrollData.primePanier d) (DetailedPayrollData.retCnss d)
         (DetailedPayrollData.retAmo d)
         typed
         (DetailedPayrollData.ir d)
         (DetailedPayrollData.total d + DetailedPayrollData.indemLait d +
          DetailedPayrollData.primePanier d - DetailedPayrollData.retCnss d -
          DetailedPayrollData.retAmo d - typed - DetailedPayrollData.ir d)%js
         (DetailedPayrollData.joursTravailles d)
         (DetailedPayrollData.congePaye d) (DetailedPayrollData.jourFerier d))
    <$> line adjustments workerId /\
  line (DetailedAdjustmentModal.handleFieldChange adjustments workerId
          DetailedAdjustmentModal.Ir value) workerId
  = (fun d =>
       DetailedPayrollData.mk (DetailedPayrollData.worker d)
         (DetailedPayrollData.montant d) (DetailedPayrollData.anciennete d)
         (DetailedPayrollData.total d) (DetailedPayrollData.indemLait d)
         (DetailedPayrollData.primePanier d) (DetailedPayrollData.retCnss d)
         (DetailedPayrollData.retAmo d)
         (DetailedPayrollData.avanceAid d)
         typed
         (DetailedPayrollData.total d + DetailedPayrollData.indemLait d +
          DetailedPayrollData.primePanier d - DetailedPayrollData.retCnss d -
          DetailedPayrollData.retAmo d - DetailedPayrollData.avanceAid d -
          typed)%js
         (DetailedPayrollData.joursTravailles d)
         (DetailedPayrollData.congePaye d) (DetailedPayrollData.jourFerier d))
    <$> line adjustments workerId.
Proof.
  intros line typed. subst line typed. cbv beta.
  split; [| split].
  - intros field other Hne. unfold DetailedPayrollView.reportLine.
    rewrite detailed_field_lookup.
    destruct (Z.eqb_spec other workerId); [contradiction | reflexivity].
  - unfold DetailedPayrollView.reportLine.
    rewrite detailed_field_lookup, Z.eqb_refl.
    destruct (List.find (fun w => (Worker.id w =? workerId)%Z)
                (DetailedPayrollView.allWorkers workerGroups)); [| reflexivity].
    cbn [fmap option_fmap option_map DetailedInputs.avanceAid DetailedInputs.ir
         DetailedPayrollData.worker DetailedPayrollData.montant
         DetailedPayrollData.anciennete DetailedPayrollData.total
         DetailedPayrollData.indemLait DetailedPayrollData.primePanier
         DetailedPayrollData.retCnss DetailedPayrollData.retAmo
         DetailedPayrollData.avanceAid DetailedPayrollData.ir
         DetailedPayrollData.joursTravailles DetailedPayrollData.congePaye
         DetailedPayrollData.jourFerier].
    destruct (adjustments !! workerId) as [[a i] |];
      cbn [fmap option_fmap option_map default DetailedInputs.ir orString0];
      [destruct i |]; reflexivity.
  - unfold DetailedPayrollView.reportLine.
    rewrite detailed_field_lookup, Z.eqb_refl.
    destruct (List.find (fun w => (Worker.id w =? workerId)%Z)
                (DetailedPayrollView.allWorkers workerGroups)); [| reflexivity].
    cbn [fmap option_fmap option_map DetailedInputs.avanceAid DetailedInputs.ir
         DetailedPayrollData.worker DetailedPayrollData.montant
         DetailedPayrollData.anciennete DetailedPayrollData.total
         DetailedPayrollData.indemLait DetailedPayrollData.primePanier
         DetailedPayrollData.retCnss DetailedPayrollData.retAmo
         DetailedPayrollData.avanceAid DetailedPayrollData.ir
         DetailedPayrollData.joursTravailles DetailedPayrollData.congePaye
         DetailedPayrollData.jourFerier].
    destruct (adjustments !! workerId) as [[a i] |];
      cbn [fmap option_fmap option_map default DetailedInputs.avanceAid
           orString0];
      [destruct a |]; reflexivity.
Qed.

Lemma X13_detailed_edit_changes_only_its_amount_witness :
  DetailedPayrollView.reportLine js_parseFloat scenarioGroups scenarioLogs
    scenarioWorkedDays scenarioTaskMap 2025 6 PFirst
    (DetailedAdjustmentModal.handleFieldChange ∅ 2
       DetailedAdjustmentModal.Ir "5") 1
  = DetailedPayrollView.reportLine js_parseFloat scenarioGroups scenarioLogs
      scenarioWorkedDays scenarioTaskMap 2025 6 PFirst ∅ 1.
Proof.
  exact (proj1 (X13_detailed_edit_changes_only_its_amount js_parseFloat
                  scenarioGroups scenarioLogs scenarioWorkedDays scenarioTaskMap
                  2025 6 PFirst ∅ 2 "5")
           DetailedAdjustmentModal.Ir 1%Z ltac:(discriminate)).
Defined.

(** ** The totals at the foot of the reports *)

Lemma columnTotal_cons_exact {A : Type} (f : A -> Qc) (x : A) (l : list A) :
  columnTotal f (x :: l) = (f x + columnTotal f l)%Qc.
Proof.
  unfold columnTotal. cbn [fold_left nadd nzero Qc_JsNumber].
  rewrite (fold_left_Qcplus_shift f). change (Q2Qc 0) with 0%Qc. ring.
Qed.

Lemma grandTotals_fold {N : Type} `{JsNumber N} (parseFloat : string -> N)
    (taskMap : gmap Z (Task.t N)) (report : SavedPayroll.t N)
    (data : list (PayrollData.t N)) (totals : GrandTotals.t N) :
  let step totals d :=
    let indemniteLait :=
      (PayrollData.joursTravailles d * PayrollView.laitPricePerDay taskMap)%js in
    let primePanier :=
      (PayrollData.joursTravailles d * PayrollView.panierPricePerDay taskMap)%js in
    GrandTotals.mk
      (GrandTotals.totalOperation totals + PayrollData.totalOperation d)%js
      (GrandTotals.anciennete totals + PayrollData.anciennete d)%js
      (GrandTotals.totalBrut totals + PayrollData.totalBrut d)%js
      (GrandTotals.retenu totals + PayrollData.retenu d)%js
      (GrandTotals.lait totals + indemniteLait)%js
      (GrandTotals.panier totals + primePanier)%js
      (GrandTotals.avance totals + PayrollView.avance parseFloat report d)%js
      (GrandTotals.net totals + PayrollView.netAPayer parseFloat taskMap report d)%js
      (GrandTotals.jourFerier totals + PayrollData.jourFerier d)%js in
  GrandTotals.net (fold_left step data totals)
  = fold_left
      (fun sum d => (sum + PayrollView.netAPayer parseFloat taskMap report d)%js)
      data (GrandTotals.net totals).
Proof.
  intros step. revert totals.
  induction data as [| d data IH]; intros totals; cbn [fold_left];
    [reflexivity |].
  rewrite IH. reflexivity.
Qed.

Lemma grandTotals_balance (parseFloat : string -> Qc)
    (taskMap : gmap Z (Task.t Qc)) (report : SavedPayroll.t Qc)
    (data : list (PayrollData.t Qc)) (totals : GrandTotals.t Qc) :
  let step totals d :=
    let indemniteLait :=
      (PayrollData.joursTravailles d * PayrollView.laitPricePerDay taskMap)%js in
    let primePanier :=
      (PayrollData.joursTravailles d * PayrollView.panierPricePerDay taskMap)%js in
    GrandTotals.mk
      (GrandTotals.totalOperation totals + PayrollData.totalOperation d)%js
      (GrandTotals.anciennete totals + PayrollData.anciennete d)%js
      (GrandTotals.totalBrut totals + PayrollData.totalBrut d)%js
      (GrandTotals.retenu totals + PayrollData.retenu d)%js
      (GrandTotals.lait totals + indemniteLait)%js
      (GrandTotals.panier totals + primePanier)%js
      (GrandTotals.avance totals + PayrollView.avance parseFloat report d)%js
      (GrandTotals.net totals + PayrollView.netAPayer parseFloat taskMap report d)%js
      (GrandTotals.jourFerier totals + PayrollData.jourFerier d)%js in
  GrandTotals.net totals
  = (GrandTotals.totalBrut totals - GrandTotals.retenu totals
     + GrandTotals.lait totals + GrandTotals.panier totals
     - GrandTotals.avance totals)%Qc ->
  GrandTotals.net (fold_left step data totals)
  = (GrandTotals.totalBrut (fold_left step data totals)
     - GrandTotals.retenu (fold_left step data totals)
     + GrandTotals.lait (fold_left step data totals)
     + GrandTotals.panier (fold_left step data totals)
     - GrandTotals.avance (fold_left step data totals))%Qc.
Proof.
  intros step. revert totals.
  induction data as [| d data IH]; intros totals Hbal; cbn [fold_left];
    [exact Hbal |].
  apply IH. subst step.
  cbn [GrandTotals.net GrandTotals.totalBrut GrandTotals.retenu GrandTotals.lait
       GrandTotals.panier GrandTotals.avance].
  unfold PayrollView.netAPayer.
  cbn [nadd nsub nmul Qc_JsNumber]. rewrite Hbal. ring.
Qed.

(** X14.  [ReportContent] of the payroll: the totals of the last row.  The
    net total is the sum of the net pays shown on the lines, in the order of
    the lines; in exact arithmetic it balances with the other totals of the
    row: gross total less withholding total, plus the totals of the two
    indemnities, less the total of the advances. *)
Theorem X14_payroll_grand_totals_balance :
  (forall (N : Type) (HN : JsNumber N) (parseFloat : string -> N)
          (taskMap : gmap Z (Task.t N)) (report : SavedPayroll.t N),
     GrandTotals.net (PayrollView.grandTotals parseFloat taskMap report)
     = columnTotal (PayrollView.netAPayer parseFloat taskMap report)
         (SavedPayroll.data report)) /\
  (forall (parseFloat : string -> Qc) (taskMap : gmap Z (Task.t Qc))
          (report : SavedPayroll.t Qc),
     let totals := PayrollView.grandTotals parseFloat taskMap report in
     GrandTotals.net totals
     = (GrandTotals.totalBrut totals - GrandTotals.retenu totals
        + GrandTotals.lait totals + GrandTotals.panier totals
        - GrandTotals.avance totals)%Qc).
Proof.
  split.
  - intros N HN parseFloat taskMap report.
    unfold PayrollView.grandTotals, columnTotal.
    rewrite (grandTotals_fold parseFloat taskMap report). reflexivity.
  - intros parseFloat taskMap report totals. subst totals.
    unfold PayrollView.grandTotals.
    apply (grandTotals_balance parseFloat taskMap report).
    cbn [GrandTotals.net GrandTotals.totalBrut GrandTotals.retenu
         GrandTotals.lait GrandTotals.panier GrandTotals.avance
         nzero Qc_JsNumber]. ring.
Qed.

(** The lines of a detailed payroll balance one by one. *)
Lemma detailed_total_exact (data : list (DetailedPayrollData.t Qc)) :
  Forall
    (fun d =>
       DetailedPayrollData.netAPayer d
       = (DetailedPayrollData.total d + DetailedPayrollData.indemLait d +
          DetailedPayrollData.primePanier d - DetailedPayrollData.retCnss d -
          DetailedPayrollData.retAmo d - DetailedPayrollData.avanceAid d -
          DetailedPayrollData.ir d)%Qc)
    data ->
  DetailedReportContent.grandTotal data
  = (columnTotal DetailedPayrollData.total data
     + columnTotal DetailedPayrollData.indemLait data
     + columnTotal DetailedPayrollData.primePanier data
     - columnTotal DetailedPayrollData.retCnss data
     - columnTotal DetailedPayrollData.retAmo data
     - columnTotal DetailedPayrollData.avanceAid data
     - columnTotal DetailedPayrollData.ir data)%Qc.
Proof.
  change (DetailedReportContent.grandTotal data)
    with (columnTotal DetailedPayrollData.netAPayer data).
  induction 1 as [| d data Hd _ IH].
  - unfold columnTotal. cbn [fold_left nzero Qc_JsNumber]. ring.
  - rewrite !columnTotal_cons_exact, IH, Hd. ring.
Qed.

(** X15.  [ReportContent] of the detailed payroll: the last row of a
    generated report balances, in exact arithmetic.  The sum the report is
    closed at is the total of the gross pays plus the totals of the two
    indemnities, less the totals of the two withholdings, of the advances
    and of the income tax. *)
Theorem X15_detailed_grand_total_balances
    (parseFloat : string -> Qc) (workerGroups : list (WorkerGroup.t Qc))
    (allLogs : list (DailyLog.t Qc)) (workedDays : list (WorkedDays.t Qc))
    (taskMap : gmap Z (Task.t Qc)) (workerIds : list Z) (year month : Z)
    (period : Period) (inputs : gmap Z DetailedInputs.t) :
  let data :=
    DetailedPayrollView.generateReportData parseFloat workerGroups allLogs
      workedDays taskMap workerIds year month period inputs in
  DetailedReportContent.grandTotal data
  = (columnTotal DetailedPayrollData.total data
     + columnTotal DetailedPayrollData.indemLait data
     + columnTotal DetailedPayrollData.primePanier data
     - columnTotal DetailedPayrollData.retCnss data
     - columnTotal DetailedPayrollData.retAmo data
     - columnTotal DetailedPayrollData.avanceAid data
     - columnTotal DetailedPayrollData.ir data)%Qc.
Proof.
  intros data. apply detailed_total_exact.
  apply List.Forall_forall. intros d Hin.
  apply In_omap in Hin. destruct Hin as (workerId & _ & Hline).
  apply reportLine_equations in Hline.
  destruct Hline as (_ & _ & Hnet & _). exact Hnet.
Qed.

(** X16.  [ReportContent] of the annual summary: the three boxes.  Every
    line is either a line of the HNS group or one of the others, never both
    and never neither; in exact arithmetic the grand total is the total of
    the net pays of all the lines. *)
Theorem X16_annual_boxes_split_the_lines :
  (forall (N : Type) (data : list (AnnualSummaryData.t N)),
     Permutation
       (AnnualReportContent.hnsData data ++ AnnualReportContent.otherData data)
       data) /\
  (forall data : list (AnnualSummaryData.t Qc),
     AnnualReportContent.grandTotal data
     = columnTotal AnnualSummaryData.netPay data).
Proof.
  split.
  - intros N data.
    unfold AnnualReportContent.hnsData, AnnualReportContent.otherData.
    induction data as [| d data IH]; cbn [List.filter]; [constructor |].
    destruct (AnnualSummaryData.isHNS d); cbn [negb app].
    + constructor. exact IH.
    + apply Permutation_sym, Permutation_cons_app, Permutation_sym. exact IH.
  - intros data.
    unfold AnnualReportContent.grandTotal, AnnualReportContent.hnsTotal,
      AnnualReportContent.otherTotal, AnnualReportContent.hnsData,
      AnnualReportContent.otherData.
    change (fold_left (fun sum item => (sum + AnnualSummaryData.netPay item)%js)
              (List.filter AnnualSummaryData.isHNS data) nzero)
      with (columnTotal AnnualSummaryData.netPay
              (List.filter AnnualSummaryData.isHNS data)).
    change (fold_left (fun sum item => (sum + AnnualSummaryData.netPay item)%js)
              (List.filter (fun d => negb (AnnualSummaryData.isHNS d)) data)
              nzero)
      with (columnTotal AnnualSummaryData.netPay
              (List.filter (fun d => negb (AnnualSummaryData.isHNS d)) data)).
    induction data as [| d data IH]; cbn [List.filter].
    + unfold columnTotal. cbn [fold_left nadd nzero Qc_JsNumber]. ring.
    + destruct (AnnualSummaryData.isHNS d); cbn [negb];
        rewrite !columnTotal_cons_exact; cbn [nadd Qc_JsNumber] in IH |- *;
        rewrite <- IH; ring.
Qed.

(** ** AnnualSummaryView: the lines of the rollup *)

Lemma omap_keys {A B : Type} (f : A -> option B) (g : B -> A) (l : list A) :
  (forall a b, f a = Some b -> g b = a) ->
  List.NoDup l -> List.NoDup (List.map g (omap f l)).
Proof.
  intros Hkey Hnd. induction Hnd as [| a l Ha Hnd IH]; simpl.
  - constructor.
  - destruct (f a) as [b |] eqn:Hb; [| exact IH].
    simpl. rewrite (Hkey a b Hb). constructor; [| exact IH].
    intros Hin. apply Ha. apply List.in_map_iff in Hin.
    destruct Hin as (b' & Hgb & Hin'). apply In_omap in Hin'.
    destruct Hin' as (a' & Hin' & Hfa'). rewrite <- Hgb, (Hkey a' b' Hfa').
    exact Hin'.
Qed.

Lemma NoDup_map_filter {A B : Type} (g : A -> B) (p : A -> bool) (l : list A) :
  List.NoDup (List.map g l) -> List.NoDup (List.map g (List.filter p l)).
Proof.
  induction l as [| a l IH]; cbn [List.map List.filter]; intros Hnd;
    [constructor |].
  apply List.NoDup_cons_iff in Hnd. destruct Hnd as [Ha Hnd].
  destruct (p a); [| apply IH; exact Hnd].
  cbn [List.map]. constructor; [| apply IH; exact Hnd].
  intros Hin. apply Ha. apply List.in_map_iff in Hin.
  destruct Hin as (x & Hx & Hin). apply List.filter_In in Hin.
  apply List.in_map_iff. exists x. split; [exact Hx | apply Hin].
Qed.

(** X17.  [AnnualSummaryView.handleGenerateDraft]: one line per worker.  A
    worker listed in several of the selected reports gets one line, not one
    per report; the worker of every line is a worker of the roster and is
    listed in one of the selected reports. *)
Theorem X17_annual_rollup_has_one_line_per_worker {N : Type} `{JsNumber N}
    (localeCompare : string -> string -> Z)
    (workerGroups : list (WorkerGroup.t N)) (taskMap : gmap Z (Task.t N))
    (savedFinalReports : list (SavedFinalReport.t N))
    (selectedReportIds : list string) (data : list (AnnualSummaryData.t N)) :
  AnnualSummaryView.handleGenerateDraft localeCompare workerGroups taskMap
    savedFinalReports selectedReportIds = Some data ->
  List.NoDup
    (List.map (fun d => Worker.id (AnnualSummaryData.worker d)) data) /\
  forall d, In d data ->
    In (AnnualSummaryData.worker d) (AnnualSummaryView.allWorkers workerGroups) /\
    exists report,
      In report savedFinalReports /\
      In (SavedFinalReport.id report) selectedReportIds /\
      In (Worker.id (AnnualSummaryData.worker d))
        (List.map Worker.id
           (FinalReportData.workers (SavedFinalReport.data report))).
Proof.
  intros Hdraft. split.
  - unfold AnnualSummaryView.handleGenerateDraft in Hdraft.
    destruct selectedReportIds as [| r0 rest] eqn:Hsel; [discriminate |].
    rewrite <- Hsel in Hdraft. injection Hdraft as <-.
    eapply Permutation_NoDup.
    { symmetry. apply Permutation_map. apply arraySort_Permutation. }
    unfold AnnualSummaryView.processedData.
    apply NoDup_map_filter.
    apply (omap_keys _ (fun d => Worker.id (AnnualSummaryData.worker d))).
    + intros id d Hline. apply (summaryLine_worker _ _ _ _ _ _ Hline).
    + apply setOfIds_NoDup.
  - intros d Hin.
    destruct (annual_draft_lines _ _ _ _ _ _ _ Hdraft Hin) as [Hid Hline].
    apply summaryLine_worker in Hline. destruct Hline as [_ Hroster].
    split; [exact Hroster |].
    unfold AnnualSummaryView.workerIdsWithActivity in Hid.
    apply (proj1 (setOfIds_In _ _)) in Hid.
    apply (proj1 (List.in_flat_map _ _ _)) in Hid.
    destruct Hid as (report & Hrep & Hw).
    unfold AnnualSummaryView.sourceReports in Hrep.
    apply List.filter_In in Hrep. destruct Hrep as [Hrep Hselected].
    exists report. split; [exact Hrep |]. split; [| exact Hw].
    apply existsb_exists in Hselected.
    destruct Hselected as (s & Hs & Heq). apply String.eqb_eq in Heq.
    rewrite Heq. exact Hs.
Qed.

Lemma X17_annual_rollup_has_one_line_per_worker_witness :
  exists data,
    AnnualSummaryView.handleGenerateDraft codeUnitCompare scenarioGroups
      scenarioTaskMap [firstHalfReport; secondHalfReport] ["r1"; "r2"]
    = Some data /\
    List.map (fun d => Worker.id (AnnualSummaryData.worker d)) data = [1%Z] /\
    List.NoDup (List.map (fun d => Worker.id (AnnualSummaryData.worker d)) data).
Proof.
  destruct (AnnualSummaryView.handleGenerateDraft codeUnitCompare scenarioGroups
              scenarioTaskMap [firstHalfReport; secondHalfReport] ["r1"; "r2"])
    as [data |] eqn:Hdraft; [| vm_compute in Hdraft; discriminate].
  exists data. split; [reflexivity |]. split.
  - vm_compute in Hdraft. injection Hdraft as <-. reflexivity.
  - exact (proj1 (X17_annual_rollup_has_one_line_per_worker codeUnitCompare
                    scenarioGroups scenarioTaskMap
                    [firstHalfReport; secondHalfReport] ["r1"; "r2"] data
                    Hdraft)).
Defined.

(** ** AnnualSummaryView: the selection of the source reports *)

Lemma existsb_String_eqb_In (x : string) (l : list string) :
  existsb (String.eqb x) l = true <-> In x l.
Proof.
  rewrite existsb_exists. split.
  - intros (y & Hin & Heq). apply String.eqb_eq in Heq. subst. exact Hin.
  - intros Hin. exists x. split; [exact Hin | apply String.eqb_refl].
Qed.

Lemma filter_out_absent (reportId : string) (l : list string) :
  ~ In reportId l ->
  List.filter (fun id => negb (String.eqb id reportId)) l = l.
Proof.
  induction l as [| x l IH]; intros Hn; cbn [List.filter]; [reflexivity |].
  destruct (String.eqb_spec x reportId) as [-> | _].
  - exfalso. apply Hn. left. reflexivity.
  - cbn [negb]. rewrite IH; [reflexivity |].
    intros Hin. apply Hn. right. exact Hin.
Qed.

(** X18.  The check box of a source report in the annual form: ticking a
    box changes the selection for that report only, adding it if it was not
    selected and removing it if it was; a selection without repeats stays
    without repeats; ticking a box that was clear and ticking it again gives
    back the selection as it was. *)
Theorem X18_report_check_box_toggles_one_report
    (prev : list string) (reportId : string) :
  (forall id,
     In id (AnnualSummaryForm.toggleReportId prev reportId)
     <-> (id = reportId /\ ~ In reportId prev) \/
         (id <> reportId /\ In id prev)) /\
  (List.NoDup prev ->
   List.NoDup (AnnualSummaryForm.toggleReportId prev reportId)) /\
  (~ In reportId prev ->
   AnnualSummaryForm.toggleReportId
     (AnnualSummaryForm.toggleReportId prev reportId) reportId
   = prev).
Proof.
  unfold AnnualSummaryForm.toggleReportId.
  split; [| split].
  - intros id.
    destruct (existsb (String.eqb reportId) prev) eqn:Hsel.
    + apply existsb_String_eqb_In in Hsel.
      rewrite List.filter_In, negb_true_iff.
      destruct (String.eqb_spec id reportId) as [-> | Hne]; split.
      * intros [_ Hc]. discriminate.
      * intros [[_ Hn] | [Hn _]]; contradiction.
      * intros [Hin _]. right. split; assumption.
      * intros [[Heq _] | [_ Hin]]; [contradiction | split; auto].
    + assert (Hn : ~ In reportId prev).
      { intros Hc. apply existsb_String_eqb_In in Hc. congruence. }
      rewrite in_app_iff. cbn [In]. split.
      * intros [Hin | [<- | []]].
        -- right. split; [| exact Hin]. intros ->. contradiction.
        -- left. split; [reflexivity | exact Hn].
      * intros [[-> _] | [_ Hin]]; [right; left; reflexivity | left; exact Hin].
  - intros Hnd.
    destruct (existsb (String.eqb reportId) prev) eqn:Hsel.
    + apply List.NoDup_filter. exact Hnd.
    + apply List.NoDup_app; [exact Hnd | repeat constructor; intros [] |].
      intros x Hx [<- | []].
      apply existsb_String_eqb_In in Hx. congruence.
  - intros Hn.
    assert (Hsel : existsb (String.eqb reportId) prev = false).
    { destruct (existsb (String.eqb reportId) prev) eqn:Hsel; [| reflexivity].
      apply existsb_String_eqb_In in Hsel. contradiction. }
    rewrite Hsel.
    assert (Hsel' : existsb (String.eqb reportId) (prev ++ [reportId]) = true).
    { apply existsb_String_eqb_In, in_or_app. right. left. reflexivity. }
    rewrite Hsel', List.filter_app, filter_out_absent by exact Hn.
    cbn [List.filter]. rewrite String.eqb_refl. cbn [negb].
    apply app_nil_r.
Qed.

Lemma X18_report_check_box_toggles_one_report_witness :
  AnnualSummaryForm.toggleReportId
    (AnnualSummaryForm.toggleReportId ["r1"] "r2") "r2"
  = ["r1"].
Proof.
  apply (proj2 (proj2 (X18_report_check_box_toggles_one_report ["r1"] "r2"))).
  intros [Hc | []]. discriminate.
Defined.

(** ** FinalReportView: the days entered in the form *)

(** X19.  [handleGenerateDraft], the attendance entries it saves: one entry
    per worker of the form, in the order of the form, for the year, month
    and period selected; the days of an entry are never NaN and never
    negative, whatever is typed.  Nothing typed, text and a negative number
    give 0; a number is cut at the first character that is not a digit. *)
Theorem X19_saved_days_are_never_NaN_or_negative
    (workersForDaysEntry : list (Worker.t float)) (draftDays : gmap Z string)
    (selectedYear selectedMonth : Z) (selectedPeriod : Period) :
  let entries :=
    FinalReportForm.newWorkedDaysEntries js_parseInt workersForDaysEntry
      draftDays selectedYear selectedMonth selectedPeriod in
  List.map WorkedDays.workerId entries
  = List.map Worker.id workersForDaysEntry /\
  Forall
    (fun entry =>
       WorkedDays.year entry = selectedYear /\
       WorkedDays.month entry = selectedMonth /\
       WorkedDays.period entry = selectedPeriod /\
       is_nan (WorkedDays.days entry) = false /\
       (WorkedDays.days entry <? 0)%float = false)
    entries /\
  List.map WorkedDays.days
    (FinalReportForm.newWorkedDaysEntries js_parseInt formWorkers formDays
       2025 6 PFirst)
  = [0; 0; 0; 7; 3; 12; 1; 0]%float.
Proof.
  intros entries. subst entries.
  unfold FinalReportForm.newWorkedDaysEntries.
  split; [| split].
  - rewrite List.map_map. reflexivity.
  - apply List.Forall_forall. intros entry Hin.
    apply List.in_map_iff in Hin. destruct Hin as (worker & <- & _).
    cbn [WorkedDays.year WorkedDays.month WorkedDays.period WorkedDays.days
         nisNaN ngtb nzero float_JsNumber].
    repeat (split; [reflexivity |]).
    destruct (is_nan (js_parseInt (orString0 (draftDays !! Worker.id worker))))
      eqn:Hnan; cbn [orb]; [split; reflexivity |].
    destruct (js_parseInt (orString0 (draftDays !! Worker.id worker)) <? 0)%float
      eqn:Hneg; [split; reflexivity | split; assumption].
  - vm_compute. reflexivity.
Qed.

(** ** The payroll as generated, and its first adjustments *)

Lemma adjustLine_without_holiday_pay {N : Type} `{JsNumber N}
    (parseFloat : string -> N) (adjustments : gmap Z PayrollInputs.t)
    (draftData : FinalReportData.t N) (workedDays : list (WorkedDays.t N))
    (taskMap : gmap Z (Task.t N)) (year month : Z) (period : Period)
    (worker : Worker.t N) :
  (forall inputs,
     adjustments !! Worker.id worker = Some inputs ->
     PayrollInputs.jourFerier inputs = "") ->
  PayrollView.adjustLine parseFloat adjustments
    (FinalReportView.payrollLine draftData workedDays taskMap year month period
       worker)
  = FinalReportView.payrollLine draftData workedDays taskMap year month period
      worker.
Proof.
  intros Hempty. unfold PayrollView.adjustLine.
  cbn [FinalReportView.payrollLine PayrollData.worker PayrollData.tasks
       PayrollData.totalOperation PayrollData.anciennete
       PayrollData.joursTravailles].
  destruct (adjustments !! Worker.id worker) as [[a j] |] eqn:Hadj;
    cbn [fmap option_fmap option_map PayrollInputs.jourFerier].
  - specialize (Hempty _ eq_refl). cbn in Hempty. subst j.
    destruct (nisNaN nzero); reflexivity.
  - destruct (nisNaN nzero); reflexivity.
Qed.

(** X20.  [handleSave] then [PayrollView.handleSaveAdjustments]: saving
    adjustments without a holiday pay leaves the payroll as it was
    generated.  When no holiday pay is typed (advances may be), every line
    of a payroll that comes back from its JSON copy as it is keeps all its
    figures, to the last bit. *)
Theorem X20_saving_without_holiday_pay_keeps_the_payroll
    {N : Type} `{JsNumber N} (parseFloat : string -> N)
    (draftData : FinalReportData.t N) (workedDays : list (WorkedDays.t N))
    (taskMap : gmap Z (Task.t N)) (year month : Z) (period : Period)
    (adjustments : gmap Z PayrollInputs.t) :
  let data :=
    FinalReportView.payrollData draftData workedDays taskMap year month period in
  Forall jsonStable data ->
  (forall id inputs,
     adjustments !! id = Some inputs -> PayrollInputs.jourFerier inputs = "") ->
  PayrollView.handleSaveAdjustments parseFloat (SavedPayroll.mk ∅ data)
    adjustments
  = SavedPayroll.mk adjustments data.
Proof.
  intros data Hstable Hempty. subst data.
  unfold PayrollView.handleSaveAdjustments. cbn [SavedPayroll.data].
  f_equal. rewrite <- (List.map_id (FinalReportView.payrollData _ _ _ _ _ _)) at 2.
  apply List.map_ext_in. intros d Hin.
  rewrite List.Forall_forall in Hstable. rewrite (Hstable d Hin).
  unfold FinalReportView.payrollData in Hin. apply List.in_map_iff in Hin.
  destruct Hin as (worker & <- & _).
  apply adjustLine_without_holiday_pay. intros inputs. apply Hempty.
Qed.

Lemma X20_saving_without_holiday_pay_keeps_the_payroll_witness :
  PayrollView.handleSaveAdjustments js_parseFloat scenarioPayroll
    {[ 1%Z := PayrollInputs.mk "100" "" ]}
  = SavedPayroll.mk {[ 1%Z := PayrollInputs.mk "100" "" ]}
      (SavedPayroll.data scenarioPayroll).
Proof.
  apply (X20_saving_without_holiday_pay_keeps_the_payroll js_parseFloat
           scenarioDraft scenarioWorkedDays scenarioTaskMap 2025 6 PFirst
           {[ 1%Z := PayrollInputs.mk "100" "" ]}).
  - repeat constructor.
  - intros id inputs Hlookup.
    destruct (decide (id = 1%Z)) as [-> | Hne].
    + rewrite lookup_singleton_eq in Hlookup. injection Hlookup as <-.
      reflexivity.
    + rewrite lookup_singleton_ne in Hlookup by congruence. discriminate.
Defined.

(** ** The amount of the transfer order and the net total of the payroll *)

Lemma Qc_not_gt_le (x : Qc) : ngtb x nzero = false -> (x <= 0)%Qc.
Proof.
  cbn [ngtb nzero Qc_JsNumber]. intros Hgt. apply Qcle_alt.
  destruct (x ?= 0)%Qc; [discriminate | discriminate | discriminate Hgt].
Qed.

Lemma positive_part_total {A : Type} (f : A -> Qc) (l : list A) :
  (columnTotal f l
   <= columnTotal f (List.filter (fun x => ngtb (f x) nzero) l))%Qc /\
  (Forall (fun x => ngtb (f x) nzero = true) l ->
   List.filter (fun x => ngtb (f x) nzero) l = l).
Proof.
  split.
  - induction l as [| x l IH]; cbn [List.filter]; [apply Qcle_refl |].
    destruct (ngtb (f x) nzero) eqn:Hx.
    + rewrite !columnTotal_cons_exact.
      apply Qcplus_le_compat; [apply Qcle_refl | exact IH].
    + rewrite columnTotal_cons_exact. apply Qc_not_gt_le in Hx.
      replace (columnTotal f (List.filter (fun x => ngtb (f x) nzero) l))
        with (0 + columnTotal f (List.filter (fun x => ngtb (f x) nzero) l))%Qc
        by ring.
      apply Qcplus_le_compat; assumption.
  - induction 1 as [| x l Hx _ IH]; cbn [List.filter]; [reflexivity |].
    rewrite Hx, IH. reflexivity.
Qed.

(** X21.  [handleSave], in exact arithmetic: the amount of the transfer
    order against the net total of the payroll generated with it.  The
    transfer order leaves out the workers whose net pay is not above 0
    instead of setting them off against the others, so its amount is never
    below the net total of the payroll; the two are equal when every worker
    of the draft has a net pay above 0. *)
Theorem X21_transfer_amount_is_at_least_the_payroll_net_total
    (parseFloat : string -> Qc) (taskMap : gmap Z (Task.t Qc))
    (draftData : FinalReportData.t Qc) (workedDays : list (WorkedDays.t Qc))
    (year month : Z) (period : Period) :
  parseFloat "0" = 0%Qc ->
  let payroll :=
    SavedPayroll.mk ∅
      (FinalReportView.payrollData draftData workedDays taskMap year month
         period) in
  let transferOrder :=
    FinalReportView.transferOrderData draftData workedDays taskMap year month
      period in
  (GrandTotals.net (PayrollView.grandTotals parseFloat taskMap payroll)
   <= TransferOrderContent.totalNet transferOrder)%Qc /\
  (List.map TransferOrderData.worker transferOrder
   = FinalReportData.workers draftData ->
   GrandTotals.net (PayrollView.grandTotals parseFloat taskMap payroll)
   = TransferOrderContent.totalNet transferOrder).
Proof.
  intros Hzero payroll transferOrder.
  assert (Hnet :
            GrandTotals.net (PayrollView.grandTotals parseFloat taskMap payroll)
            = columnTotal TransferOrderData.netPay
                (List.map
                   (FinalReportView.transferLine draftData workedDays taskMap
                      year month period)
                   (FinalReportData.workers draftData))).
  { unfold PayrollView.grandTotals.
    rewrite (grandTotals_fold parseFloat taskMap payroll).
    subst payroll. cbn [SavedPayroll.data GrandTotals.net].
    unfold FinalReportView.payrollData, columnTotal.
    rewrite !fold_left_over_map. apply fold_left_pointwise.
    intros sum worker. f_equal. symmetry.
    apply transfer_net_exact. exact Hzero. }
  rewrite Hnet.
  change (TransferOrderContent.totalNet transferOrder)
    with (columnTotal TransferOrderData.netPay transferOrder).
  subst transferOrder. unfold FinalReportView.transferOrderData.
  split; [apply positive_part_total |].
  intros Hall. f_equal. symmetry.
  set (lines := List.map
                  (FinalReportView.transferLine draftData workedDays taskMap
                     year month period)
                  (FinalReportData.workers draftData)) in *.
  assert (Hlen : length (List.filter
                           (fun item => ngtb (TransferOrderData.netPay item) nzero)
                           lines)
                 = length lines).
  { rewrite <- (List.length_map TransferOrderData.worker), Hall.
    subst lines. rewrite List.length_map. reflexivity. }
  clear Hall Hnet. induction lines as [| x lines IH]; [reflexivity |].
  cbn [List.filter] in Hlen |- *.
  destruct (ngtb (TransferOrderData.netPay x) nzero).
  - f_equal. apply IH. cbn [length] in Hlen. congruence.
  - exfalso. cbn [length] in Hlen.
    pose proof (List.filter_length_le
                  (fun item => ngtb (TransferOrderData.netPay item) nzero) lines).
    lia.
Qed.

Lemma X21_transfer_amount_is_at_least_the_payroll_net_total_witness :
  (GrandTotals.net
     (PayrollView.grandTotals (fun _ => 0%Qc) {[ 5%Z := Task.mk (Q2Qc 5) ]}
        (SavedPayroll.mk ∅
           (FinalReportView.payrollData
              (FinalReportData.mk [Worker.mk 1 "W" (Q2Qc 10)] exactLogs [])
              [] {[ 5%Z := Task.mk (Q2Qc 5) ]} 2025 6 PFirst)))
   <= TransferOrderContent.totalNet
        (FinalReportView.transferOrderData
           (FinalReportData.mk [Worker.mk 1 "W" (Q2Qc 10)] exactLogs [])
           [] {[ 5%Z := Task.mk (Q2Qc 5) ]} 2025 6 PFirst))%Qc.
Proof.
  exact (proj1 (X21_transfer_amount_is_at_least_the_payroll_net_total
                  (fun _ => 0%Qc) {[ 5%Z := Task.mk (Q2Qc 5) ]}
                  (FinalReportData.mk [Worker.mk 1 "W" (Q2Qc 10)] exactLogs [])
                  [] 2025 6 PFirst eq_refl)).
Defined.

(** ** SeasonView: the columns of the season table *)

Lemma addQuantity_is_Some {N : Type} `{JsNumber N} (taskId : Z) (quantity : N)
    (m : gmap Z N) (t : Z) :
  is_Some (addQuantity taskId quantity m !! t)
  <-> t = taskId \/ is_Some (m !! t).
Proof.
  unfold addQuantity. destruct (decide (t = taskId)) as [-> | Hne].
  - rewrite lookup_insert_eq. split; [intros _; left; reflexivity |].
    intros _. eexists. reflexivity.
  - rewrite lookup_insert_ne by congruence. split; [auto |].
    intros [Hc | Hs]; [contradiction | exact Hs].
Qed.

Section SeasonRows.
Context {N : Type} `{JsNumber N}.
Variable workerGroups : list (WorkerGroup.t N).

(** The tasks of the row of a worker once the logs are added. *)
Lemma addLog_fold_tasks (logs : list (DailyLog.t N))
    (data : gmap Z (SeasonRow.t N)) (w : Z) :
  match fold_left (SeasonView.addLog workerGroups) logs data !! w,
        data !! w with
  | Some row', Some row =>
      forall t,
        is_Some (SeasonRow.tasks row' !! t)
        <-> is_Some (SeasonRow.tasks row !! t) \/
            exists log,
              In log logs /\ DailyLog.workerId log = w /\
              DailyLog.taskId log = t /\
              logOwnerMatches workerGroups log = true
  | None, None => True
  | _, _ => False
  end.
Proof.
  revert data. induction logs as [| log logs IH]; intros data; cbn [fold_left].
  - destruct (data !! w) as [row |]; [| exact I].
    intros t. split; [auto |]. intros [Hs | (log & [] & _)]. exact Hs.
  - specialize (IH (SeasonView.addLog workerGroups data log)).
    destruct (fold_left (SeasonView.addLog workerGroups) logs
                (SeasonView.addLog workerGroups data log) !! w) as [row' |].
    + unfold SeasonView.addLog in IH.
      fold (logOwnerMatches workerGroups log) in IH.
      destruct (data !! DailyLog.workerId log) as [workerData |] eqn:Hwd.
      * destruct (logOwnerMatches workerGroups log) eqn:Hown.
        -- destruct (decide (w = DailyLog.workerId log)) as [-> | Hne].
           ++ rewrite lookup_insert_eq in IH. rewrite Hwd.
              intros t. rewrite IH. cbn [SeasonRow.tasks].
              rewrite addQuantity_is_Some. split.
              ** intros [[-> | Hs] | (l & Hin & Hw & Ht & Ho)].
                 --- right. exists log. repeat split; auto. left. reflexivity.
                 --- left. exact Hs.
                 --- right. exists l. repeat split; auto. right. exact Hin.
              ** intros [Hs | (l & [<- | Hin] & Hw & Ht & Ho)].
                 --- left. right. exact Hs.
                 --- left. left. symmetry. exact Ht.
                 --- right. exists l. repeat split; auto.
           ++ rewrite lookup_insert_ne in IH by congruence.
              destruct (data !! w) as [row |]; [| exact IH].
              intros t. rewrite IH. split.
              ** intros [Hs | (l & Hin & Hw & Ht & Ho)]; [left; exact Hs |].
                 right. exists l. repeat split; auto. right. exact Hin.
              ** intros [Hs | (l & [<- | Hin] & Hw & Ht & Ho)].
                 --- left. exact Hs.
                 --- congruence.
                 --- right. exists l. repeat split; auto.
        -- destruct (data !! w) as [row |]; [| exact IH].
           intros t. rewrite IH. split.
           ** intros [Hs | (l & Hin & Hw & Ht & Ho)]; [left; exact Hs |].
              right. exists l. repeat split; auto. right. exact Hin.
           ** intros [Hs | (l & [<- | Hin] & Hw & Ht & Ho)].
              --- left. exact Hs.
              --- congruence.
              --- right. exists l. repeat split; auto.
      * destruct (data !! w) as [row |] eqn:Hw'; [| exact IH].
        intros t. rewrite IH. split.
        ** intros [Hs | (l & Hin & Hw & Ht & Ho)]; [left; exact Hs |].
           right. exists l. repeat split; auto. right. exact Hin.
        ** intros [Hs | (l & [<- | Hin] & Hw & Ht & Ho)].
           --- left. exact Hs.
           --- congruence.
           --- right. exists l. repeat split; auto.
    + unfold SeasonView.addLog in IH.
      destruct (data !! DailyLog.workerId log) as [workerData |] eqn:Hwd;
        [| exact IH].
      destruct (bool_decide _); [| exact IH].
      destruct (decide (w = DailyLog.workerId log)) as [-> | Hne].
      * rewrite lookup_insert_eq in IH. destruct IH.
      * rewrite lookup_insert_ne in IH by congruence. exact IH.
Qed.

(** The attendance entries leave the tasks of the rows as they are. *)
Lemma addWorkedDays_fold_tasks (entries : list (WorkedDays.t N))
    (data : gmap Z (SeasonRow.t N)) (w : Z) :
  SeasonRow.tasks <$> fold_left (SeasonView.addWorkedDays workerGroups) entries
                        data !! w
  = SeasonRow.tasks <$> data !! w.
Proof.
  revert data. induction entries as [| wd entries IH]; intros data;
    cbn [fold_left]; [reflexivity |].
  rewrite IH. unfold SeasonView.addWorkedDays.
  destruct (data !! WorkedDays.workerId wd) as [workerData |] eqn:Hwd;
    [| reflexivity].
  destruct (bool_decide _); [| reflexivity].
  destruct (decide (w = WorkedDays.workerId wd)) as [-> | Hne].
  - rewrite lookup_insert_eq, Hwd. reflexivity.
  - rewrite lookup_insert_ne by congruence. reflexivity.
Qed.

(** The rows the loops start from: one per worker of the roster, without
    tasks. *)
Lemma initialData_lookup (w : Z) :
  match SeasonView.initialData workerGroups !! w with
  | Some row =>
      (SeasonRow.tasks row = ∅ /\ SeasonRow.workedDays row = nzero /\
       Worker.id (SeasonRow.worker row) = w) /\
      In w (List.map Worker.id (SeasonView.allWorkersFromAllGroups workerGroups))
  | None =>
      ~ In w (List.map Worker.id
                (SeasonView.allWorkersFromAllGroups workerGroups))
  end.
Proof.
  unfold SeasonView.initialData.
  generalize (SeasonView.allWorkersFromAllGroups workerGroups). intros workers.
  assert (Hgen : forall data : gmap Z (SeasonRow.t N),
            match fold_left
                    (fun data worker =>
                       <[ Worker.id worker := SeasonRow.mk worker ∅ nzero ]> data)
                    workers data !! w with
            | Some row =>
                ((SeasonRow.tasks row = ∅ /\ SeasonRow.workedDays row = nzero /\
                  Worker.id (SeasonRow.worker row) = w) /\
                 In w (List.map Worker.id workers)) \/
                data !! w = Some row
            | None => ~ In w (List.map Worker.id workers) /\ data !! w = None
            end).
  { induction workers as [| x workers IH]; intros data;
      cbn [fold_left List.map In].
    - destruct (data !! w); [right; reflexivity | split; [tauto | reflexivity]].
    - specialize (IH (<[ Worker.id x := SeasonRow.mk x ∅ nzero ]> data)).
      destruct (fold_left _ workers _ !! w) as [row |].
      + destruct IH as [[Ht Hin] | Hl]; [left; split; [exact Ht | right; exact Hin] |].
        destruct (decide (w = Worker.id x)) as [-> | Hne].
        * rewrite lookup_insert_eq in Hl. injection Hl as <-.
          left. split; [repeat split | left; reflexivity].
        * rewrite lookup_insert_ne in Hl by congruence. right. exact Hl.
      + destruct IH as [Hn Hl].
        destruct (decide (w = Worker.id x)) as [-> | Hne].
        * rewrite lookup_insert_eq in Hl. discriminate.
        * rewrite lookup_insert_ne in Hl by congruence.
          split; [| exact Hl]. intros [Heq | Hin]; [congruence | contradiction]. }
  specialize (Hgen ∅). rewrite lookup_empty in Hgen.
  destruct (fold_left _ workers ∅ !! w) as [row |].
  - destruct Hgen as [Hgen | Hc]; [exact Hgen | discriminate].
  - apply Hgen.
Qed.

End SeasonRows.

Lemma taskIds_spec {N : Type} (summaryData : gmap Z (SeasonRow.t N)) (t : Z) :
  t ∈ SeasonTable.taskIds summaryData
  <-> exists w row,
        summaryData !! w = Some row /\ is_Some (SeasonRow.tasks row !! t).
Proof.
  unfold SeasonTable.taskIds.
  apply (map_fold_weak_ind
           (fun (ids : gset Z) (m : gmap Z (SeasonRow.t N)) =>
              t ∈ ids
              <-> exists w row,
                    m !! w = Some row /\ is_Some (SeasonRow.tasks row !! t))).
  - split; [intros Hc; apply elem_of_empty in Hc; destruct Hc |].
    intros (w & row & Hc & _). rewrite lookup_empty in Hc. discriminate.
  - intros i x m ids Hnone IH.
    rewrite elem_of_union, elem_of_dom, IH. split.
    + intros [Hs | (w & row & Hl & Hs)].
      * exists i, x. rewrite lookup_insert_eq. split; [reflexivity | exact Hs].
      * exists w, row. split; [| exact Hs].
        rewrite lookup_insert_ne; [exact Hl |]. intros ->. congruence.
    + intros (w & row & Hl & Hs).
      destruct (decide (w = i)) as [-> | Hne].
      * rewrite lookup_insert_eq in Hl. injection Hl as <-. left. exact Hs.
      * rewrite lookup_insert_ne in Hl by congruence.
        right. exists w, row. split; assumption.
Qed.

(** X22.  [SeasonView], the columns of the season table: the task ids in
    ascending order, each once, of the logs the summary counts.  A task has
    a column exactly when some log of the season for it belongs to a worker
    of the roster and carries the owner of record of that worker; a log
    entered under another owner opens no column. *)
Theorem X22_season_columns_are_the_counted_tasks {N : Type} `{JsNumber N}
    (workerGroups : list (WorkerGroup.t N)) (allLogs : list (DailyLog.t N))
    (workedDays : list (WorkedDays.t N)) (startYear endYear : Z) :
  let header :=
    SeasonTable.headerTaskIds
      (SeasonView.summaryData workerGroups allLogs workedDays startYear
         endYear) in
  StronglySorted Z.lt header /\
  forall t,
    In t header
    <-> exists log,
          In log (SeasonView.logsForSeason allLogs startYear endYear) /\
          In (DailyLog.workerId log)
            (List.map Worker.id
               (SeasonView.allWorkersFromAllGroups workerGroups)) /\
          logOwnerMatches workerGroups log = true /\
          DailyLog.taskId log = t.
Proof.
  intros header. subst header. unfold SeasonTable.headerTaskIds. split.
  - apply sortIds_sorted, NoDup_ListNoDup, NoDup_elements.
  - intros t.
    rewrite sortIds_In, <- list_elem_of_In, elem_of_elements, taskIds_spec.
    unfold SeasonView.summaryData, SeasonView.seasonData.
    set (logs := SeasonView.logsForSeason allLogs startYear endYear).
    set (entries := SeasonView.workedDaysForSeason workedDays startYear endYear).
    split.
    + intros (w & row & Hl & Hs).
      apply map_lookup_filter_Some in Hl. destruct Hl as [Hl _].
      pose proof (addWorkedDays_fold_tasks workerGroups entries
                    (fold_left (SeasonView.addLog workerGroups) logs
                       (SeasonView.initialData workerGroups)) w) as Hwd.
      rewrite Hl in Hwd. cbn [fmap option_fmap option_map] in Hwd.
      pose proof (addLog_fold_tasks workerGroups logs
                    (SeasonView.initialData workerGroups) w) as Hlog.
      pose proof (initialData_lookup workerGroups w) as Hinit.
      destruct (fold_left (SeasonView.addLog workerGroups) logs
                  (SeasonView.initialData workerGroups) !! w) as [row' |];
        [| discriminate].
      cbn in Hwd. injection Hwd as Hwd. rewrite Hwd in Hs.
      destruct (SeasonView.initialData workerGroups !! w) as [row0 |];
        [| destruct Hlog].
      destruct Hinit as [(Hempty & _ & _) Hroster].
      apply Hlog in Hs. rewrite Hempty, lookup_empty in Hs.
      destruct Hs as [[x Hc] | (log & Hin & Hw & Ht & Ho)]; [discriminate |].
      exists log. rewrite Hw. repeat split; assumption.
    + intros (log & Hin & Hroster & Ho & Ht).
      set (w := DailyLog.workerId log) in *.
      pose proof (addWorkedDays_fold_tasks workerGroups entries
                    (fold_left (SeasonView.addLog workerGroups) logs
                       (SeasonView.initialData workerGroups)) w) as Hwd.
      pose proof (addLog_fold_tasks workerGroups logs
                    (SeasonView.initialData workerGroups) w) as Hlog.
      pose proof (initialData_lookup workerGroups w) as Hinit.
      destruct (SeasonView.initialData workerGroups !! w) as [row0 |];
        [| contradiction].
      destruct (fold_left (SeasonView.addLog workerGroups) logs
                  (SeasonView.initialData workerGroups) !! w) as [row' |];
        [| destruct Hlog].
      destruct (fold_left (SeasonView.addWorkedDays workerGroups) entries _ !! w)
        as [row |] eqn:Hrow; [| discriminate].
      cbn in Hwd. injection Hwd as Hwd.
      assert (Hs : is_Some (SeasonRow.tasks row !! t)).
      { rewrite Hwd. apply Hlog. right. exists log. repeat split; auto. }
      exists w, row. split; [| exact Hs].
      apply map_lookup_filter_Some. split; [exact Hrow |].
      cbn [snd]. unfold SeasonView.hasActivity.
      apply orb_true_iff. left. apply negb_true_iff, Nat.eqb_neq.
      intros Hsize. apply map_size_empty_iff in Hsize.
      rewrite Hsize, lookup_empty in Hs. destruct Hs as [x Hc]. discriminate.
Qed.

(** ** SeasonView: the rows of the season table *)

Section SeasonRowValues.
Context {N : Type} `{JsNumber N}.
Variable workerGroups : list (WorkerGroup.t N).

Lemma addLog_lookup (data : gmap Z (SeasonRow.t N)) (log : DailyLog.t N)
    (w : Z) :
  SeasonView.addLog workerGroups data log !! w
  = if (DailyLog.workerId log =? w)%Z && logOwnerMatches workerGroups log
    then
      (fun row =>
         SeasonRow.mk (SeasonRow.worker row)
           (addQuantity (DailyLog.taskId log) (DailyLog.quantity log)
              (SeasonRow.tasks row))
           (SeasonRow.workedDays row))
      <$> data !! w
    else data !! w.
Proof.
  unfold SeasonView.addLog. fold (logOwnerMatches workerGroups log).
  destruct (Z.eqb_spec (DailyLog.workerId log) w) as [<- | Hw]; cbn [andb].
  - destruct (data !! DailyLog.workerId log) as [row |] eqn:Hrow.
    + destruct (logOwnerMatches workerGroups log); [| exact Hrow].
      apply lookup_insert_eq.
    + rewrite Hrow. destruct (logOwnerMatches workerGroups log); reflexivity.
  - destruct (data !! DailyLog.workerId log) as [row |]; [| reflexivity].
    destruct (logOwnerMatches workerGroups log); [| reflexivity].
    apply lookup_insert_ne. exact Hw.
Qed.

Lemma addWorkedDays_lookup (data : gmap Z (SeasonRow.t N))
    (wd : WorkedDays.t N) (w : Z) :
  SeasonView.addWorkedDays workerGroups data wd !! w
  = if (WorkedDays.workerId wd =? w)%Z && entryOwnerMatches workerGroups wd
    then
      (fun row =>
         SeasonRow.mk (SeasonRow.worker row) (SeasonRow.tasks row)
           (SeasonRow.workedDays row + WorkedDays.days wd)%js)
      <$> data !! w
    else data !! w.
Proof.
  unfold SeasonView.addWorkedDays. fold (entryOwnerMatches workerGroups wd).
  destruct (Z.eqb_spec (WorkedDays.workerId wd) w) as [<- | Hw]; cbn [andb].
  - destruct (data !! WorkedDays.workerId wd) as [row |] eqn:Hrow.
    + destruct (entryOwnerMatches workerGroups wd); [| exact Hrow].
      apply lookup_insert_eq.
    + rewrite Hrow. destruct (entryOwnerMatches workerGroups wd); reflexivity.
  - destruct (data !! WorkedDays.workerId wd) as [row |]; [| reflexivity].
    destruct (entryOwnerMatches workerGroups wd); [| reflexivity].
    apply lookup_insert_ne. exact Hw.
Qed.

(** The row of a worker once the logs are added: the quantities of the
    worker's logs that carry the owner of record, added in the order of the
    logs. *)
Lemma addLog_fold_row (logs : list (DailyLog.t N))
    (data : gmap Z (SeasonRow.t N)) (w : Z) :
  fold_left (SeasonView.addLog workerGroups) logs data !! w
  = (fun row =>
       SeasonRow.mk (SeasonRow.worker row)
         (fold_left
            (fun m l => addQuantity (DailyLog.taskId l) (DailyLog.quantity l) m)
            (List.filter
               (fun l => (DailyLog.workerId l =? w)%Z &&
                         logOwnerMatches workerGroups l)
               logs)
            (SeasonRow.tasks row))
         (SeasonRow.workedDays row))
    <$> data !! w.
Proof.
  revert data. induction logs as [| log logs IH]; intros data;
    cbn [fold_left List.filter].
  - destruct (data !! w) as [[wk tasks days] |]; reflexivity.
  - rewrite IH, addLog_lookup.
    destruct ((DailyLog.workerId log =? w)%Z && logOwnerMatches workerGroups log);
      destruct (data !! w) as [[wk tasks days] |]; reflexivity.
Qed.

(** The row of a worker once the attendance entries are added: the days of
    the worker's entries that carry the owner of record, added in the order
    of the entries. *)
Lemma addWorkedDays_fold_row (entries : list (WorkedDays.t N))
    (data : gmap Z (SeasonRow.t N)) (w : Z) :
  fold_left (SeasonView.addWorkedDays workerGroups) entries data !! w
  = (fun row =>
       SeasonRow.mk (SeasonRow.worker row) (SeasonRow.tasks row)
         (fold_left (fun sum wd => (sum + WorkedDays.days wd)%js)
            (List.filter
               (fun wd => (WorkedDays.workerId wd =? w)%Z &&
                          entryOwnerMatches workerGroups wd)
               entries)
            (SeasonRow.workedDays row)))
    <$> data !! w.
Proof.
  revert data. induction entries as [| wd entries IH]; intros data;
    cbn [fold_left List.filter].
  - destruct (data !! w) as [[wk tasks days] |]; reflexivity.
  - rewrite IH, addWorkedDays_lookup.
    destruct ((WorkedDays.workerId wd =? w)%Z && entryOwnerMatches workerGroups wd);
      destruct (data !! w) as [[wk tasks days] |]; reflexivity.
Qed.

End SeasonRowValues.

(** X23.  [SeasonView], the row of a worker: the same sums as the bi-monthly
    table and the annual rollup.  For a worker of the roster, the quantities
    of the season row are the ones the bi-monthly aggregation gives for the
    logs of the season that carry the worker's owner of record, and the days
    worked are the sum the annual rollup makes of the attendance entries of
    the season that carry it: the same additions in the same order, equal to
    the last bit. *)
Theorem X23_season_row_adds_up_as_the_other_reports {N : Type} `{JsNumber N}
    (workerGroups : list (WorkerGroup.t N)) (allLogs : list (DailyLog.t N))
    (workedDays : list (WorkedDays.t N)) (startYear endYear : Z) (w : Z) :
  In w (List.map Worker.id (SeasonView.allWorkersFromAllGroups workerGroups)) ->
  exists row,
    SeasonView.seasonData workerGroups allLogs workedDays startYear endYear !! w
    = Some row /\
    Worker.id (SeasonRow.worker row) = w /\
    SeasonRow.tasks row
    = default ∅
        (FinalReportView.dataMap
           (List.filter (logOwnerMatches workerGroups)
              (SeasonView.logsForSeason allLogs startYear endYear)) !! w) /\
    SeasonRow.workedDays row
    = AnnualSummaryView.joursTravaillesOf
        (List.filter (entryOwnerMatches workerGroups)
           (SeasonView.workedDaysForSeason workedDays startYear endYear)) w.
Proof.
  intros Hroster. unfold SeasonView.seasonData.
  rewrite addWorkedDays_fold_row, addLog_fold_row.
  pose proof (initialData_lookup workerGroups w) as Hinit.
  destruct (SeasonView.initialData workerGroups !! w) as [[wk tasks days] |]
    eqn:Hrow; [| contradiction].
  cbn [fmap option_fmap option_map SeasonRow.worker SeasonRow.tasks
       SeasonRow.workedDays] in *.
  destruct Hinit as [(-> & -> & Hid) _].
  eexists. split; [reflexivity |].
  cbn [SeasonRow.worker SeasonRow.tasks SeasonRow.workedDays].
  split; [exact Hid | split].
  - unfold FinalReportView.dataMap.
    rewrite dataMap_fold_lookup, lookup_empty.
    rewrite <- filter_filter_andb,
      (filter_filter_comm (fun l => (DailyLog.workerId l =? w)%Z)).
    match goal with
    | |- context [match ?l with [] => None | _ :: _ => _ end] => destruct l
    end; reflexivity.
  - unfold AnnualSummaryView.joursTravaillesOf.
    rewrite <- filter_filter_andb,
      (filter_filter_comm (fun wd => (WorkedDays.workerId wd =? w)%Z)).
    reflexivity.
Qed.

Lemma X23_season_row_adds_up_as_the_other_reports_witness :
  exists row,
    SeasonView.seasonData scenarioGroups orderedLogs scenarioWorkedDays
      2025 2026 !! 1%Z = Some row /\
    SeasonRow.tasks row !! 5%Z = Some 19.599999999999998%float /\
    SeasonRow.workedDays row = 10%float.
Proof.
  destruct (X23_season_row_adds_up_as_the_other_reports scenarioGroups
              orderedLogs scenarioWorkedDays 2025 2026 1%Z
              ltac:(left; reflexivity))
    as (row & Hrow & _ & Htasks & Hdays).
  exists row. split; [exact Hrow |]. split.
  - rewrite Htasks. vm_compute. reflexivity.
  - rewrite Hdays. vm_compute. reflexivity.
Defined.

(** ** DetailedPayrollView: a new report *)

Lemma initialInputs_lookup (ids : list Z) (acc : gmap Z DetailedInputs.t)
    (id : Z) :
  fold_left (fun acc id => <[ id := DetailedInputs.mk "" "" ]> acc) ids acc !! id
  = if existsb (Z.eqb id) ids then Some (DetailedInputs.mk "" "") else acc !! id.
Proof.
  revert acc. induction ids as [| x ids IH]; intros acc;
    cbn [fold_left existsb]; [reflexivity |].
  rewrite IH.
  destruct (existsb (Z.eqb id) ids); [rewrite orb_true_r; reflexivity |].
  rewrite orb_false_r.
  destruct (Z.eqb_spec id x) as [-> | Hne].
  - apply lookup_insert_eq.
  - apply lookup_insert_ne. congruence.
Qed.

(** X24.  [DetailedPayrollView.handleGenerateDraft]: a new detailed payroll
    carries no deduction.  Every selected worker gets an entry with both
    input fields empty; on every line the advance and the income tax are 0,
    and the net pay is the total with the two indemnities less the two
    withholdings, to the last bit. *)
Theorem X24_new_detailed_payroll_has_no_deduction
    (localeCompare : string -> string -> Z)
    (workerGroups : list (WorkerGroup.t float))
    (allLogs : list (DailyLog.t float)) (workedDays : list (WorkedDays.t float))
    (taskMap : gmap Z (Task.t float)) (selectedWorkerIds : list Z)
    (selectedYear selectedMonth : Z) (selectedPeriod : Period) :
  let report :=
    DetailedPayrollView.handleGenerateDraft js_parseFloat localeCompare
      workerGroups allLogs workedDays taskMap selectedWorkerIds selectedYear
      selectedMonth selectedPeriod in
  (forall id,
     SavedDetailedPayroll.additionalInputs report !! id
     = if existsb (Z.eqb id) selectedWorkerIds
       then Some (DetailedInputs.mk "" "")
       else None) /\
  Forall
    (fun d =>
       DetailedPayrollData.avanceAid d = 0%float /\
       DetailedPayrollData.ir d = 0%float /\
       DetailedPayrollData.netAPayer d
       = (DetailedPayrollData.total d + DetailedPayrollData.indemLait d +
          DetailedPayrollData.primePanier d - DetailedPayrollData.retCnss d -
          DetailedPayrollData.retAmo d)%float)
    (SavedDetailedPayroll.data report).
Proof.
  intros report. subst report.
  unfold DetailedPayrollView.handleGenerateDraft.
  cbn [SavedDetailedPayroll.additionalInputs SavedDetailedPayroll.data].
  split.
  - intros id. rewrite initialInputs_lookup, lookup_empty. reflexivity.
  - apply arraySort_Forall.
    apply List.Forall_forall. intros d Hin.
    apply In_omap in Hin. destruct Hin as (id & _ & Hline).
    apply reportLine_equations in Hline.
    destruct Hline as (_ & _ & Hnet & Havance & Hir).
    rewrite initialInputs_lookup, lookup_empty in Havance, Hir.
    assert (Ha : DetailedPayrollData.avanceAid d = 0%float).
    { rewrite Havance. destruct (existsb (Z.eqb id) selectedWorkerIds);
        vm_compute; reflexivity. }
    assert (Hi : DetailedPayrollData.ir d = 0%float).
    { rewrite Hir. destruct (existsb (Z.eqb id) selectedWorkerIds);
        vm_compute; reflexivity. }
    split; [exact Ha |]. split; [exact Hi |].
    rewrite Hnet, Ha, Hi.
    change (@nsub float _) with PrimFloat.sub.
    change (@nadd float _) with PrimFloat.add.
    rewrite !sub_zero_r. reflexivity.
Qed.

(** ** The detailed payroll and the transfer order *)

(** X25.  In exact arithmetic a detailed payroll without adjustments pays
    what the transfer order of the same period pays: for a worker of the
    draft whom the roster has as the draft has, the net pay of the detailed
    line, with its two withholdings, is the net pay of the transfer line,
    with the combined one. *)
Theorem X25_detailed_payroll_pays_what_the_transfer_order_pays
    (parseFloat : string -> Qc) (workerGroups : list (WorkerGroup.t Qc))
    (allLogs : list (DailyLog.t Qc)) (workedDays : list (WorkedDays.t Qc))
    (taskMap : gmap Z (Task.t Qc)) (workers : list (Worker.t Qc))
    (year month : Z) (period : Period) (worker : Worker.t Qc) :
  parseFloat "0" = 0%Qc ->
  In worker workers ->
  List.find (fun w => (Worker.id w =? Worker.id worker)%Z)
    (DetailedPayrollView.allWorkers workerGroups) = Some worker ->
  DetailedPayrollData.netAPayer <$>
    DetailedPayrollView.reportLine parseFloat workerGroups allLogs workedDays
      taskMap year month period ∅ (Worker.id worker)
  = Some
      (TransferOrderData.netPay
         (FinalReportView.transferLine
            (FinalReportView.handleGenerateDraft allLogs workedDays workers
               year month period)
            workedDays taskMap year month period worker)).
Proof.
  intros Hzero Hin Hfind.
  destruct (DetailedPayrollView.reportLine parseFloat workerGroups allLogs
              workedDays taskMap year month period ∅ (Worker.id worker))
    as [line |] eqn:Hline.
  2: { unfold DetailedPayrollView.reportLine in Hline.
       rewrite Hfind in Hline. discriminate. }
  cbn [fmap option_fmap option_map]. f_equal.
  pose proof (reportLine_montant parseFloat workerGroups allLogs workedDays
                taskMap workers year month period ∅ worker line Hin Hline)
    as Hmontant.
  pose proof split_rates_exact as Hrates.
  unfold DetailedPayrollView.reportLine in Hline. rewrite Hfind in Hline.
  unfold FinalReportView.transferLine. rewrite <- Hmontant.
  change (DetailedPayrollView.getDaysWorkedForWorker workedDays year month
            period (Worker.id worker))
    with (FinalReportView.getDaysWorkedForWorker workedDays year month period
            (Worker.id worker)) in Hline.
  set (days := FinalReportView.getDaysWorkedForWorker _ _ _ _ _) in *.
  set (cnss := @RET_CNSS_RATE Qc _) in *.
  set (amo := @RET_AMO_RATE Qc _) in *.
  set (rate := @RETENU_RATE Qc _) in *.
  set (factor := (Worker.seniorityPercentage worker / ndec 100 0)%js) in *.
  set (lait := priceOr0 taskMap LAIT_TASK_ID) in *.
  set (panier := priceOr0 taskMap PANIER_TASK_ID) in *.
  rewrite lookup_empty in Hline.
  cbn [fmap option_fmap option_map orString0] in Hline.
  rewrite Hzero, orZero_exact in Hline.
  injection Hline as <-.
  cbn [DetailedPayrollData.netAPayer DetailedPayrollData.montant
       TransferOrderData.netPay].
  set (montant := fold_left _ _ _).
  cbn [nzero nadd nsub nmul ndiv Qc_JsNumber].
  rewrite <- (Hrates (montant + montant * factor + 0)%Qc). ring.
Qed.

Lemma X25_detailed_payroll_pays_what_the_transfer_order_pays_witness :
  DetailedPayrollData.netAPayer <$>
    DetailedPayrollView.reportLine (fun _ => 0%Qc)
      [ WorkerGroup.mk "G" (Some "u1") [Worker.mk 1 "W" (Q2Qc 10)] ]
      exactLogs [] {[ 5%Z := Task.mk (Q2Qc 5) ]} 2025 6 PFirst ∅ 1
  = Some
      (TransferOrderData.netPay
         (FinalReportView.transferLine
            (FinalReportView.handleGenerateDraft exactLogs []
               [Worker.mk 1 "W" (Q2Qc 10)] 2025 6 PFirst)
            [] {[ 5%Z := Task.mk (Q2Qc 5) ]} 2025 6 PFirst
            (Worker.mk 1 "W" (Q2Qc 10)))).
Proof.
  exact (X25_detailed_payroll_pays_what_the_transfer_order_pays
           (fun _ => 0%Qc)
           [ WorkerGroup.mk "G" (Some "u1") [Worker.mk 1 "W" (Q2Qc 10)] ]
           exactLogs [] {[ 5%Z := Task.mk (Q2Qc 5) ]}
           [Worker.mk 1 "W" (Q2Qc 10)] 2025 6 PFirst (Worker.mk 1 "W" (Q2Qc 10))
           eq_refl ltac:(left; reflexivity) eq_refl).
Defined.

(** ** The days worked across the reports *)

(** X26.  One attendance list gives one days-worked figure in every report
    of a period: the payroll line and the detailed payroll line of a worker
    carry the same days, and the total of the days at the foot of the
    bi-monthly table is the total of the days of the payroll lines. *)
Theorem X26_one_days_worked_figure_across_reports {N : Type} `{JsNumber N}
    (parseFloat : string -> N) (workerGroups : list (WorkerGroup.t N))
    (allLogs : list (DailyLog.t N)) (workedDays : list (WorkedDays.t N))
    (taskMap : gmap Z (Task.t N)) (draftData : FinalReportData.t N)
    (year month : Z) (period : Period) (inputs : gmap Z DetailedInputs.t) :
  (forall worker line,
     DetailedPayrollView.reportLine parseFloat workerGroups allLogs workedDays
       taskMap year month period inputs (Worker.id worker) = Some line ->
     DetailedPayrollData.joursTravailles line
     = PayrollData.joursTravailles
         (FinalReportView.payrollLine draftData workedDays taskMap year month
            period worker)) /\
  FinalReportContent.totalWorkedDays (FinalReportData.workers draftData)
    workedDays year month period
  = columnTotal PayrollData.joursTravailles
      (FinalReportView.payrollData draftData workedDays taskMap year month
         period).
Proof.
  split.
  - intros worker line Hline.
    unfold DetailedPayrollView.reportLine in Hline.
    destruct (List.find (fun w => (Worker.id w =? Worker.id worker)%Z)
                (DetailedPayrollView.allWorkers workerGroups)); [| discriminate].
    injection Hline as <-. reflexivity.
  - unfold FinalReportContent.totalWorkedDays, columnTotal,
      FinalReportView.payrollData.
    rewrite fold_left_over_map. reflexivity.
Qed.

Lemma X26_one_days_worked_figure_across_reports_witness :
  DetailedPayrollData.joursTravailles <$>
    DetailedPayrollView.reportLine js_parseFloat scenarioGroups scenarioLogs
      scenarioWorkedDays scenarioTaskMap 2025 6 PFirst ∅ 1
  = Some
      (PayrollData.joursTravailles
         (FinalReportView.payrollLine scenarioDraft scenarioWorkedDays
            scenarioTaskMap 2025 6 PFirst scenarioWorker)).
Proof.
  destruct (DetailedPayrollView.reportLine js_parseFloat scenarioGroups
              scenarioLogs scenarioWorkedDays scenarioTaskMap 2025 6 PFirst ∅ 1)
    as [line |] eqn:Hline; [| vm_compute in Hline; discriminate].
  cbn [fmap option_fmap option_map]. f_equal.
  exact (proj1 (X26_one_days_worked_figure_across_reports js_parseFloat
                  scenarioGroups scenarioLogs scenarioWorkedDays scenarioTaskMap
                  scenarioDraft 2025 6 PFirst ∅)
           scenarioWorker line Hline).
Defined.

(** ** The order of the saved lines *)

Lemma insertBy_In {A : Type} (compareFn : A -> A -> Z) (a x : A) (l : list A) :
  In x (insertBy compareFn a l) <-> x = a \/ In x l.
Proof.
  split.
  - intros Hin. apply (Permutation_in _ (insertBy_Permutation compareFn a l)) in Hin.
    destruct Hin as [<- | Hin]; [left; reflexivity | right; exact Hin].
  - intros Hin.
    apply (Permutation_in _ (Permutation_sym (insertBy_Permutation compareFn a l))).
    destruct Hin as [-> | Hin]; [left; reflexivity | right; exact Hin].
Qed.

Lemma insertBy_inOrder {A : Type} (compareFn : A -> A -> Z) (a : A) (l : list A) :
  consistentComparator compareFn ->
  inOrder compareFn l -> inOrder compareFn (insertBy compareFn a l).
Proof.
  intros [Hasym Htrans]. unfold inOrder.
  induction l as [| b l IH]; intros Hl; simpl.
  - constructor; constructor.
  - apply StronglySorted_inv in Hl. destruct Hl as [Hl Hb].
    destruct (Z.ltb_spec (compareFn a b) 0) as [Hlt | Hge].
    + constructor; [constructor; assumption |].
      constructor; [apply Hasym; exact Hlt |].
      rewrite List.Forall_forall in Hb |- *. intros x Hx.
      apply (Htrans a b x); [apply Hasym; exact Hlt | apply Hb; exact Hx].
    + constructor; [apply IH; exact Hl |].
      rewrite List.Forall_forall in Hb |- *. intros x Hx.
      apply insertBy_In in Hx. destruct Hx as [-> | Hx]; [lia | apply Hb; exact Hx].
Qed.

(** For a consistent comparator the sorted array is in order. *)
Lemma arraySort_inOrder {A : Type} (compareFn : A -> A -> Z) (l : list A) :
  consistentComparator compareFn -> inOrder compareFn (arraySort compareFn l).
Proof.
  intros Hcmp. unfold arraySort.
  assert (Hacc : forall acc,
            inOrder compareFn acc ->
            inOrder compareFn
              (fold_left (fun sorted a => insertBy compareFn a sorted) l acc)).
  { induction l as [| a l IH]; intros acc Hacc; simpl; [exact Hacc |].
    apply IH. apply insertBy_inOrder; assumption. }
  apply Hacc. constructor.
Qed.

Lemma consistentComparator_key {A K : Type} (key : A -> K)
    (compareFn : K -> K -> Z) :
  consistentComparator compareFn ->
  consistentComparator (fun a b => compareFn (key a) (key b)).
Proof.
  intros [Hasym Htrans]. split.
  - intros a b. apply Hasym.
  - intros a b c. apply Htrans.
Qed.

Lemma inOrder_map {A K : Type} (key : A -> K) (compareFn : K -> K -> Z)
    (l : list A) :
  inOrder (fun a b => compareFn (key a) (key b)) l ->
  inOrder compareFn (List.map key l).
Proof.
  unfold inOrder. induction l as [| a l IH]; intros Hl; simpl; [constructor |].
  apply StronglySorted_inv in Hl. destruct Hl as [Hl Ha].
  constructor; [apply IH; exact Hl |].
  rewrite List.Forall_forall in Ha |- *. intros k Hk.
  apply List.in_map_iff in Hk. destruct Hk as (x & <- & Hx).
  apply Ha. exact Hx.
Qed.

(** The comparison of the code units is a consistent order. *)
Lemma codeUnitCompare_consistent : consistentComparator codeUnitCompare.
Proof.
  assert (Hlt : forall a b,
            (codeUnitCompare a b < 0)%Z <-> OrderedTypeEx.String_as_OT.lt a b).
  { intros a b. rewrite <- OrderedTypeEx.String_as_OT.cmp_lt.
    unfold codeUnitCompare, OrderedTypeEx.String_as_OT.cmp.
    destruct (String.compare a b); split; (lia || discriminate || reflexivity). }
  assert (Hirrefl : forall a, ~ OrderedTypeEx.String_as_OT.lt a a).
  { intros a Ha.
    exact (OrderedTypeEx.String_as_OT.lt_not_eq a a Ha eq_refl). }
  split.
  - intros a b Hab Hba. apply Hlt in Hab, Hba.
    exact (Hirrefl a (OrderedTypeEx.String_as_OT.lt_trans a b a Hab Hba)).
  - intros a b c Hba Hcb Hca.
    rewrite Hlt in Hba, Hcb, Hca.
    destruct (String.compare a b) eqn:Hcmp.
    + apply OrderedTypeEx.String_as_OT.cmp_eq in Hcmp. subst b.
      exact (Hcb Hca).
    + apply OrderedTypeEx.String_as_OT.cmp_lt in Hcmp.
      exact (Hcb (OrderedTypeEx.String_as_OT.lt_trans c a b Hca Hcmp)).
    + apply Hba. apply OrderedTypeEx.String_as_OT.cmp_lt.
      unfold OrderedTypeEx.String_as_OT.cmp.
      rewrite String.compare_antisym, Hcmp. reflexivity.
Qed.

(** X27.  The lines a component saves are in the order of the names of their
    workers, for a [localeCompare] that is a consistent order: the lines of a
    new detailed payroll and of one saved with adjustments, which are the
    generated lines in another order, the lines of the draft of the annual
    rollup, which are the lines that pay something in another order, and the
    workers of the days-entry step of the bi-monthly form. *)
Theorem X27_saved_lines_are_in_name_order {N : Type} `{JsNumber N}
    (localeCompare : string -> string -> Z) :
  consistentComparator localeCompare ->
  (forall (parseFloat : string -> N) (workerGroups : list (WorkerGroup.t N))
          (allLogs : list (DailyLog.t N)) (workedDays : list (WorkedDays.t N))
          (taskMap : gmap Z (Task.t N)),
     let names (report : SavedDetailedPayroll.t N) :=
       List.map (fun d => Worker.name (DetailedPayrollData.worker d))
         (SavedDetailedPayroll.data report) in
     (forall (selectedWorkerIds : list Z) (year month : Z) (period : Period),
        inOrder localeCompare
          (names
             (DetailedPayrollView.handleGenerateDraft parseFloat localeCompare
                workerGroups allLogs workedDays taskMap selectedWorkerIds year
                month period))) /\
     (forall (report : SavedDetailedPayroll.t N)
             (adjustments : gmap Z DetailedInputs.t),
        let saved :=
          DetailedPayrollView.handleSaveAdjustments parseFloat localeCompare
            workerGroups allLogs workedDays taskMap report adjustments in
        inOrder localeCompare (names saved) /\
        Permutation (SavedDetailedPayroll.data saved)
          (DetailedPayrollView.generateReportData parseFloat workerGroups
             allLogs workedDays taskMap
             (SavedDetailedPayroll.workerIds report)
             (SavedDetailedPayroll.year report)
             (SavedDetailedPayroll.month report)
             (SavedDetailedPayroll.period report) adjustments))) /\
  (forall (workerGroups : list (WorkerGroup.t N)) (taskMap : gmap Z (Task.t N))
          (savedFinalReports : list (SavedFinalReport.t N))
          (selectedReportIds : list string)
          (data : list (AnnualSummaryData.t N)),
     AnnualSummaryView.handleGenerateDraft localeCompare workerGroups taskMap
       savedFinalReports selectedReportIds = Some data ->
     inOrder localeCompare
       (List.map (fun d => Worker.name (AnnualSummaryData.worker d)) data) /\
     Permutation data
       (AnnualSummaryView.processedData workerGroups taskMap savedFinalReports
          selectedReportIds)) /\
  (forall (numberToString : N -> string)
          (workerGroups : list (WorkerGroup.t N))
          (workedDays : list (WorkedDays.t N)) (selectedWorkerIds : list Z)
          (year month : Z) (period : Period) (initialDrafts : gmap Z string)
          (relevantWorkers : list (Worker.t N)),
     FinalReportView.handlePrepareDaysEntry localeCompare numberToString
       workerGroups workedDays selectedWorkerIds year month period
     = Some (initialDrafts, relevantWorkers) ->
     inOrder localeCompare (List.map Worker.name relevantWorkers)).
Proof.
  intros Hcmp. split; [| split].
  - intros parseFloat workerGroups allLogs workedDays taskMap. cbv zeta.
    assert (Hsorted : forall data : list (DetailedPayrollData.t N),
              inOrder localeCompare
                (List.map (fun d => Worker.name (DetailedPayrollData.worker d))
                   (DetailedPayrollView.sortByWorkerName localeCompare data))).
    { intros data. apply inOrder_map. unfold DetailedPayrollView.sortByWorkerName.
      apply arraySort_inOrder.
      exact (consistentComparator_key
               (fun d : DetailedPayrollData.t N =>
                  Worker.name (DetailedPayrollData.worker d))
               localeCompare Hcmp). }
    split.
    + intros. apply Hsorted.
    + intros report adjustments. split; [apply Hsorted |].
      apply arraySort_Permutation.
  - intros workerGroups taskMap savedFinalReports selectedReportIds data Hdraft.
    unfold AnnualSummaryView.handleGenerateDraft in Hdraft.
    destruct selectedReportIds as [| r0 rest] eqn:Hsel; [discriminate |].
    rewrite <- Hsel in Hdraft |- *. injection Hdraft as <-.
    split; [| apply arraySort_Permutation].
    apply inOrder_map. apply arraySort_inOrder.
    exact (consistentComparator_key
             (fun d : AnnualSummaryData.t N =>
                Worker.name (AnnualSummaryData.worker d))
             localeCompare Hcmp).
  - intros numberToString workerGroups workedDays selectedWorkerIds year month
      period initialDrafts relevantWorkers Hprepare.
    unfold FinalReportView.handlePrepareDaysEntry in Hprepare.
    destruct selectedWorkerIds as [| id ids] eqn:Hsel; [discriminate |].
    rewrite <- Hsel in Hprepare. injection Hprepare as _ <-.
    apply inOrder_map. apply arraySort_inOrder.
    exact (consistentComparator_key (@Worker.name N) localeCompare Hcmp).
Qed.

Lemma X27_saved_lines_are_in_name_order_witness :
  consistentComparator codeUnitCompare /\
  List.map (fun d => Worker.name (DetailedPayrollData.worker d))
    (DetailedPayrollView.generateReportData js_parseFloat namedGroups [] []
       scenarioTaskMap [1; 2]%Z 2025 6 PFirst ∅)
  = ["ZED"; "ABE"] /\
  inOrder codeUnitCompare
    (List.map (fun d => Worker.name (DetailedPayrollData.worker d))
       (SavedDetailedPayroll.data
          (DetailedPayrollView.handleGenerateDraft js_parseFloat codeUnitCompare
             namedGroups [] [] scenarioTaskMap [1; 2]%Z 2025 6 PFirst))).
Proof.
  split; [exact codeUnitCompare_consistent |].
  split; [vm_compute; reflexivity |].
  exact (proj1 (proj1 (X27_saved_lines_are_in_name_order codeUnitCompare
                         codeUnitCompare_consistent)
                  js_parseFloat namedGroups [] [] scenarioTaskMap)
           [1; 2]%Z 2025%Z 6%Z PFirst).
Defined.

(** ** FinalReportView: the days fields of the form *)

Lemma initialDrafts_lookup {A : Type} (value : Z -> string) (key : A -> Z)
    (workers : list A) (acc : gmap Z string) (id : Z) :
  fold_left (fun drafts worker => <[ key worker := value (key worker) ]> drafts)
    workers acc !! id
  = if existsb (Z.eqb id) (List.map key workers)
    then Some (value id) else acc !! id.
Proof.
  revert acc. induction workers as [| w workers IH]; intros acc;
    cbn [fold_left List.map existsb]; [reflexivity |].
  rewrite IH.
  destruct (existsb (Z.eqb id) (List.map key workers));
    [rewrite orb_true_r; reflexivity |].
  rewrite orb_false_r.
  destruct (Z.eqb_spec id (key w)) as [-> | Hne].
  - apply lookup_insert_eq.
  - apply lookup_insert_ne. congruence.
Qed.

(** X28.  [handlePrepareDaysEntry] and the entries [handleGenerateDraft]
    saves.  Each worker of the days-entry step, and no other id, gets a days
    field: the days of the worker's attendance entry for the period as a
    string, ['0'] when there is none.  When the form is submitted as it was
    prepared, a worker without an entry is saved with 0 days. *)
Theorem X28_days_fields_are_filled_from_the_attendance
    (localeCompare : string -> string -> Z) (numberToString : float -> string)
    (workerGroups : list (WorkerGroup.t float))
    (workedDays : list (WorkedDays.t float)) (selectedWorkerIds : list Z)
    (year month : Z) (period : Period) (initialDrafts : gmap Z string)
    (relevantWorkers : list (Worker.t float)) :
  FinalReportView.handlePrepareDaysEntry localeCompare numberToString
    workerGroups workedDays selectedWorkerIds year month period
  = Some (initialDrafts, relevantWorkers) ->
  (forall id,
     initialDrafts !! id
     = if existsb (Z.eqb id) (List.map Worker.id relevantWorkers)
       then
         Some
           match entryOfPeriod workedDays year month period id with
           | Some entry => numberToString (WorkedDays.days entry)
           | None => "0"
           end
       else None) /\
  Forall
    (fun saved =>
       entryOfPeriod workedDays year month period (WorkedDays.workerId saved)
       = None ->
       WorkedDays.days saved = 0%float)
    (FinalReportForm.newWorkedDaysEntries js_parseInt relevantWorkers
       initialDrafts year month period).
Proof.
  intros Hprepare.
  assert (Hfields : forall id,
            initialDrafts !! id
            = if existsb (Z.eqb id) (List.map Worker.id relevantWorkers)
              then
                Some
                  match entryOfPeriod workedDays year month period id with
                  | Some entry => numberToString (WorkedDays.days entry)
                  | None => "0"
                  end
              else None).
  { unfold FinalReportView.handlePrepareDaysEntry in Hprepare.
    destruct selectedWorkerIds as [| id0 ids] eqn:Hsel; [discriminate |].
    rewrite <- Hsel in Hprepare. injection Hprepare as <- <-.
    intros id.
    etransitivity.
    { exact (initialDrafts_lookup
               (fun id =>
                  match entryOfPeriod workedDays year month period id with
                  | Some entry => numberToString (WorkedDays.days entry)
                  | None => "0"
                  end)
               Worker.id _ ∅ id). }
    rewrite lookup_empty. reflexivity. }
  split; [exact Hfields |].
  apply List.Forall_forall. intros saved Hin.
  unfold FinalReportForm.newWorkedDaysEntries in Hin.
  apply List.in_map_iff in Hin. destruct Hin as (worker & <- & Hworker).
  cbn [WorkedDays.workerId WorkedDays.days]. intros Hnone.
  rewrite Hfields, Hnone.
  assert (Hex : existsb (Z.eqb (Worker.id worker))
                  (List.map Worker.id relevantWorkers) = true).
  { apply List.existsb_exists. exists (Worker.id worker).
    split; [apply List.in_map; exact Hworker | apply Z.eqb_refl]. }
  rewrite Hex. reflexivity.
Qed.

Lemma X28_days_fields_are_filled_from_the_attendance_witness :
  exists initialDrafts relevantWorkers,
    FinalReportView.handlePrepareDaysEntry codeUnitCompare (fun _ : float => "10")
      scenarioGroups scenarioWorkedDays [1]%Z 2025 6 PSecond
    = Some (initialDrafts, relevantWorkers) /\
    initialDrafts !! 1%Z = Some "0" /\
    List.map WorkedDays.days
      (FinalReportForm.newWorkedDaysEntries js_parseInt relevantWorkers
         initialDrafts 2025 6 PSecond) = [ 0%float ].
Proof.
  destruct (FinalReportView.handlePrepareDaysEntry codeUnitCompare
              (fun _ : float => "10") scenarioGroups scenarioWorkedDays [1]%Z
              2025 6 PSecond)
    as [[initialDrafts relevantWorkers] |] eqn:Hprepare;
    [| vm_compute in Hprepare; discriminate].
  exists initialDrafts, relevantWorkers. split; [reflexivity |].
  pose proof (X28_days_fields_are_filled_from_the_attendance codeUnitCompare
                (fun _ : float => "10") scenarioGroups scenarioWorkedDays [1]%Z
                2025 6 PSecond initialDrafts relevantWorkers Hprepare)
    as [Hfields Hsaved].
  assert (Hworkers : relevantWorkers = [scenarioWorker]).
  { unfold FinalReportView.handlePrepareDaysEntry in Hprepare.
    injection Hprepare as _ <-. reflexivity. }
  subst relevantWorkers. split.
  - rewrite Hfields. reflexivity.
  - unfold FinalReportForm.newWorkedDaysEntries in *.
    cbn [List.map] in *. apply Forall_inv in Hsaved.
    cbn [WorkedDays.workerId WorkedDays.days] in Hsaved.
    f_equal. apply Hsaved. reflexivity.
Defined.
